(** * Rhythm authentication core: enrollment, matching, analysis, features

    A shallow embedding of the numeric core of the morse-code rhythm
    authenticator ([enrollment.py], [matcher.py], [rhythm_analyzer.py],
    [optimized_feature_extractor.py]) together with the properties its
    specification states about it, followed by the Morse table
    ([morse_codes.py]), the tap listener ([tap_listener.py]) and the
    recording path of the enrollment window ([enrollment_ui.py]) with
    further properties read off the code.

    Modelling conventions.
    - A Python/numpy float is an exact rational ([Q]).  Rounding is
      outside the model.  A float operation whose numpy result
      is [inf] or [nan] (a division by zero, the mean of an empty array, the
      square root of a negative number) has no rational value: the run ends
      with the outcome [NonFinite], which is not a Python exception.
    - The operations do not overflow: a returned number is the exact value
      of what the code computes.  Where that value lies at or beyond the end
      of the float range ([Py.overflows]) the code cannot hold it, and its
      float is [inf] (or [nan], after further arithmetic on an [inf]).
    - A raised Python exception is the outcome [Raise e].
    - The metrics dict handed to [Enrollment.add] is a [gmap string Q];
      the stored profile, whose fields have different types, is a record of
      optional fields (an absent key is [None]).
    - [np.sqrt] and [np.linalg.inv] are library code: they are the
      operations of the class [Numpy]. *)

From stdpp Require Import gmap strings pretty.
From Stdlib Require Import Ascii QArith Qround Qabs Lqa Lia.

Local Open Scope Q_scope.

(** ** Python run-time: outcomes, comparisons, builtins *)

Module Py.

Inductive exn : Type :=
| KeyError (key : string)
| ValueError
| TypeError
| ZeroDivisionError
| LinAlgError.

Inductive outcome (A : Type) : Type :=
| Ok (a : A)
| Raise (e : exn)
| NonFinite.

Arguments Ok {A} a.
Arguments Raise {A} e.
Arguments NonFinite {A}.

Definition bind {A B : Type} (c : outcome A) (k : A -> outcome B) : outcome B :=
  match c with
  | Ok a => k a
  | Raise e => Raise e
  | NonFinite => NonFinite
  end.

(** [try: body except Exception: handler]: only raised exceptions are
    caught; a non-finite float is a value and is not. *)
Definition try_except {A : Type} (body : outcome A) (handler : outcome A) : outcome A :=
  match body with
  | Raise _ => handler
  | other => other
  end.

(** Float comparisons [x < y], [x <= y], [x == y]. *)
Definition ltb (x y : Q) : bool := negb (Qle_bool y x).
Definition leb (x y : Q) : bool := Qle_bool x y.
Definition eqb (x y : Q) : bool := Qeq_bool x y.

(** The builtins [max(a, b)] and [min(a, b)]: the first argument wins ties. *)
Definition max (a b : Q) : Q := if ltb a b then b else a.
Definition min (a b : Q) : Q := if ltb b a then b else a.

(** [d[key]] on a dict of floats. *)
Definition getitem (d : gmap string Q) (key : string) : outcome Q :=
  match d !! key with
  | Some v => Ok v
  | None => Raise (KeyError key)
  end.

(** [d.get(key, dflt)]. *)
Definition get (d : gmap string Q) (key : string) (dflt : Q) : Q :=
  match d !! key with
  | Some v => v
  | None => dflt
  end.

(** Float division [a / b] on numpy scalars and arrays: a zero divisor
    gives [inf] or [nan]. *)
Definition div (a b : Q) : outcome Q :=
  if eqb b 0 then NonFinite else Ok (a / b).

(** The end of the float range (IEEE double): the largest finite float is
    [2^1024 - 2^971], and a result of magnitude [2^1024] or more is beyond
    every finite float, whatever the rounding: the operation gives [inf]. *)
Definition FLOAT_LIMIT : Q := inject_Z (2 ^ 1024).

Definition overflows (x : Q) : Prop := FLOAT_LIMIT <= Qabs x.

End Py.

Import Py.

#[global] Instance outcome_bind : MBind outcome := fun A B k c => Py.bind c k.

(** ** The numpy operations the sources call *)

(** [np.sqrt] rounds its result, so it is kept abstract: a function that is
    non-negative on non-negative arguments.  [np_inv] is [np.linalg.inv],
    [None] standing for the [LinAlgError] of a singular matrix. *)
Class Numpy : Type := {
  np_sqrt : Q -> Q;
  np_sqrt_nonneg : forall x : Q, 0 <= x -> 0 <= np_sqrt x;
  np_inv : list (list Q) -> option (list (list Q))
}.

Module Np.

Definition sum (xs : list Q) : Q := fold_right Qplus 0 xs.

Definition len (xs : list Q) : Q := inject_Z (Z.of_nat (length xs)).

(** [np.mean]: [nan] on an empty array. *)
Definition mean (xs : list Q) : outcome Q := Py.div (sum xs) (len xs).

(** [np.clip(x, lo, hi)] is [minimum(maximum(x, lo), hi)]. *)
Definition clip (x lo hi : Q) : Q :=
  let y := if Py.ltb x lo then lo else x in
  if Py.ltb hi y then hi else y.

(** Elementwise [xs / d]. *)
Fixpoint div_each (xs : list Q) (d : Q) : outcome (list Q) :=
  match xs with
  | [] => Ok []
  | x :: rest =>
      y ← Py.div x d;
      ys ← div_each rest d;
      Ok (y :: ys)
  end.

(** [np.sqrt] on a float: [nan] below zero. *)
Definition sqrt `{Numpy} (x : Q) : outcome Q :=
  if Py.ltb x 0 then NonFinite else Ok (np_sqrt x).

(** [np.std] (population standard deviation, [ddof = 0]). *)
Definition std `{Numpy} (xs : list Q) : outcome Q :=
  m ← mean xs;
  v ← mean (map (fun x => (x - m) * (x - m)) xs);
  sqrt v.

(** Rows of equal length: what [np.asanyarray] accepts as a 2-D array. *)
Definition rectangular (a : list (list Q)) : bool :=
  match a with
  | [] => true
  | r :: rest => forallb (fun r' => Nat.eqb (length r') (length r)) rest
  end.

Definition ncols (a : list (list Q)) : nat :=
  match a with
  | [] => O
  | r :: _ => length r
  end.

Fixpoint vec_add (u v : list Q) : list Q :=
  match u, v with
  | x :: u', y :: v' => (x + y) :: vec_add u' v'
  | _, _ => []
  end.

(** [np.multiply(a, wgt).sum(axis=0)] with [wgt] broadcast along the rows. *)
Fixpoint weighted_sum (d : nat) (a : list (list Q)) (wgt : list Q) : list Q :=
  match a, wgt with
  | r :: a', w :: wgt' => vec_add (map (fun x => x * w) r) (weighted_sum d a' wgt')
  | _, _ => repeat 0 d
  end.

(** [np.average(a, axis=0, weights=wgt)] for a list of rows [a]. *)
Definition average (a : list (list Q)) (wgt : list Q) : outcome (list Q) :=
  if negb (rectangular a) then Raise ValueError
  else if negb (Nat.eqb (length wgt) (length a)) then Raise ValueError
  else
    let scl := sum wgt in
    if Py.eqb scl 0 then Raise ZeroDivisionError
    else Ok (map (fun s => s / scl) (weighted_sum (ncols a) a wgt)).

(** The boolean-mask selections [xs[xs < t]] and [xs[xs >= t]]. *)
Definition below (t : Q) (xs : list Q) : list Q :=
  filter (fun x => Py.ltb x t = true) xs.

Definition at_least (t : Q) (xs : list Q) : list Q :=
  filter (fun x => Py.leb t x = true) xs.

(** [np.sort]: the sorted array (insertion sort computes it). *)
Fixpoint insert (x : Q) (l : list Q) : list Q :=
  match l with
  | [] => [x]
  | y :: l' => if Py.leb x y then x :: l else y :: insert x l'
  end.

Definition sort (xs : list Q) : list Q := fold_right insert [] xs.

(** [np.percentile(xs, q)], default linear interpolation: the virtual index
    [(n-1) * q/100] is split into its floor and its fractional part, the
    upper neighbour is clipped to the last index.  [nan] on an empty array. *)
Definition percentile (xs : list Q) (q : Q) : outcome Q :=
  let s := sort xs in
  match s with
  | [] => NonFinite
  | _ :: _ =>
      let n := length s in
      let virtual := inject_Z (Z.of_nat (n - 1)) * (q / 100) in
      let previous := Z.to_nat (Qfloor virtual) in
      let next := Nat.min (previous + 1) (n - 1) in
      let gamma := virtual - inject_Z (Qfloor virtual) in
      let a := nth previous s 0 in
      let b := nth next s 0 in
      Ok (a + (b - a) * gamma)
  end.

(** [np.median]: the middle element, or the mean of the two middle ones. *)
Definition median (xs : list Q) : outcome Q :=
  let s := sort xs in
  match s with
  | [] => NonFinite
  | _ :: _ =>
      let n := length s in
      if Nat.even n
      then Ok ((nth (n / 2 - 1) s 0 + nth (n / 2) s 0) / 2)
      else Ok (nth (n / 2) s 0)
  end.

(** [np.arange(n)] as floats. *)
Definition arange (n : nat) : list Q :=
  map (fun i => inject_Z (Z.of_nat i)) (seq 0 n).

(** [np.polyfit(x, y, 1)[0]]: the slope of the least-squares line,
    [sum (x - mean x) (y - mean y) / sum (x - mean x)^2]. *)
Definition polyfit1_slope (xs ys : list Q) : outcome Q :=
  if Nat.eqb (length xs) 0 then Raise TypeError
  else if negb (Nat.eqb (length xs) (length ys)) then Raise TypeError
  else
    mx ← mean xs;
    my ← mean ys;
    Py.div (sum (zip_with (fun x y => (x - mx) * (y - my)) xs ys))
           (sum (map (fun x => (x - mx) * (x - mx)) xs)).

(** [u - v] on 1-D arrays, with numpy's broadcasting of a length-1 operand. *)
Definition sub (u v : list Q) : outcome (list Q) :=
  if Nat.eqb (length u) (length v) then Ok (zip_with Qminus u v)
  else match u, v with
       | [x], _ => Ok (map (fun y => x - y) v)
       | _, [y] => Ok (map (fun x => x - y) u)
       | _, _ => Raise ValueError
       end.

(** [np.dot] of two 1-D arrays. *)
Definition dot (u v : list Q) : outcome Q :=
  if Nat.eqb (length u) (length v) then Ok (sum (zip_with Qmult u v))
  else Raise ValueError.

(** [np.linalg.norm] of a 1-D array. *)
Definition norm `{Numpy} (v : list Q) : outcome Q :=
  sqrt (sum (map (fun x => Qabs x * Qabs x) v)).

(** [np.eye(n) * c]. *)
Definition eye_times (n : nat) (c : Q) : list (list Q) :=
  map (fun i => map (fun j => if Nat.eqb i j then 1 * c else 0 * c) (seq 0 n)) (seq 0 n).

Definition square (m : list (list Q)) : bool :=
  forallb (fun r => Nat.eqb (length r) (length m)) m.

(** [m + e] for a 2-D array [m] with [n] rows and the [n x n] array [e]:
    equal shapes add elementwise, a single column or a single row of [m]
    is broadcast, any other shape is a [ValueError]. *)
Definition add_square (m e : list (list Q)) : outcome (list (list Q)) :=
  let n := length m in
  let c := ncols m in
  if Nat.eqb c n then Ok (zip_with (zip_with Qplus) m e)
  else if Nat.eqb c 1
  then Ok (zip_with (fun r er => map (fun y => nth 0 r 0 + y) er) m e)
  else if Nat.eqb n 1
  then Ok (zip_with (fun r er => map (fun x => x + nth 0 er 0) r) m e)
  else Raise ValueError.

(** [np.linalg.inv]: non-square input and singular matrices raise
    [LinAlgError]. *)
Definition inv `{Numpy} (m : list (list Q)) : outcome (list (list Q)) :=
  if negb (square m) then Raise LinAlgError
  else match np_inv m with
       | Some r => Ok r
       | None => Raise LinAlgError
       end.

(** [v @ m] for a 1-D [v] and a 2-D [m]: the sum of the rows of [m]
    scaled by the entries of [v]. *)
Definition matmul_vec_mat (v : list Q) (m : list (list Q)) : outcome (list Q) :=
  if Nat.eqb (length v) (length m)
  then Ok (weighted_sum (ncols m) m v)
  else Raise ValueError.

End Np.

(** ** enrollment.py *)

Module Enrollment.

Record Enrollment : Type := {
  min_samples : Z;
  max_samples : Z;
  samples : list (list Q);
  qualities : list Q
}.

Record add_result : Type := {
  status : string;
  quality_score : Q;
  rejection_reason : option string;
  samples_collected : Z;
  samples_needed : Z
}.

Record profile : Type := {
  mean_vector : list Q;
  sample_count : Z;
  consistency_score : Q
}.

Definition __init__ (min_samples max_samples : Z) : Enrollment :=
  {| min_samples := min_samples; max_samples := max_samples;
     samples := []; qualities := [] |}.

Definition is_complete (self : Enrollment) : bool :=
  (min_samples self <=? Z.of_nat (length (samples self)))%Z.

Definition can_accept_more (self : Enrollment) : bool :=
  (Z.of_nat (length (samples self)) <? max_samples self)%Z.

Definition _compute_quality (metrics : gmap string Q) : outcome Q :=
  timing ← Py.getitem metrics "timing_precision";
  tempo ← Py.getitem metrics "tempo_consistency";
  pattern ← Py.getitem metrics "pattern_accuracy";
  let outlier_ratio := Py.get metrics "outlier_ratio" 0.0 in
  let outlier_score := 1.0 - outlier_ratio in
  let quality :=
    0.40 * timing + 0.30 * tempo + 0.20 * pattern + 0.10 * outlier_score in
  Ok (Np.clip quality 0.0 1.0).

Definition _passes_gate (metrics : gmap string Q) : outcome (bool * option string) :=
  pattern ← Py.getitem metrics "pattern_accuracy";
  if Py.ltb pattern 1.0 then Ok (false, Some "Pattern mismatch"%string)
  else
    timing ← Py.getitem metrics "timing_precision";
    if Py.ltb timing 0.85 then Ok (false, Some "Timing precision too low"%string)
    else if Py.ltb 0.25 (Py.get metrics "outlier_ratio" 0.0)
    then Ok (false, Some "Too many rhythm outliers"%string)
    else Ok (true, None).

(** [add] returns its result together with the accumulator after the call.
    Every exception is raised before the first mutation. *)
Definition add (self : Enrollment) (feature_vector : list Q)
    (rhythm_metrics : gmap string Q) : outcome add_result * Enrollment :=
  match _compute_quality rhythm_metrics with
  | Ok quality =>
      match _passes_gate rhythm_metrics with
      | Ok (accepted, reason) =>
          let self' :=
            if accepted
            then {| min_samples := min_samples self;
                    max_samples := max_samples self;
                    samples := samples self ++ [feature_vector];
                    qualities := qualities self ++ [quality] |}
            else self in
          let n := Z.of_nat (length (samples self')) in
          (Ok {| status := if accepted then "accepted" else "rejected";
                 quality_score := quality;
                 rejection_reason := reason;
                 samples_collected := n;
                 samples_needed := Z.max 0 (min_samples self' - n) |},
           self')
      | Raise e => (Raise e, self)
      | NonFinite => (NonFinite, self)
      end
  | Raise e => (Raise e, self)
  | NonFinite => (NonFinite, self)
  end.

Definition build_profile `{Numpy} (self : Enrollment) : outcome profile :=
  weights ← Np.div_each (qualities self) (Np.sum (qualities self));
  weighted_mean ← Np.average (samples self) weights;
  sd ← Np.std (qualities self);
  let consistency := 1.0 - sd in
  Ok {| mean_vector := weighted_mean;
        sample_count := Z.of_nat (length (samples self));
        consistency_score := Np.clip consistency 0.0 1.0 |}.

(** A caller's sequence of [add] calls, exceptions caught and ignored. *)
Definition add_all (self : Enrollment) (calls : list (list Q * gmap string Q)) : Enrollment :=
  fold_left (fun e c => snd (add e (fst c) (snd c))) calls self.

(** The documented precondition of [_compute_quality]: the three mandatory
    metrics are present and every metric lies in [[0,1]]. *)
Definition in_unit (o : option Q) : Prop :=
  match o with
  | Some v => 0 <= v /\ v <= 1
  | None => False
  end.

Definition unit_metrics (m : gmap string Q) : Prop :=
  in_unit (m !! "timing_precision") /\
  in_unit (m !! "tempo_consistency") /\
  in_unit (m !! "pattern_accuracy") /\
  (m !! "outlier_ratio" = None \/ in_unit (m !! "outlier_ratio")).

(** The accumulators an enrollment can reach when every call passes
    feature vectors of dimension [d] and metrics in the documented range. *)
Inductive session (d : nat) : Enrollment -> Prop :=
| session_init (lo hi : Z) : session d (__init__ lo hi)
| session_add (e : Enrollment) (fv : list Q) (m : gmap string Q) :
    session d e -> length fv = d -> unit_metrics m ->
    session d (snd (add e fv m)).

(** What every accumulator of a [session] satisfies. *)
Definition session_inv (d : nat) (e : Enrollment) : Prop :=
  length (qualities e) = length (samples e) /\
  Forall (fun v => length v = d) (samples e) /\
  Forall (fun q => 0.615 <= q) (qualities e).

(** The accumulators reached when the caller consults [can_accept_more]
    before every [add]. *)
Inductive guarded : Enrollment -> Prop :=
| guarded_init (lo hi : Z) : (0 <= hi)%Z -> guarded (__init__ lo hi)
| guarded_add (e : Enrollment) (fv : list Q) (m : gmap string Q) :
    guarded e -> can_accept_more e = true -> guarded (snd (add e fv m)).

End Enrollment.

(** ** matcher.py *)

Module Matcher.

Definition MIN_THRESHOLD : Q := 2.5.
Definition TOLERANCE_MULTIPLIER : Q := 1.2.

Record Matcher : Type := {
  threshold : option Q;
  metric : string;
  use_dynamic_threshold : bool
}.

Definition __init__ (threshold : option Q) (metric : string)
    (use_dynamic_threshold : bool) : Matcher :=
  {| threshold := threshold; metric := metric;
     use_dynamic_threshold := use_dynamic_threshold |}.

(** The stored profile dict: one optional field per key the matcher reads.
    Vectors are 1-D arrays, [cov_matrix] a 2-D array given by its rows. *)
Record profile : Type := {
  mean : option (list Q);
  mean_vector : option (list Q);
  std : option (list Q);
  std_vector : option (list Q);
  std_dev : option (list Q);
  cov_matrix : option (list (list Q));
  recommended_threshold : option Q
}.

Definition _normalize_profile (p : profile) : profile :=
  let mean' :=
    match mean p, mean_vector p with
    | None, Some mv => Some mv
    | m, _ => m
    end in
  let std' :=
    match std p with
    | None =>
        match std_vector p, std_dev p with
        | Some sv, _ => Some sv
        | None, Some sd => Some sd
        | None, None => None
        end
    | Some s => Some s
    end in
  {| mean := mean'; mean_vector := mean_vector p;
     std := std'; std_vector := std_vector p; std_dev := std_dev p;
     cov_matrix := cov_matrix p;
     recommended_threshold := recommended_threshold p |}.

(** [profile['mean']]. *)
Definition get_mean (p : profile) : outcome (list Q) :=
  match mean p with
  | Some m => Ok m
  | None => Raise (KeyError "mean")
  end.

Definition _euclidean_distance `{Numpy} (test_vector : list Q) (p : profile) : outcome Q :=
  mean_vector ← get_mean p;
  diff ← Np.sub test_vector mean_vector;
  Np.norm diff.

Definition _manhattan_distance (test_vector : list Q) (p : profile) : outcome Q :=
  mean_vector ← get_mean p;
  diff ← Np.sub test_vector mean_vector;
  Ok (Np.sum (map Qabs diff)).

Definition _mahalanobis_distance `{Numpy} (test_vector : list Q) (p : profile) : outcome Q :=
  mean_vector ← get_mean p;
  match cov_matrix p with
  | None => _euclidean_distance test_vector p
  | Some cov =>
      if negb (Nat.eqb (length cov) (length test_vector))
      then _euclidean_distance test_vector p
      else
        Py.try_except
          (cov_matrix_reg ← Np.add_square cov (Np.eye_times (length cov) 1e-4);
           cov_inv ← Np.inv cov_matrix_reg;
           diff ← Np.sub test_vector mean_vector;
           row ← Np.matmul_vec_mat diff cov_inv;
           sq ← Np.dot row diff;
           Np.sqrt sq)
          (_euclidean_distance test_vector p)
  end.

Definition _calculate_confidence (distance threshold : Q) : outcome Q :=
  if Py.eqb threshold 0 then Ok 0.0
  else if Py.ltb distance threshold
  then ratio ← Py.div distance threshold; Ok (1.0 - ratio)
  else ratio ← Py.div threshold distance; Ok (1.0 - ratio).

(** Steps 2 and 3 of [authenticate]: the local [effective_threshold],
    computed from the matcher and the normalized profile. *)
Definition effective_threshold (self : Matcher) (p : profile) : Q :=
  let base_threshold :=
    match use_dynamic_threshold self, recommended_threshold p with
    | true, Some t => t
    | _, _ => match threshold self with Some t => t | None => 2.0 end
    end in
  let effective_threshold := Py.max base_threshold MIN_THRESHOLD in
  effective_threshold * TOLERANCE_MULTIPLIER.

(** The [details] dict; the early return for a profile without a mean
    carries neither [margin] nor [metric]. *)
Record details : Type := {
  details_distance : Q;
  details_threshold : Q;
  details_margin : option Q;
  details_confidence : Q;
  details_metric : option string
}.

Definition authenticate `{Numpy} (self : Matcher) (test_vector : list Q)
    (p : profile) : outcome (Q * bool * details) :=
  let p := _normalize_profile p in
  match mean p with
  | None =>
      Ok (999.0, false,
          {| details_distance := 999.0; details_threshold := 0.0;
             details_margin := None; details_confidence := 1.0;
             details_metric := None |})
  | Some _ =>
      let effective_threshold := effective_threshold self p in
      distance ←
        (if String.eqb (metric self) "euclidean" then _euclidean_distance test_vector p
         else if String.eqb (metric self) "manhattan" then _manhattan_distance test_vector p
         else if String.eqb (metric self) "mahalanobis" then _mahalanobis_distance test_vector p
         else _euclidean_distance test_vector p);
      let accepted := Py.ltb distance effective_threshold in
      confidence ← _calculate_confidence distance effective_threshold;
      Ok (distance, accepted,
          {| details_distance := distance;
             details_threshold := effective_threshold;
             details_margin := Some (effective_threshold - distance);
             details_confidence := confidence;
             details_metric := Some (metric self) |})
  end.

(** A method that assigns to [self]: the matcher after the call is part of
    the result.  A raised exception leaves the matcher as it was at the
    raise; a non-finite float ends the modelled run. *)
Inductive run (A : Type) : Type :=
| Returns (a : A) (self : Matcher)
| Raises (e : exn) (self : Matcher)
| NotFinite.

Arguments Returns {A} a self.
Arguments Raises {A} e self.
Arguments NotFinite {A}.

Record metric_result : Type := {
  distance : Q;
  accepted : bool;
  confidence : Q
}.

Record results : Type := {
  per_metric : gmap string metric_result;
  final_decision : bool;
  avg_confidence : Q;
  votes : string
}.

Definition set_metric (self : Matcher) (m : string) : Matcher :=
  {| threshold := threshold self; metric := m;
     use_dynamic_threshold := use_dynamic_threshold self |}.

Definition metrics : list string := ["euclidean"; "manhattan"; "mahalanobis"]%string.

(** The loop [for metric in metrics] of [authenticate_with_multiple_metrics]. *)
Fixpoint collect `{Numpy} (self : Matcher) (test_vector : list Q) (p : profile)
    (todo : list string) (acc : gmap string metric_result)
    : run (gmap string metric_result) :=
  match todo with
  | [] => Returns acc self
  | m :: rest =>
      let original_metric := metric self in
      let self1 := set_metric self m in
      match authenticate self1 test_vector p with
      | Ok (d, a, det) =>
          let acc' :=
            <[m := {| distance := d; accepted := a;
                      confidence := details_confidence det |}]> acc in
          collect (set_metric self1 original_metric) test_vector p rest acc'
      | Raise e => Raises e self1
      | NonFinite => NotFinite
      end
  end.

(** [results[m]] for a metric name. *)
Definition result_of (acc : gmap string metric_result) (m : string) : outcome metric_result :=
  match acc !! m with
  | Some r => Ok r
  | None => Raise (KeyError m)
  end.

(** [[results[m] for m in names]]. *)
Fixpoint results_of (acc : gmap string metric_result) (names : list string)
    : outcome (list metric_result) :=
  match names with
  | [] => Ok []
  | m :: rest =>
      r ← result_of acc m;
      rs ← results_of acc rest;
      Ok (r :: rs)
  end.

(** Step 2 to 4: the statistics and the vote over the collected results. *)
Definition summarize (acc : gmap string metric_result) : outcome results :=
  entries ← results_of acc metrics;
  avg_confidence ← Np.mean (map confidence entries);
  let votes := length (filter (fun r => accepted r = true) entries) in
  euclidean ← result_of acc "euclidean";
  let final_decision :=
    if accepted euclidean && (1 <=? votes)%nat
    then true
    else (2 <=? votes)%nat in
  Ok {| per_metric := acc;
        final_decision := final_decision;
        avg_confidence := avg_confidence;
        votes := pretty votes +:+ "/3" |}.

Definition authenticate_with_multiple_metrics `{Numpy} (self : Matcher)
    (test_vector : list Q) (p : profile) : run results :=
  let p := _normalize_profile p in
  match collect self test_vector p metrics ∅ with
  | Returns acc self' =>
      match summarize acc with
      | Ok r => Returns r self'
      | Raise e => Raises e self'
      | NonFinite => NotFinite
      end
  | Raises e self' => Raises e self'
  | NotFinite => NotFinite
  end.

End Matcher.

(** ** rhythm_analyzer.py *)

Module RhythmAnalyzer.

(** The [password_info] dict: the two keys the analyzer reads. *)
Record password_info : Type := {
  morse_code : string;
  total_elements : Z
}.

Record details : Type := {
  avg_press : Q;
  std_press : Q;
  cv_press : Q;
  total_duration : Q
}.

(** The score dict; [_empty_score] has an empty [details]. *)
Record score : Type := {
  overall_score : Q;
  tempo_consistency : Q;
  pattern_accuracy : Q;
  timing_precision : Q;
  rhythm_stability : Q;
  dot_dash_separation : Q;
  score_details : option details
}.

(** [s.replace(' ', '')] and [s.count(c)]. *)
Fixpoint remove_spaces (s : string) : string :=
  match s with
  | EmptyString => EmptyString
  | String c rest =>
      if Ascii.eqb c " "%char then remove_spaces rest else String c (remove_spaces rest)
  end.

Fixpoint count (c : Ascii.ascii) (s : string) : Z :=
  match s with
  | EmptyString => 0%Z
  | String c' rest => ((if Ascii.eqb c c' then 1 else 0) + count c rest)%Z
  end.

(** True division of two Python ints. *)
Definition int_div (a b : Z) : outcome Q :=
  if (b =? 0)%Z then Raise ZeroDivisionError
  else Ok (inject_Z a / inject_Z b).

Definition _empty_score : score :=
  {| overall_score := 0.0; tempo_consistency := 0.0; pattern_accuracy := 0.0;
     timing_precision := 0.0; rhythm_stability := 0.0;
     dot_dash_separation := 0.0; score_details := None |}.

Definition _analyze_tempo_consistency `{Numpy} (presses gaps : list Q) : outcome Q :=
  let all_timings := if (0 <? length gaps)%nat then presses ++ gaps else presses in
  if (length all_timings <? 2)%nat then Ok 0.5
  else
    mean_time ← Np.mean all_timings;
    std_time ← Np.std all_timings;
    if Py.eqb mean_time 0 then Ok 0.0
    else
      cv ← Py.div std_time mean_time;
      let score := Py.max 0 (Py.min 1 (1.0 - (cv - 0.3) / 0.7)) in
      Ok score.

Definition _analyze_pattern_accuracy (presses : list Q) (info : password_info)
    : outcome Q :=
  let expected_elements := total_elements info in
  let actual_elements := Z.of_nat (length presses) in
  if (actual_elements =? 0)%Z then Ok 0.0
  else
    count_accuracy ←
      (if (expected_elements <=? actual_elements)%Z
       then r ← int_div expected_elements actual_elements; Ok (Py.min 1.0 r)
       else int_div actual_elements expected_elements);
    estimated_dot ← Np.percentile presses 25;
    if Py.eqb estimated_dot 0 then Ok (count_accuracy * 0.5)
    else
      let threshold := estimated_dot * 2.0 in
      let dots := Np.below threshold presses in
      let dashes := Np.at_least threshold presses in
      let morse_pattern := remove_spaces (morse_code info) in
      let expected_dots := count "."%char morse_pattern in
      let expected_dashes := count "-"%char morse_pattern in
      dot_error ←
        int_div (Z.abs (Z.of_nat (length dots) - expected_dots))
                (Z.max expected_dots 1);
      let dot_accuracy := 1.0 - dot_error in
      dash_error ←
        int_div (Z.abs (Z.of_nat (length dashes) - expected_dashes))
                (Z.max expected_dashes 1);
      let dash_accuracy := 1.0 - dash_error in
      let pattern_score :=
        count_accuracy * 0.4 + Py.max 0 dot_accuracy * 0.3
        + Py.max 0 dash_accuracy * 0.3 in
      Ok (Py.max 0 (Py.min 1 pattern_score)).

(** [1.0 - np.std(xs) / np.mean(xs) if len(xs) > 1 and np.mean(xs) > 0 else 0.5]. *)
Definition class_consistency `{Numpy} (xs : list Q) : outcome Q :=
  if (1 <? length xs)%nat
  then
    m ← Np.mean xs;
    if Py.ltb 0 m
    then s ← Np.std xs; m' ← Np.mean xs; r ← Py.div s m'; Ok (1.0 - r)
    else Ok 0.5
  else Ok 0.5.

Definition _analyze_timing_precision `{Numpy} (presses : list Q) : outcome Q :=
  if (length presses <? 2)%nat then Ok 0.5
  else
    dot_duration ← Np.percentile presses 25;
    if Py.eqb dot_duration 0 then Ok 0.0
    else
      let threshold := dot_duration * 2.0 in
      let dots := Np.below threshold presses in
      let dashes := Np.at_least threshold presses in
      dot_consistency ← class_consistency dots;
      dash_consistency ← class_consistency dashes;
      let precision_score := (dot_consistency + dash_consistency) / 2 in
      Ok (Py.max 0 (Py.min 1 precision_score)).

Definition _analyze_rhythm_stability (presses gaps : list Q) : outcome Q :=
  if (length presses <? 4)%nat then Ok 0.5
  else
    let mid := (length presses / 2)%nat in
    mean_first ← Np.mean (take mid presses);
    mean_second ← Np.mean (drop mid presses);
    if Py.eqb mean_first 0 then Ok 0.5
    else
      relative_change ← Py.div (Qabs (mean_second - mean_first)) mean_first;
      let score := Py.max 0 (Py.min 1 (1.0 - relative_change / 0.4)) in
      Ok score.

Definition _analyze_dot_dash_separation (presses : list Q) : outcome Q :=
  if (length presses <? 3)%nat then Ok 0.5
  else
    dot_duration ← Np.percentile presses 25;
    if Py.eqb dot_duration 0 then Ok 0.0
    else
      let threshold := dot_duration * 2.0 in
      let dots := Np.below threshold presses in
      let dashes := Np.at_least threshold presses in
      if Nat.eqb (length dots) 0 || Nat.eqb (length dashes) 0 then Ok 0.7
      else
        mean_dots ← Np.mean dots;
        actual_ratio ←
          (if Py.ltb 0 mean_dots
           then mean_dashes ← Np.mean dashes;
                mean_dots' ← Np.mean dots;
                Py.div mean_dashes mean_dots'
           else Ok 0);
        let ideal_ratio := 3.0 in
        ratio_error ← Py.div (Qabs (actual_ratio - ideal_ratio)) ideal_ratio;
        let separation_score := Py.max 0 (Py.min 1 (1.0 - ratio_error)) in
        Ok separation_score.

Definition analyze_rhythm `{Numpy} (presses gaps : list Q) (info : password_info)
    : outcome score :=
  if Nat.eqb (length presses) 0 then Ok _empty_score
  else
    tempo_consistency ← _analyze_tempo_consistency presses gaps;
    pattern_accuracy ← _analyze_pattern_accuracy presses info;
    timing_precision ← _analyze_timing_precision presses;
    rhythm_stability ← _analyze_rhythm_stability presses gaps;
    dot_dash_separation ← _analyze_dot_dash_separation presses;
    let overall_score :=
      tempo_consistency * 0.25 + pattern_accuracy * 0.30
      + timing_precision * 0.20 + rhythm_stability * 0.15
      + dot_dash_separation * 0.10 in
    avg_press ← Np.mean presses;
    std_press ← Np.std presses;
    cv_press ←
      (m ← Np.mean presses;
       if Py.ltb 0 m
       then s ← Np.std presses; m' ← Np.mean presses; Py.div s m'
       else Ok 0);
    Ok {| overall_score := overall_score;
          tempo_consistency := tempo_consistency;
          pattern_accuracy := pattern_accuracy;
          timing_precision := timing_precision;
          rhythm_stability := rhythm_stability;
          dot_dash_separation := dot_dash_separation;
          score_details :=
            Some {| avg_press := avg_press; std_press := std_press;
                    cv_press := cv_press;
                    total_duration := Np.sum presses + Np.sum gaps |} |}.

End RhythmAnalyzer.

(** ** optimized_feature_extractor.py

    The entries of the returned vector are exact values.  [extract] checks
    no range anywhere, so an entry that [Py.overflows] is one the code
    returns as [inf]. *)

Module OptimizedFeatureExtractor.

Record OptimizedFeatureExtractor : Type := {
  dot_dash_threshold : Q
}.

Definition __init__ (dot_dash_threshold_ratio : Q) : OptimizedFeatureExtractor :=
  {| dot_dash_threshold := dot_dash_threshold_ratio |}.

Definition _estimate_dot_duration (presses : list Q) : outcome Q :=
  if Nat.eqb (length presses) 0 then Ok 0.1
  else Np.percentile presses 25.

Definition _extract_position_features (norm_presses norm_gaps : list Q)
    : outcome (list Q) :=
  median_press ← Np.median norm_presses;
  let n := length norm_presses in
  let first :=
    map (fun i => if (i <? n)%nat then nth i norm_presses 0 else median_press)
        [0; 1; 2; 3]%nat in
  let last :=
    map (fun k => if (k <=? n)%nat then nth (n - k) norm_presses 0 else median_press)
        [4; 3; 2; 1]%nat in
  Ok (first ++ last).

(** [np.std(xs) / np.mean(xs) if len(xs) > 1 and np.mean(xs) > 0 else 0]. *)
Definition coefficient_of_variation `{Numpy} (xs : list Q) : outcome Q :=
  if (1 <? length xs)%nat
  then
    m ← Np.mean xs;
    if Py.ltb 0 m
    then s ← Np.std xs; m' ← Np.mean xs; Py.div s m'
    else Ok 0
  else Ok 0.

Definition _extract_morse_features `{Numpy} (self : OptimizedFeatureExtractor)
    (presses gaps : list Q) (base_unit : Q) : outcome (list Q) :=
  let threshold := base_unit * dot_dash_threshold self in
  let dots := Np.below threshold presses in
  let dashes := Np.at_least threshold presses in
  let total_elements := length presses in
  let dot_ratio :=
    if (0 <? total_elements)%nat then Np.len dots / Np.len presses else 0 in
  let dash_ratio :=
    if (0 <? total_elements)%nat then Np.len dashes / Np.len presses else 0 in
  avg_dot ←
    (if (0 <? length dots)%nat
     then m ← Np.mean dots; Py.div m base_unit
     else Ok 1.0);
  avg_dash ←
    (if (0 <? length dashes)%nat
     then m ← Np.mean dashes; Py.div m base_unit
     else Ok 3.0);
  cv_dots ← coefficient_of_variation dots;
  cv_dashes ← coefficient_of_variation dashes;
  dash_dot_ratio ← (if Py.ltb 0 avg_dot then Py.div avg_dash avg_dot else Ok 3.0);
  avg_gap ←
    (if (0 <? length gaps)%nat
     then m ← Np.mean gaps; Py.div m base_unit
     else Ok 1.0);
  Ok [dot_ratio; dash_ratio; avg_dot; avg_dash;
      cv_dots; cv_dashes; dash_dot_ratio; avg_gap].

Definition _calculate_skewness `{Numpy} (data : list Q) : outcome Q :=
  if (length data <? 3)%nat then Ok 0
  else
    mean ← Np.mean data;
    std ← Np.std data;
    if Py.eqb std 0 then Ok 0
    else
      z ← Np.div_each (map (fun x => x - mean) data) std;
      Np.mean (map (fun y => y * y * y) z).

Definition _extract_statistical_features `{Numpy} (norm_presses norm_gaps : list Q)
    : outcome (list Q) :=
  press_mean ← Np.mean norm_presses;
  press_std ← Np.std norm_presses;
  press_median ← Np.median norm_presses;
  press_p75 ← Np.percentile norm_presses 75;
  press_p25 ← Np.percentile norm_presses 25;
  let press_iqr := press_p75 - press_p25 in
  press_skew ← _calculate_skewness norm_presses;
  gap_mean ← Np.mean norm_gaps;
  gap_std ← Np.std norm_gaps;
  gap_median ← Np.median norm_gaps;
  gap_p75 ← Np.percentile norm_gaps 75;
  gap_p25 ← Np.percentile norm_gaps 25;
  let gap_iqr := gap_p75 - gap_p25 in
  press_gap_ratio ← (if Py.ltb 0 gap_mean then Py.div press_mean gap_mean else Ok 1.0);
  Ok [press_mean; press_std; press_median; press_iqr; press_skew;
      gap_mean; gap_std; gap_median; gap_iqr;
      press_gap_ratio].

Definition _extract_temporal_features `{Numpy} (presses gaps : list Q)
    : outcome (list Q) :=
  let total_time := Np.sum presses + Np.sum gaps in
  elements_per_second ←
    (if Py.ltb 0 total_time then Py.div (Np.len presses) total_time else Ok 0);
  let all_timings := presses ++ gaps in
  spread ← Np.std all_timings;
  rhythm_stability ← Py.div 1 (1 + spread);
  acceleration ←
    (if (3 <? length presses)%nat
     then
       let mid := (length presses / 2)%nat in
       first_half_avg ← Np.mean (take mid presses);
       second_half_avg ← Np.mean (drop mid presses);
       if Py.ltb 0 first_half_avg
       then Py.div (second_half_avg - first_half_avg) first_half_avg
       else Ok 0
     else Ok 0);
  slope ←
    (if (2 <? length presses)%nat
     then Np.polyfit1_slope (Np.arange (length presses)) presses
     else Ok 0);
  gap_slope ←
    (if (2 <? length gaps)%nat
     then Np.polyfit1_slope (Np.arange (length gaps)) gaps
     else Ok 0);
  Ok [total_time; elements_per_second; rhythm_stability;
      acceleration; slope; gap_slope].

(** The replacement of an empty input by the sentinel duration. *)
Definition or_sentinel (xs : list Q) : list Q :=
  if (0 <? length xs)%nat then xs else [0.001].

Definition extract `{Numpy} (self : OptimizedFeatureExtractor)
    (presses gaps : list Q) : outcome (list Q) :=
  let presses := or_sentinel presses in
  let gaps := or_sentinel gaps in
  base_unit ← _estimate_dot_duration presses;
  norm_presses ← Np.div_each presses base_unit;
  norm_gaps ← Np.div_each gaps base_unit;
  position_features ← _extract_position_features norm_presses norm_gaps;
  morse_features ← _extract_morse_features self presses gaps base_unit;
  statistical_features ← _extract_statistical_features norm_presses norm_gaps;
  temporal_features ← _extract_temporal_features presses gaps;
  Ok (position_features ++ morse_features ++ statistical_features ++ temporal_features).

End OptimizedFeatureExtractor.

(** ** A computable instance of the numpy interface

    Used to run the model on concrete inputs: the square root is the
    rational lower approximation to twelve decimal places, the inverse is
    Gauss-Jordan elimination on the matrix augmented with the identity. *)

Module Reference.

Definition sqrt_approx (x : Q) : Q :=
  Z.sqrt (Qnum x * Zpos (Qden x) * 10 ^ 24) # (Qden x * 10 ^ 12).

Fixpoint pick_pivot (k : nat) (rows : list (list Q))
    : option (list Q * list (list Q)) :=
  match rows with
  | [] => None
  | r :: rest =>
      if Py.eqb (nth k r 0) 0
      then match pick_pivot k rest with
           | Some (p, others) => Some (p, r :: others)
           | None => None
           end
      else Some (r, rest)
  end.

Fixpoint eliminate (fuel k : nat) (solved todo : list (list Q))
    : option (list (list Q)) :=
  match fuel with
  | O => Some solved
  | S fuel' =>
      match pick_pivot k todo with
      | None => None
      | Some (p, others) =>
          let p' := map (Qmult (/ nth k p 0)) p in
          let clear r := zip_with (fun x y => x - nth k r 0 * y) r p' in
          eliminate fuel' (S k) (map clear solved ++ [p']) (map clear others)
      end
  end.

Definition gauss_inverse (m : list (list Q)) : option (list (list Q)) :=
  let n := length m in
  match eliminate n 0 [] (zip_with app m (Np.eye_times n 1)) with
  | Some rows => Some (map (fun r => map Qred (drop n r)) rows)
  | None => None
  end.

End Reference.

#[global] Program Instance reference_numpy : Numpy := {|
  np_sqrt := Reference.sqrt_approx;
  np_inv := Reference.gauss_inverse
|}.
Next Obligation.
  intros. unfold Reference.sqrt_approx, Qle. simpl.
  rewrite Z.mul_1_r. apply Z.sqrt_nonneg.
Qed.

(** ** Concrete inputs on which the model is run *)

Module Sample.

(** A sample that passes the gate, and one whose pattern does not match. *)
Definition good_metrics : gmap string Q :=
  <["pattern_accuracy" := 1.0]>
    (<["timing_precision" := 0.9]> (<["tempo_consistency" := 0.8]> ∅)).

Definition mismatch_metrics : gmap string Q :=
  <["pattern_accuracy" := 0.9]>
    (<["timing_precision" := 1.0]> (<["tempo_consistency" := 1.0]> ∅)).

Definition vector : list Q := [1.0; 3.0; 1.0; 1.0].

Definition enrollment : Enrollment.Enrollment := Enrollment.__init__ 3 5.

(** Six accepted calls in a row on an accumulator created with
    [max_samples = 5]. *)
Definition six_calls : list (list Q * gmap string Q) :=
  repeat (vector, good_metrics) 6.

Definition matcher : Matcher.Matcher := Matcher.__init__ None "euclidean" true.

Definition empty_profile : Matcher.profile :=
  {| Matcher.mean := None; Matcher.mean_vector := None;
     Matcher.std := None; Matcher.std_vector := None; Matcher.std_dev := None;
     Matcher.cov_matrix := None; Matcher.recommended_threshold := None |}.

(** A profile as [build_profile] and the storage layer write it, with a
    covariance matrix of the wrong dimension. *)
Definition stored_profile : Matcher.profile :=
  {| Matcher.mean := None; Matcher.mean_vector := Some [1.0; 3.0; 1.0; 1.0];
     Matcher.std := None; Matcher.std_vector := None; Matcher.std_dev := None;
     Matcher.cov_matrix := Some [[1.0; 0.0]; [0.0; 1.0]];
     Matcher.recommended_threshold := Some 0.5 |}.

End Sample.

(** ** The specification's words, for comparison with the code *)

Module Spec.

(** Coordinate [j] of the weighted average of [rows] under [weights]:
    the sum over the rows of weight times coordinate. *)
Definition weighted_average_at (rows : list (list Q)) (weights : list Q) (j : nat) : Q :=
  Np.sum (zip_with (fun w r => w * nth j r 0) weights rows).

(** "The dot/dash classification leaves one of the two classes empty": with
    the threshold at twice the 25th-percentile press, no press is below it
    (all dashes) or none reaches it (all dots). *)
Definition one_class_empty (presses : list Q) : Prop :=
  exists p25 : Q,
    Np.percentile presses 25 = Ok p25 /\
    (Np.below (p25 * 2.0) presses = [] \/ Np.at_least (p25 * 2.0) presses = []).

End Spec.

(** ** morse_codes.py

    Strings are ASCII: [str.upper] is modelled on the letters a to z, which
    is what it does on ASCII text. *)

Module MorseCodes.

(** A dict written as a literal or built by a comprehension: the items are
    stored in order, a later item replacing an earlier one with its key. *)
Definition dict_of_items (items : list (string * string)) : gmap string string :=
  fold_left (fun d kv => <[fst kv := snd kv]> d) items ∅.

Definition MORSE_ITEMS : list (string * string) :=
  [("A", ".-"); ("B", "-..."); ("C", "-.-."); ("D", "-..");
   ("E", "."); ("F", "..-."); ("G", "--."); ("H", "....");
   ("I", ".."); ("J", ".---"); ("K", "-.-"); ("L", ".-..");
   ("M", "--"); ("N", "-."); ("O", "---"); ("P", ".--.");
   ("Q", "--.-"); ("R", ".-."); ("S", "..."); ("T", "-");
   ("U", "..-"); ("V", "...-"); ("W", ".--"); ("X", "-..-");
   ("Y", "-.--"); ("Z", "--..");
   ("0", "-----"); ("1", ".----"); ("2", "..---"); ("3", "...--");
   ("4", "....-"); ("5", "....."); ("6", "-...."); ("7", "--...");
   ("8", "---.."); ("9", "----.");
   ("."%string, ".-.-.-"); (","%string, "--..--"); ("?", "..--..");
   ("/", "-..-."); ("@", ".--.-."); (" ", "/")]%string.

Definition MORSE_CODE : gmap string string := dict_of_items MORSE_ITEMS.

(** [{v: k for k, v in MORSE_CODE.items()}]. *)
Definition REVERSE_MORSE_CODE : gmap string string :=
  dict_of_items (map (fun kv => (snd kv, fst kv)) MORSE_ITEMS).

Definition upper_char (c : ascii) : ascii :=
  let n := nat_of_ascii c in
  if ((97 <=? n) && (n <=? 122))%nat then ascii_of_nat (n - 32) else c.

Fixpoint upper (s : string) : string :=
  match s with
  | EmptyString => EmptyString
  | String c rest => String (upper_char c) (upper rest)
  end.

Definition get_morse_pattern (character : string) : option string :=
  MORSE_CODE !! upper character.

Definition get_character_from_morse (pattern : string) : option string :=
  REVERSE_MORSE_CODE !! pattern.

Record timing : Type := {
  timing_pattern : string;
  total_duration : Q;
  num_elements : nat;
  dots : Z;
  dashes : Z
}.

(** The loop [for i, element in enumerate(pattern)] of
    [get_expected_timing], from index [i] on. *)
Fixpoint timing_loop (dot_duration : Q) (num_elements i : nat) (rest : string)
    (total_duration : Q) : Q :=
  match rest with
  | EmptyString => total_duration
  | String element rest' =>
      let total_duration :=
        if Ascii.eqb element "."%char then total_duration + dot_duration
        else if Ascii.eqb element "-"%char then total_duration + 3 * dot_duration
        else total_duration in
      let total_duration :=
        if (i <? num_elements - 1)%nat then total_duration + dot_duration
        else total_duration in
      timing_loop dot_duration num_elements (S i) rest' total_duration
  end.

Definition get_expected_timing (character : string) (dot_duration : Q)
    : option timing :=
  match get_morse_pattern character with
  | None => None
  | Some EmptyString => None
  | Some pattern =>
      let num_elements := String.length pattern in
      Some {| timing_pattern := pattern;
              total_duration := timing_loop dot_duration num_elements 0 pattern 0;
              num_elements := num_elements;
              dots := RhythmAnalyzer.count "."%char pattern;
              dashes := RhythmAnalyzer.count "-"%char pattern |}
  end.

(** The builtin [min] on a list: [ValueError] on an empty one. *)
Definition min_of (xs : list Q) : outcome Q :=
  match xs with
  | [] => Raise ValueError
  | x :: rest => Ok (fold_left Py.min rest x)
  end.

(** The loop over [zip(presses, expected_pattern)] of
    [validate_morse_sequence]. *)
Fixpoint validate_loop (dot_duration tolerance : Q) (presses : list Q)
    (expected_pattern : string) : bool :=
  match presses, expected_pattern with
  | press :: presses', String element pattern' =>
      let expected :=
        if Ascii.eqb element "."%char then dot_duration else 3 * dot_duration in
      let lower_bound := expected * (1 - tolerance) in
      let upper_bound := expected * (1 + tolerance) in
      if negb (Py.leb lower_bound press && Py.leb press upper_bound) then false
      else validate_loop dot_duration tolerance presses' pattern'
  | _, _ => true
  end.

Definition validate_morse_sequence (presses : list Q) (expected_pattern : string)
    (tolerance : Q) : outcome bool :=
  if negb (Nat.eqb (length presses) (String.length expected_pattern)) then Ok false
  else
    dot_duration ← min_of presses;
    Ok (validate_loop dot_duration tolerance presses expected_pattern).

End MorseCodes.

(** ** tap_listener.py

    [time.time()] is an input of the two callbacks. *)

Module TapListener.

Inductive key : Type := Space | Esc | OtherKey.

Record TapListener : Type := {
  press_times : list Q;
  release_times : list Q;
  gaps : list Q;
  space_is_down : bool;
  last_release_time : option Q
}.

Definition __init__ : TapListener :=
  {| press_times := []; release_times := []; gaps := [];
     space_is_down := false; last_release_time := None |}.

(** [on_press] returns [False] to stop the listener, [None] otherwise. *)
Definition on_press (self : TapListener) (k : key) (now : Q)
    : option bool * TapListener :=
  match k with
  | Space =>
      if space_is_down self then (None, self)
      else
        let gaps' :=
          match last_release_time self with
          | Some last =>
              let gap := now - last in
              if Py.leb 0 gap then gaps self ++ [gap] else gaps self
          | None => gaps self
          end in
        (None,
         {| press_times := press_times self ++ [now];
            release_times := release_times self;
            gaps := gaps';
            space_is_down := true;
            last_release_time := last_release_time self |})
  | Esc => (Some false, self)
  | OtherKey => (None, self)
  end.

Definition on_release (self : TapListener) (k : key) (now : Q) : TapListener :=
  match k with
  | Space =>
      {| press_times := press_times self;
         release_times := release_times self ++ [now];
         gaps := gaps self;
         space_is_down := false;
         last_release_time := Some now |}
  | _ => self
  end.

(** The loop [for i in range(count)] of [get_sequences]: the lists are read
    in step, [count] being the length of the shorter one. *)
Fixpoint durations (press_times release_times : list Q) : list Q :=
  match press_times, release_times with
  | p :: ps, r :: rs =>
      let duration := r - p in
      if Py.leb 0 duration then duration :: durations ps rs else durations ps rs
  | _, _ => []
  end.

Definition get_sequences (self : TapListener) : list Q * list Q :=
  (durations (press_times self) (release_times self), gaps self).

(** What the keyboard listener delivers. *)
Inductive event : Type :=
| Press (k : key) (now : Q)
| Release (k : key) (now : Q).

(** [start]: the callbacks are run on the events until [on_press] returns
    [False]. *)
Fixpoint start (self : TapListener) (events : list event) : TapListener :=
  match events with
  | [] => self
  | Press k now :: rest =>
      match on_press self k now with
      | (Some false, self') => self'
      | (_, self') => start self' rest
      end
  | Release k now :: rest => start (on_release self k now) rest
  end.

End TapListener.

(** ** enrollment_ui.py: the enrollment state of [EnrollmentApp]

    Widgets, dialogs and timers are left out: the model keeps the
    accumulator and the list of accepted scores. *)

Module EnrollmentApp.

(** The score dict as [Enrollment.add] reads it: its float entries.  The
    entry [details] holds a dict and is never read by [add]. *)
Definition as_metrics (r : RhythmAnalyzer.score) : gmap string Q :=
  <["overall_score" := RhythmAnalyzer.overall_score r]>
    (<["tempo_consistency" := RhythmAnalyzer.tempo_consistency r]>
      (<["pattern_accuracy" := RhythmAnalyzer.pattern_accuracy r]>
        (<["timing_precision" := RhythmAnalyzer.timing_precision r]>
          (<["rhythm_stability" := RhythmAnalyzer.rhythm_stability r]>
            (<["dot_dash_separation" := RhythmAnalyzer.dot_dash_separation r]> ∅))))).

Record EnrollmentApp : Type := {
  password_info : RhythmAnalyzer.password_info;
  extractor : OptimizedFeatureExtractor.OptimizedFeatureExtractor;
  enroller : Enrollment.Enrollment;
  accepted_scores : list RhythmAnalyzer.score
}.

(** [record_enrollment_samples]: a fresh accumulator with the defaults
    (3, 5) and no accepted score. *)
Definition record_enrollment_samples (self : EnrollmentApp) : EnrollmentApp :=
  {| password_info := password_info self;
     extractor := extractor self;
     enroller := Enrollment.__init__ 3 5;
     accepted_scores := [] |}.

(** The two loops of [finish_recording] over the recorded times: press [i]
    against release [i], and press [i] against release [i - 1] for
    [i] from 1 below [count]. *)
Fixpoint gaps_between (press_times release_times : list Q) : list Q :=
  match press_times, release_times with
  | p :: ps, r :: rs =>
      let gap := p - r in
      if Py.leb 0 gap then gap :: gaps_between ps rs else gaps_between ps rs
  | _, _ => []
  end.

Definition recorded_sequences (press_times release_times : list Q)
    : list Q * list Q :=
  let count := Nat.min (length press_times) (length release_times) in
  (TapListener.durations press_times release_times,
   gaps_between (drop 1 (take count press_times)) release_times).

(** [process_sample]: nothing happens without presses; otherwise the sample
    is analyzed, its features are extracted and both are handed to the
    accumulator; an accepted score is remembered. *)
Definition process_sample `{Numpy} (self : EnrollmentApp) (presses gaps : list Q)
    : outcome (option Enrollment.add_result) * EnrollmentApp :=
  if Nat.eqb (length presses) 0 then (Ok None, self)
  else
    match RhythmAnalyzer.analyze_rhythm presses gaps (password_info self) with
    | Ok rhythm_score =>
        match OptimizedFeatureExtractor.extract (extractor self) presses gaps with
        | Ok feature_vector =>
            match Enrollment.add (enroller self) feature_vector
                    (as_metrics rhythm_score) with
            | (Ok result, enroller') =>
                (Ok (Some result),
                 {| password_info := password_info self;
                    extractor := extractor self;
                    enroller := enroller';
                    accepted_scores :=
                      if String.eqb (Enrollment.status result) "accepted"
                      then accepted_scores self ++ [rhythm_score]
                      else accepted_scores self |})
            | (Raise e, enroller') =>
                (Raise e,
                 {| password_info := password_info self;
                    extractor := extractor self;
                    enroller := enroller';
                    accepted_scores := accepted_scores self |})
            | (NonFinite, _) => (NonFinite, self)
            end
        | Raise e => (Raise e, self)
        | NonFinite => (NonFinite, self)
        end
    | Raise e => (Raise e, self)
    | NonFinite => (NonFinite, self)
    end.

(** [finish_recording]: without a completed tap nothing is processed. *)
Definition finish_recording `{Numpy} (self : EnrollmentApp)
    (press_times release_times : list Q)
    : outcome (option Enrollment.add_result) * EnrollmentApp :=
  let count := Nat.min (length press_times) (length release_times) in
  if Nat.eqb count 0 then (Ok None, self)
  else
    process_sample self
      (fst (recorded_sequences press_times release_times))
      (snd (recorded_sequences press_times release_times)).

(** The samples of one enrollment, handed to [process_sample] one after
    the other; a call that raises leaves the state it reached. *)
Definition process_all `{Numpy} (self : EnrollmentApp)
    (recordings : list (list Q * list Q)) : EnrollmentApp :=
  fold_left (fun app s => snd (process_sample app (fst s) (snd s))) recordings self.

End EnrollmentApp.

(** ** Notions used to state how the code behaves *)

Module Behaviour.

(** The three tests of [_passes_gate] on present metrics. *)
Definition gate_holds (m : gmap string Q) : Prop :=
  exists tp pa : Q,
    m !! "timing_precision" = Some tp /\ m !! "pattern_accuracy" = Some pa /\
    1.0 <= pa /\ 0.85 <= tp /\ Py.get m "outlier_ratio" 0.0 <= 0.25.

(** A call of [add] that stores its sample. *)
Definition admitted (call : list Q * gmap string Q) : bool :=
  match Enrollment._compute_quality (snd call), Enrollment._passes_gate (snd call) with
  | Ok _, Ok (true, _) => true
  | _, _ => false
  end.

(** The accumulators reached by the callers' loop
    [while not enroller.is_complete(): ... enroller.add(...)]. *)
Inductive paced : Enrollment.Enrollment -> Prop :=
| paced_init (lo hi : Z) : paced (Enrollment.__init__ lo hi)
| paced_add (e : Enrollment.Enrollment) (fv : list Q) (m : gmap string Q) :
    paced e -> Enrollment.is_complete e = false ->
    paced (snd (Enrollment.add e fv m)).

(** The distance [authenticate] computes for the configured metric. *)
Definition distance_for `{Numpy} (self : Matcher.Matcher) (tv : list Q)
    (p : Matcher.profile)
    : outcome Q :=
  if String.eqb (Matcher.metric self) "euclidean" then Matcher._euclidean_distance tv p
  else if String.eqb (Matcher.metric self) "manhattan" then Matcher._manhattan_distance tv p
  else if String.eqb (Matcher.metric self) "mahalanobis" then Matcher._mahalanobis_distance tv p
  else Matcher._euclidean_distance tv p.

(** The press durations of a pattern tapped with the canonical timing: a
    dot lasts [d], every other element three times as long. *)
Fixpoint canonical_presses (d : Q) (pattern : string) : list Q :=
  match pattern with
  | EmptyString => []
  | String element rest =>
      (if Ascii.eqb element "."%char then d else 3 * d) :: canonical_presses d rest
  end.

(** The tapped presses have the expected number of elements, of dots and
    of dashes, under the analyzer's classification. *)
Definition counts_match (presses : list Q) (info : RhythmAnalyzer.password_info)
    : Prop :=
  exists p25 : Q,
    Np.percentile presses 25 = Ok p25 /\
    RhythmAnalyzer.total_elements info = Z.of_nat (length presses) /\
    Z.of_nat (length (Np.below (p25 * 2.0) presses))
      = RhythmAnalyzer.count "."%char
          (RhythmAnalyzer.remove_spaces (RhythmAnalyzer.morse_code info)) /\
    Z.of_nat (length (Np.at_least (p25 * 2.0) presses))
      = RhythmAnalyzer.count "-"%char
          (RhythmAnalyzer.remove_spaces (RhythmAnalyzer.morse_code info)).

(** The events of a recording in which the space bar goes down and up in
    turn: for every tap the press, the presses the keyboard repeats while
    the key is held, and the release. *)
Fixpoint tap_events (taps : list (Q * list Q * Q)) : list TapListener.event :=
  match taps with
  | [] => []
  | (pressed, repeats, released) :: rest =>
      TapListener.Press TapListener.Space pressed
      :: map (TapListener.Press TapListener.Space) repeats
      ++ TapListener.Release TapListener.Space released :: tap_events rest
  end.

Definition pressed_at (tap : Q * list Q * Q) : Q := fst (fst tap).
Definition released_at (tap : Q * list Q * Q) : Q := snd tap.

(** A result of [authenticate] with the metric name it reports replaced. *)
Definition relabel (name : string)
    (o : outcome (Q * bool * Matcher.details)) : outcome (Q * bool * Matcher.details) :=
  match o with
  | Ok (d, a, det) =>
      Ok (d, a,
          {| Matcher.details_distance := Matcher.details_distance det;
             Matcher.details_threshold := Matcher.details_threshold det;
             Matcher.details_margin := Matcher.details_margin det;
             Matcher.details_confidence := Matcher.details_confidence det;
             Matcher.details_metric :=
               match Matcher.details_metric det with
               | Some _ => Some name
               | None => None
               end |})
  | other => other
  end.

End Behaviour.

(** ** Further concrete inputs *)

Module Cases.

(** A one-dimensional profile whose regularized covariance
    [cov + 1e-4 * I] is the zero matrix. *)
Definition singular_profile : Matcher.profile :=
  {| Matcher.mean := Some [1.0]; Matcher.mean_vector := None;
     Matcher.std := None; Matcher.std_vector := None; Matcher.std_dev := None;
     Matcher.cov_matrix := Some [[- 0.0001]];
     Matcher.recommended_threshold := None |}.

(** A profile as [build_profile] writes it: a mean vector and nothing else
    the matcher reads. *)
Definition plain_profile : Matcher.profile :=
  {| Matcher.mean := None; Matcher.mean_vector := Some [1.0; 3.0; 1.0; 1.0];
     Matcher.std := None; Matcher.std_vector := None; Matcher.std_dev := None;
     Matcher.cov_matrix := None; Matcher.recommended_threshold := None |}.

Definition manhattan_matcher : Matcher.Matcher :=
  Matcher.__init__ (Some 2.0) "manhattan" false.

Definition cosine_matcher : Matcher.Matcher :=
  Matcher.__init__ None "cosine" true.

(** The enrollment window as it stands when recording starts, for the
    password R. *)
Definition enrollment_app : EnrollmentApp.EnrollmentApp :=
  EnrollmentApp.record_enrollment_samples
    {| EnrollmentApp.password_info :=
         {| RhythmAnalyzer.morse_code := ".-."; RhythmAnalyzer.total_elements := 3 |};
       EnrollmentApp.extractor := OptimizedFeatureExtractor.__init__ 2.0;
       EnrollmentApp.enroller := Enrollment.__init__ 3 5;
       EnrollmentApp.accepted_scores := [] |}.

End Cases.

(** * Properties *)

(** ** Comparisons and arithmetic helpers *)

Lemma ltb_true (x y : Q) : Py.ltb x y = true <-> x < y.
Proof.
  unfold Py.ltb. rewrite negb_true_iff, <- not_true_iff_false, Qle_bool_iff.
  split; [apply Qnot_le_lt | apply Qlt_not_le].
Qed.

Lemma ltb_false (x y : Q) : Py.ltb x y = false <-> y <= x.
Proof. unfold Py.ltb. rewrite negb_false_iff. apply Qle_bool_iff. Qed.

Lemma leb_true (x y : Q) : Py.leb x y = true <-> x <= y.
Proof. apply Qle_bool_iff. Qed.

Lemma leb_false (x y : Q) : Py.leb x y = false <-> y < x.
Proof.
  unfold Py.leb. rewrite <- not_true_iff_false, Qle_bool_iff.
  split; [apply Qnot_le_lt | apply Qlt_not_le].
Qed.

Lemma eqb_true (x y : Q) : Py.eqb x y = true <-> x == y.
Proof. apply Qeq_bool_iff. Qed.

Lemma eqb_false (x y : Q) : Py.eqb x y = false <-> ~ x == y.
Proof. unfold Py.eqb. rewrite <- not_true_iff_false, Qeq_bool_iff. reflexivity. Qed.

(** Case analysis on every float comparison in sight, each branch getting
    the corresponding order fact as a hypothesis. *)
Ltac compare_floats :=
  repeat match goal with
  | |- context [Py.ltb ?x ?y] =>
      let E := fresh "E" in
      destruct (Py.ltb x y) eqn:E;
      [apply ltb_true in E | apply ltb_false in E]
  | |- context [Py.leb ?x ?y] =>
      let E := fresh "E" in
      destruct (Py.leb x y) eqn:E;
      [apply leb_true in E | apply leb_false in E]
  | |- context [Py.eqb ?x ?y] =>
      let E := fresh "E" in
      destruct (Py.eqb x y) eqn:E;
      [apply eqb_true in E | apply eqb_false in E]
  end.

(** Rewrite with the outcome of a step and run the binds it unblocks. *)
Ltac run_with H := rewrite H; cbn [mbind outcome_bind Py.bind].

Lemma div_ok (a b : Q) : ~ b == 0 -> Py.div a b = Ok (a / b).
Proof. intros Hb. unfold Py.div. apply eqb_false in Hb. now rewrite Hb. Qed.

Lemma guarded_ratio (x y dflt : Q) :
  exists v : Q, (if Py.ltb 0 y then Py.div x y else Ok dflt) = Ok v.
Proof.
  destruct (Py.ltb 0 y) eqn:E; [ | eexists; reflexivity].
  apply ltb_true in E. rewrite div_ok by lra. eexists; reflexivity.
Qed.

Lemma clip_bounds (x lo hi : Q) : lo <= hi -> lo <= Np.clip x lo hi <= hi.
Proof. intros H. unfold Np.clip. compare_floats; lra. Qed.

Lemma clip_lower (x lo hi b : Q) : b <= x -> b <= hi -> b <= Np.clip x lo hi.
Proof. intros Hx Hhi. unfold Np.clip. compare_floats; lra. Qed.

Lemma clip_upper (x lo hi b : Q) : lo <= hi -> hi <= b -> Np.clip x lo hi <= b.
Proof. intros H Hb. unfold Np.clip. compare_floats; lra. Qed.

Lemma max_lower (a b : Q) : b <= Py.max a b.
Proof. unfold Py.max. compare_floats; lra. Qed.

(** ** Enrollment: admission gate and quality score *)

Section EnrollmentFacts.

Import Enrollment.

(** [add] either leaves the accumulator alone or appends one sample and its
    quality; it never looks at [max_samples]. *)
Lemma add_cases (e : Enrollment) (fv : list Q) (m : gmap string Q) :
  snd (add e fv m) = e \/
  exists q : Q,
    _compute_quality m = Ok q /\ _passes_gate m = Ok (true, None) /\
    snd (add e fv m) =
      {| min_samples := min_samples e; max_samples := max_samples e;
         samples := samples e ++ [fv]; qualities := qualities e ++ [q] |}.
Proof.
  unfold add.
  destruct (_compute_quality m) as [q | ex | ]; [ | now left | now left].
  destruct (_passes_gate m) as [[[ | ] reason] | ex | ] eqn:G;
    [ | now left | now left | now left].
  right. exists q. split; [reflexivity | ]. split; [ | reflexivity].
  revert G. unfold _passes_gate.
  destruct (Py.getitem m "pattern_accuracy") as [pa | ? | ]; simpl; try discriminate.
  destruct (Py.ltb pa 1.0); try discriminate.
  destruct (Py.getitem m "timing_precision") as [tp | ? | ]; simpl; try discriminate.
  destruct (Py.ltb tp 0.85); try discriminate.
  destruct (Py.ltb 0.25 (Py.get m "outlier_ratio" 0.0)); try discriminate.
  intros [= <-]. reflexivity.
Qed.

Lemma add_keeps_bounds (e : Enrollment) (fv : list Q) (m : gmap string Q) :
  max_samples (snd (add e fv m)) = max_samples e /\
  min_samples (snd (add e fv m)) = min_samples e.
Proof.
  destruct (add_cases e fv m) as [-> | (q & _ & _ & ->)]; now split.
Qed.

Lemma add_grows_by_at_most_one (e : Enrollment) (fv : list Q) (m : gmap string Q) :
  (length (samples (snd (add e fv m))) <= S (length (samples e)))%nat.
Proof.
  destruct (add_cases e fv m) as [-> | (q & _ & _ & ->)]; simpl.
  - lia.
  - rewrite length_app. simpl. lia.
Qed.

(** The quality of a sample that passes the gate, for metrics in range. *)
Lemma gated_quality_bound (m : gmap string Q) (q : Q) :
  unit_metrics m ->
  _passes_gate m = Ok (true, None) ->
  _compute_quality m = Ok q ->
  0.615 <= q /\ q <= 1.
Proof.
  unfold unit_metrics, _passes_gate, _compute_quality, Py.getitem, Py.get, in_unit.
  intros (Ht & Hc & Hp & Ho).
  destruct (m !! "timing_precision") as [tp | ]; [ | contradiction].
  destruct (m !! "tempo_consistency") as [tc | ]; [ | contradiction].
  destruct (m !! "pattern_accuracy") as [pa | ]; [ | contradiction].
  simpl.
  destruct (Py.ltb pa 1.0) eqn:E1; [discriminate | apply ltb_false in E1].
  destruct (Py.ltb tp 0.85) eqn:E2; [discriminate | apply ltb_false in E2].
  destruct (m !! "outlier_ratio") as [o | ].
  - destruct Ho as [Ho | Ho]; [discriminate | ].
    destruct (Py.ltb 0.25 o) eqn:E3; [discriminate | apply ltb_false in E3].
    intros _ [= <-]. split.
    + apply clip_lower; lra.
    + apply clip_upper; lra.
  - intros _ [= <-]. split.
    + apply clip_lower; lra.
    + apply clip_upper; lra.
Qed.

Lemma session_invariant (d : nat) (e : Enrollment) :
  session d e -> session_inv d e.
Proof.
  induction 1 as [lo hi | e fv m _ IH Hfv Hm].
  - repeat split; constructor.
  - destruct IH as (Hlen & Hdim & Hq).
    destruct (add_cases e fv m) as [-> | (q & Hcq & Hg & ->)].
    + now repeat split.
    + destruct (gated_quality_bound m q Hm Hg Hcq) as [Hlo _].
      repeat split; simpl.
      * rewrite !length_app, Hlen. reflexivity.
      * apply Forall_app. split; [assumption | now repeat constructor].
      * apply Forall_app. split; [assumption | now repeat constructor].
Qed.

End EnrollmentFacts.

(** ** Sums, means and standard deviations *)

Lemma square_nonneg (x : Q) : 0 <= x * x.
Proof.
  destruct (Qlt_le_dec x 0).
  - assert (E : x * x == (- x) * (- x)) by ring.
    rewrite E. apply Qmult_le_0_compat; lra.
  - apply Qmult_le_0_compat; lra.
Qed.

Lemma quotient_nonneg (a b : Q) : 0 <= a -> 0 < b -> 0 <= a / b.
Proof. intros Ha Hb. apply Qle_shift_div_l; lra. Qed.

Lemma quotient_pos (a b : Q) : 0 < a -> 0 < b -> 0 < a / b.
Proof. intros Ha Hb. apply Qlt_shift_div_l; lra. Qed.

Lemma sum_nonneg (xs : list Q) : Forall (fun x => 0 <= x) xs -> 0 <= Np.sum xs.
Proof. induction 1; simpl; lra. Qed.

Lemma sum_pos (xs : list Q) : Forall (fun x => 0 < x) xs -> xs <> [] -> 0 < Np.sum xs.
Proof.
  intros H Hne. destruct H as [ | x xs Hx Hxs]; [congruence | ].
  assert (0 <= Np.sum xs).
  { apply sum_nonneg. eapply Forall_impl; [exact Hxs | ]. simpl. intros; lra. }
  simpl. lra.
Qed.

Lemma sum_app (xs ys : list Q) : Np.sum (xs ++ ys) == Np.sum xs + Np.sum ys.
Proof. induction xs as [ | x xs IH]; simpl; [ | rewrite IH]; ring. Qed.

Lemma len_pos (xs : list Q) : xs <> [] -> 0 < Np.len xs.
Proof.
  destruct xs as [ | x xs]; [congruence | intros _].
  unfold Np.len, Qlt. simpl. lia.
Qed.

Lemma mean_ok (xs : list Q) : xs <> [] -> Np.mean xs = Ok (Np.sum xs / Np.len xs).
Proof.
  intros Hne. unfold Np.mean. apply div_ok.
  pose proof (len_pos xs Hne). lra.
Qed.

Lemma sqrt_ok `{Numpy} (x : Q) : 0 <= x -> Np.sqrt x = Ok (np_sqrt x).
Proof.
  intros Hx. unfold Np.sqrt.
  destruct (Py.ltb x 0) eqn:E; [apply ltb_true in E; lra | reflexivity].
Qed.

Lemma sum_squares_nonneg (m : Q) (xs : list Q) :
  0 <= Np.sum (map (fun x => (x - m) * (x - m)) xs).
Proof.
  apply sum_nonneg. apply Forall_map, Forall_forall.
  intros x _. apply square_nonneg.
Qed.

(** The standard deviation of a non-empty array is a non-negative number. *)
Lemma std_ok `{Numpy} (xs : list Q) :
  xs <> [] -> exists s : Q, Np.std xs = Ok s /\ 0 <= s.
Proof.
  intros Hne. unfold Np.std.
  rewrite (mean_ok xs Hne). simpl.
  rewrite mean_ok by (destruct xs; [congruence | discriminate]). simpl.
  set (v := _ / _).
  assert (Hv : 0 <= v).
  { apply quotient_nonneg.
    - apply sum_squares_nonneg.
    - apply len_pos. destruct xs; [congruence | discriminate]. }
  exists (np_sqrt v). split.
  - now apply sqrt_ok.
  - now apply np_sqrt_nonneg.
Qed.

Lemma div_each_ok (xs : list Q) (d : Q) :
  ~ d == 0 -> Np.div_each xs d = Ok (map (fun x => x / d) xs).
Proof.
  intros Hd. induction xs as [ | x xs IH]; simpl; [reflexivity | ].
  rewrite (div_ok x d Hd). simpl. rewrite IH. reflexivity.
Qed.

Lemma sum_map_div (xs : list Q) (d : Q) :
  Np.sum (map (fun x => x / d) xs) == Np.sum xs / d.
Proof.
  induction xs as [ | x xs IH]; simpl.
  - unfold Qdiv. ring.
  - rewrite IH. unfold Qdiv. ring.
Qed.

(** ** Enrollment: the claims *)

Section EnrollmentClaims.

Import Enrollment.

(** C1, as stated, fails: [add] never consults [max_samples].  Six accepted
    calls on an accumulator created with [max_samples = 5] leave six stored
    samples. *)
Lemma max_samples_not_enforced :
  ~ (Z.of_nat (length (samples (add_all Sample.enrollment Sample.six_calls)))
     <= max_samples (add_all Sample.enrollment Sample.six_calls))%Z.
Proof. vm_compute. intros H. apply H. reflexivity. Qed.

(** C1, amended: when the caller makes every [add] call only while
    [can_accept_more()] holds, on an accumulator created with a
    non-negative [max_samples], the number of stored samples never exceeds
    [max_samples]. *)
Theorem guarded_count_le_max (e : Enrollment) :
  guarded e -> (Z.of_nat (length (samples e)) <= max_samples e)%Z.
Proof.
  induction 1 as [lo hi Hhi | e fv m _ IH Hroom]; simpl.
  - exact Hhi.
  - destruct (add_keeps_bounds e fv m) as [-> _].
    pose proof (add_grows_by_at_most_one e fv m) as Hgrow.
    unfold can_accept_more in Hroom. apply Z.ltb_lt in Hroom. lia.
Qed.

Lemma guarded_count_le_max_witness :
  (Z.of_nat (length (samples (snd (add Sample.enrollment Sample.vector Sample.good_metrics))))
   <= max_samples (snd (add Sample.enrollment Sample.vector Sample.good_metrics)))%Z.
Proof.
  apply guarded_count_le_max.
  apply guarded_add; [apply guarded_init; lia | reflexivity].
Defined.

(** C2: a sample whose [pattern_accuracy] is below 1.0 is rejected with the
    reason "Pattern mismatch", whatever the other metrics are, and the
    accumulator (its samples and its qualities) is left unchanged. *)
Theorem pattern_mismatch_rejected (e : Enrollment) (fv : list Q)
    (m : gmap string Q) (pa : Q) :
  m !! "pattern_accuracy" = Some pa ->
  pa < 1.0 ->
  is_Some (m !! "timing_precision") ->
  is_Some (m !! "tempo_consistency") ->
  exists r : add_result,
    add e fv m = (Ok r, e) /\
    status r = "rejected"%string /\
    rejection_reason r = Some "Pattern mismatch"%string /\
    samples (snd (add e fv m)) = samples e /\
    qualities (snd (add e fv m)) = qualities e.
Proof.
  intros Hpa Hlt [tp Htp] [tc Htc].
  unfold add, _compute_quality, _passes_gate, Py.getitem.
  rewrite Hpa, Htp, Htc. simpl.
  apply ltb_true in Hlt. rewrite Hlt.
  eexists. repeat split.
Qed.

Lemma pattern_mismatch_rejected_witness :
  exists r : add_result,
    add Sample.enrollment Sample.vector Sample.mismatch_metrics
      = (Ok r, Sample.enrollment) /\
    status r = "rejected"%string /\
    rejection_reason r = Some "Pattern mismatch"%string /\
    samples (snd (add Sample.enrollment Sample.vector Sample.mismatch_metrics))
      = samples Sample.enrollment /\
    qualities (snd (add Sample.enrollment Sample.vector Sample.mismatch_metrics))
      = qualities Sample.enrollment.
Proof.
  apply (pattern_mismatch_rejected _ _ _ 0.9).
  - reflexivity.
  - reflexivity.
  - exists 1.0. reflexivity.
  - exists 1.0. reflexivity.
Defined.

Lemma session_qualities_positive (d : nat) (e : Enrollment) :
  session d e -> Forall (fun q => 0 < q) (qualities e).
Proof.
  intros Hs. destruct (session_invariant d e Hs) as (_ & _ & Hq).
  eapply Forall_impl; [exact Hq | ]. simpl. intros; lra.
Qed.

(** In a session with at least one stored sample the normalizing sum of
    [build_profile] is positive and the weights are defined. *)
Lemma session_weights_defined (d : nat) (e : Enrollment) :
  session d e -> samples e <> [] ->
  0 < Np.sum (qualities e) /\
  Np.div_each (qualities e) (Np.sum (qualities e))
    = Ok (map (fun q => q / Np.sum (qualities e)) (qualities e)).
Proof.
  intros Hs Hne.
  assert (Hpos : 0 < Np.sum (qualities e)).
  { apply sum_pos; [now apply (session_qualities_positive d) | ].
    destruct (session_invariant d e Hs) as (Hlen & _ & _).
    destruct (qualities e); [ | discriminate].
    destruct (samples e); [congruence | discriminate]. }
  split; [exact Hpos | ].
  apply div_each_ok. lra.
Qed.

(** C9: for metrics in [[0,1]] that pass the gate, the quality [add] stores
    is at least 0.615; hence every stored quality is positive, the sum by
    which [build_profile] normalizes is positive, and the weights are
    defined. *)
Theorem stored_quality_bound (d : nat) (e : Enrollment) (fv : list Q)
    (m : gmap string Q) :
  session d e -> length fv = d -> unit_metrics m ->
  _passes_gate m = Ok (true, None) ->
  (exists q : Q,
     qualities (snd (add e fv m)) = qualities e ++ [q] /\ 0.615 <= q) /\
  Forall (fun q => 0 < q) (qualities (snd (add e fv m))) /\
  0 < Np.sum (qualities (snd (add e fv m))) /\
  exists w : list Q,
    Np.div_each (qualities (snd (add e fv m)))
                (Np.sum (qualities (snd (add e fv m)))) = Ok w.
Proof.
  intros Hs Hfv Hm Hg.
  assert (Hs' : session d (snd (add e fv m))) by now constructor.
  assert (Hstored : exists q : Q,
            samples (snd (add e fv m)) = samples e ++ [fv] /\
            qualities (snd (add e fv m)) = qualities e ++ [q] /\ 0.615 <= q).
  { unfold add. rewrite Hg.
    destruct (_compute_quality m) as [q | ex | ] eqn:Hq.
    - exists q. simpl. repeat split.
      now destruct (gated_quality_bound m q Hm Hg Hq).
    - revert Hq. unfold _compute_quality, Py.getitem.
      destruct Hm as (Ht & Hc & Hp & _). unfold in_unit in *.
      destruct (m !! "timing_precision"); [ | contradiction].
      destruct (m !! "tempo_consistency"); [ | contradiction].
      destruct (m !! "pattern_accuracy"); [ | contradiction].
      discriminate.
    - revert Hq. unfold _compute_quality, Py.getitem.
      destruct (m !! "timing_precision"); [ | discriminate].
      destruct (m !! "tempo_consistency"); [ | discriminate].
      destruct (m !! "pattern_accuracy"); discriminate. }
  destruct Hstored as (q & Hsam & Hqual & Hq).
  assert (Hne : samples (snd (add e fv m)) <> []).
  { rewrite Hsam. destruct (samples e); discriminate. }
  destruct (session_weights_defined d _ Hs' Hne) as [Hpos Hw].
  split; [now exists q | ].
  split; [now apply (session_qualities_positive d) | ].
  split; [exact Hpos | ].
  eexists. exact Hw.
Qed.

Lemma stored_quality_bound_witness :
  (exists q : Q,
     qualities (snd (add Sample.enrollment Sample.vector Sample.good_metrics))
       = qualities Sample.enrollment ++ [q] /\ 0.615 <= q) /\
  Forall (fun q => 0 < q)
    (qualities (snd (add Sample.enrollment Sample.vector Sample.good_metrics))) /\
  0 < Np.sum (qualities (snd (add Sample.enrollment Sample.vector Sample.good_metrics))) /\
  exists w : list Q,
    Np.div_each
      (qualities (snd (add Sample.enrollment Sample.vector Sample.good_metrics)))
      (Np.sum (qualities (snd (add Sample.enrollment Sample.vector Sample.good_metrics))))
    = Ok w.
Proof.
  apply (stored_quality_bound 4).
  - apply session_init.
  - reflexivity.
  - unfold unit_metrics. repeat split; try (left; reflexivity);
      vm_compute; discriminate.
  - reflexivity.
Defined.

End EnrollmentClaims.

(** ** Enrollment: the profile *)

Section ProfileClaims.

Import Enrollment.

Lemma rectangular_ok (d : nat) (a : list (list Q)) :
  Forall (fun v => length v = d) a -> Np.rectangular a = true.
Proof.
  intros Ha. destruct Ha as [ | r a Hr Ha]; [reflexivity | ]. simpl.
  apply forallb_forall. intros r' Hin.
  rewrite Forall_forall in Ha. apply Nat.eqb_eq.
  rewrite Hr. apply Ha. now apply list_elem_of_In.
Qed.

Lemma vec_add_length (u v : list Q) :
  length u = length v -> length (Np.vec_add u v) = length u.
Proof.
  revert v. induction u as [ | x u IH]; intros [ | y v]; simpl; try easy.
  intros [= Hl]. now rewrite IH.
Qed.

Lemma nth_vec_add (u v : list Q) (j : nat) :
  length u = length v -> (j < length u)%nat ->
  nth j (Np.vec_add u v) 0 = nth j u 0 + nth j v 0.
Proof.
  revert v j. induction u as [ | x u IH]; intros [ | y v] j; simpl; try easy; try lia.
  intros [= Hl] Hj. destruct j as [ | j]; [reflexivity | ].
  apply IH; [assumption | lia].
Qed.

Lemma nth_map_Q (f : Q -> Q) (l : list Q) (j : nat) :
  (j < length l)%nat -> nth j (map f l) 0 = f (nth j l 0).
Proof.
  intros Hj. rewrite (nth_indep _ 0 (f 0)) by now rewrite length_map.
  apply map_nth.
Qed.

Lemma nth_repeat_zero (d j : nat) : nth j (repeat (0 : Q) d) 0 = 0.
Proof.
  revert j. induction d as [ | d IH]; intros [ | j]; simpl; auto.
Qed.

Lemma weighted_sum_length (d : nat) (a : list (list Q)) (w : list Q) :
  Forall (fun v => length v = d) a -> length (Np.weighted_sum d a w) = d.
Proof.
  intros Ha. revert w.
  induction Ha as [ | r a Hr Ha IH]; intros w; simpl.
  - apply repeat_length.
  - destruct w as [ | x w]; [apply repeat_length | ].
    rewrite vec_add_length; rewrite length_map; [assumption | ].
    now rewrite IH.
Qed.

(** The code's column sums agree with the coordinate-wise definition. *)
Lemma nth_weighted_sum (d : nat) (a : list (list Q)) (w : list Q) (j : nat) :
  Forall (fun v => length v = d) a -> (j < d)%nat ->
  nth j (Np.weighted_sum d a w) 0 == Spec.weighted_average_at a w j.
Proof.
  intros Ha Hj. revert w. unfold Spec.weighted_average_at.
  induction Ha as [ | r a Hr Ha IH]; intros w; simpl.
  - rewrite nth_repeat_zero. now destruct w.
  - destruct w as [ | x w]; simpl; [now rewrite nth_repeat_zero | ].
    rewrite nth_vec_add.
    + rewrite nth_map_Q by lia. rewrite IH. ring.
    + rewrite length_map, weighted_sum_length; assumption.
    + rewrite length_map. lia.
Qed.

(** C4: for a session with at least one accepted sample, the weights of
    [build_profile] (each stored quality divided by the sum of the stored
    qualities) sum to 1, [build_profile] returns, and its [mean_vector] is,
    coordinate by coordinate, the weighted average of the stored vectors
    under those weights. *)
Theorem profile_weights_sum_to_one `{Numpy} (d : nat) (e : Enrollment) :
  session d e -> samples e <> [] ->
  exists (weights : list Q) (prof : profile),
    Np.div_each (qualities e) (Np.sum (qualities e)) = Ok weights /\
    Np.sum weights == 1 /\
    build_profile e = Ok prof /\
    length (mean_vector prof) = d /\
    forall j : nat, (j < d)%nat ->
      nth j (mean_vector prof) 0 == Spec.weighted_average_at (samples e) weights j.
Proof.
  intros Hs Hne.
  destruct (session_weights_defined d e Hs Hne) as [Hpos Hw].
  destruct (session_invariant d e Hs) as (Hlen & Hdim & _).
  set (weights := map (fun q => q / Np.sum (qualities e)) (qualities e)) in *.
  assert (Hone : Np.sum weights == 1).
  { unfold weights. rewrite sum_map_div. field. lra. }
  assert (Hq : qualities e <> []).
  { destruct (qualities e); [ | discriminate].
    destruct (samples e); [congruence | discriminate]. }
  destruct (std_ok (qualities e) Hq) as (sd & Hsd & _).
  assert (Hcols : Np.ncols (samples e) = d).
  { destruct Hdim; [congruence | assumption]. }
  exists weights. eexists.
  split; [exact Hw | ]. split; [exact Hone | ].
  unfold build_profile. rewrite Hw. simpl.
  unfold Np.average.
  rewrite (rectangular_ok d) by assumption. simpl.
  replace (length weights) with (length (samples e))
    by (unfold weights; now rewrite length_map).
  rewrite Nat.eqb_refl. simpl.
  destruct (Py.eqb (Np.sum weights) 0) eqn:E; [apply eqb_true in E; lra | ].
  simpl. rewrite Hsd. simpl.
  split; [reflexivity | ]. simpl. rewrite Hcols.
  split.
  - rewrite length_map. now apply weighted_sum_length.
  - intros j Hj.
    rewrite nth_map_Q by now rewrite weighted_sum_length.
    rewrite nth_weighted_sum by assumption.
    rewrite Hone. field.
Qed.

Lemma profile_weights_sum_to_one_witness :
  exists (weights : list Q) (prof : profile),
    Np.div_each
      (qualities (snd (add Sample.enrollment Sample.vector Sample.good_metrics)))
      (Np.sum (qualities (snd (add Sample.enrollment Sample.vector Sample.good_metrics))))
      = Ok weights /\
    Np.sum weights == 1 /\
    build_profile (snd (add Sample.enrollment Sample.vector Sample.good_metrics))
      = Ok prof /\
    length (mean_vector prof) = 4%nat /\
    forall j : nat, (j < 4)%nat ->
      nth j (mean_vector prof) 0
      == Spec.weighted_average_at
           (samples (snd (add Sample.enrollment Sample.vector Sample.good_metrics)))
           weights j.
Proof.
  apply (profile_weights_sum_to_one 4).
  - apply session_add.
    + apply session_init.
    + reflexivity.
    + unfold unit_metrics. repeat split; try (left; reflexivity);
        vm_compute; discriminate.
  - vm_compute. discriminate.
Defined.

End ProfileClaims.

(** ** Matcher *)

Section MatcherClaims.

Import Matcher.

Context `{Numpy}.

Lemma normalize_idempotent (p : profile) :
  _normalize_profile (_normalize_profile p) = _normalize_profile p.
Proof.
  destruct p as [m mv s sv sd c t]. unfold _normalize_profile. simpl.
  destruct m, mv, s, sv, sd; reflexivity.
Qed.

Lemma set_metric_restores (self : Matcher) (m : string) :
  set_metric (set_metric self m) (metric self) = self.
Proof. now destruct self. Qed.

(** Without a mean the single-metric method answers with the sentinel,
    whatever the configured metric. *)
Lemma authenticate_without_mean (self : Matcher) (tv : list Q) (p : profile) :
  mean (_normalize_profile p) = None ->
  authenticate self tv p =
    Ok (999.0, false,
        {| details_distance := 999.0; details_threshold := 0.0;
           details_margin := None; details_confidence := 1.0;
           details_metric := None |}).
Proof. intros Hm. unfold authenticate. now rewrite Hm. Qed.

(** The loop hands the matcher back as it received it whenever it runs to
    its end. *)
Lemma collect_restores (self self' : Matcher) (tv : list Q) (p : profile)
    (todo : list string) (acc acc' : gmap string metric_result) :
  collect self tv p todo acc = Returns acc' self' -> self' = self.
Proof.
  revert self acc. induction todo as [ | m rest IH]; intros self acc; simpl.
  - now intros [= _ <-].
  - destruct (authenticate (set_metric self m) tv p) as [[[d a] det] | e | ];
      try discriminate.
    rewrite set_metric_restores. apply IH.
Qed.

(** C5: with a profile whose normalized form has no mean vector, the
    multi-metric method returns (no exception), every per-metric distance is
    the sentinel 999.0, no metric accepts, and the final decision is a
    denial. *)
Theorem missing_mean_is_denied (self : Matcher) (tv : list Q) (p : profile) :
  mean (_normalize_profile p) = None ->
  exists r : results,
    authenticate_with_multiple_metrics self tv p = Returns r self /\
    final_decision r = false /\
    forall m : string, In m metrics ->
      exists mr : metric_result,
        per_metric r !! m = Some mr /\ distance mr = 999.0 /\ accepted mr = false.
Proof.
  intros Hm.
  assert (Hm' : mean (_normalize_profile (_normalize_profile p)) = None)
    by now rewrite normalize_idempotent.
  unfold authenticate_with_multiple_metrics, metrics. simpl.
  rewrite !(authenticate_without_mean _ tv _ Hm'), !set_metric_restores.
  eexists. split; [reflexivity | ]. split; [reflexivity | ].
  intros m [<- | [<- | [<- | []]]]; eexists; (split; [reflexivity | now split]).
Qed.

(** C6: whatever the matcher's threshold and dynamic-threshold setting and
    whatever threshold the profile recommends, the effective threshold is at
    least 2.5 * 1.2 = 3.0; and it is the threshold [authenticate] decides
    with and reports whenever the profile has a mean. *)
Theorem effective_threshold_floor (self : Matcher) (tv : list Q) (p : profile) :
  3.0 <= effective_threshold self (_normalize_profile p) /\
  forall (d : Q) (a : bool) (det : details),
    authenticate self tv p = Ok (d, a, det) ->
    mean (_normalize_profile p) <> None ->
    details_threshold det = effective_threshold self (_normalize_profile p) /\
    a = Py.ltb d (effective_threshold self (_normalize_profile p)).
Proof.
  split.
  - unfold effective_threshold, MIN_THRESHOLD, TOLERANCE_MULTIPLIER.
    match goal with
    | |- _ <= Py.max ?base _ * _ => pose proof (max_lower base 2.5)
    end.
    lra.
  - intros d a det. unfold authenticate.
    destruct (mean (_normalize_profile p)) as [mu | ]; [ | congruence].
    intros Hauth _. revert Hauth.
    set (dist := if String.eqb _ _ then _ else _).
    destruct dist as [x | e | ]; simpl; try discriminate.
    destruct (_calculate_confidence _ _) as [c | e | ]; simpl; try discriminate.
    intros [= <- <- <-]. now split.
Qed.

(** C7: when the profile has no covariance matrix, or one whose dimension
    differs from the length of the test vector, the mahalanobis distance is
    the euclidean distance (the same value, or the same exception). *)
Theorem mahalanobis_falls_back_to_euclidean (tv : list Q) (p : profile) :
  (cov_matrix p = None \/
   exists cov : list (list Q), cov_matrix p = Some cov /\ length cov <> length tv) ->
  _mahalanobis_distance tv p = _euclidean_distance tv p.
Proof.
  intros Hcov. unfold _mahalanobis_distance.
  destruct (get_mean p) as [mu | e | ] eqn:Hmu; simpl.
  - destruct Hcov as [-> | (cov & -> & Hlen)]; [reflexivity | ].
    apply Nat.eqb_neq in Hlen. now rewrite Hlen.
  - unfold _euclidean_distance. now rewrite Hmu.
  - unfold _euclidean_distance. now rewrite Hmu.
Qed.

(** C10: when the multi-metric method returns, the matcher is as it was
    before the call: the metric it switched while iterating is restored, and
    threshold and dynamic-threshold flag are never assigned. *)
Theorem multi_metric_restores_matcher (self self' : Matcher) (tv : list Q)
    (p : profile) (r : results) :
  authenticate_with_multiple_metrics self tv p = Returns r self' ->
  metric self' = metric self /\
  threshold self' = threshold self /\
  use_dynamic_threshold self' = use_dynamic_threshold self.
Proof.
  unfold authenticate_with_multiple_metrics.
  destruct (collect self tv (_normalize_profile p) metrics ∅)
    as [acc s | e s | ] eqn:Hc; try discriminate.
  apply collect_restores in Hc. subst s.
  destruct (summarize acc) as [r' | e | ]; try discriminate.
  now intros [= _ <-].
Qed.

End MatcherClaims.

Section MatcherWitnesses.

Import Matcher.

Lemma missing_mean_is_denied_witness :
  exists r : results,
    authenticate_with_multiple_metrics Sample.matcher Sample.vector Sample.empty_profile
      = Returns r Sample.matcher /\
    final_decision r = false /\
    forall m : string, In m metrics ->
      exists mr : metric_result,
        per_metric r !! m = Some mr /\ distance mr = 999.0 /\ accepted mr = false.
Proof. apply missing_mean_is_denied. reflexivity. Defined.

Lemma mahalanobis_falls_back_to_euclidean_witness :
  _mahalanobis_distance Sample.vector (_normalize_profile Sample.stored_profile)
  = _euclidean_distance Sample.vector (_normalize_profile Sample.stored_profile).
Proof.
  apply mahalanobis_falls_back_to_euclidean.
  right. exists [[1.0; 0.0]; [0.0; 1.0]]. split; [reflexivity | ].
  simpl. lia.
Defined.

Lemma multi_metric_restores_matcher_witness :
  exists r : results,
    authenticate_with_multiple_metrics Sample.matcher Sample.vector Sample.stored_profile
      = Returns r Sample.matcher.
Proof.
  destruct (authenticate_with_multiple_metrics
              Sample.matcher Sample.vector Sample.stored_profile)
    as [r s | e s | ] eqn:Hrun.
  - exists r. f_equal.
    destruct (multi_metric_restores_matcher _ _ _ _ _ Hrun) as (Hm & Ht & Hd).
    destruct s. simpl in *. now subst.
  - vm_compute in Hrun. discriminate.
  - vm_compute in Hrun. discriminate.
Defined.

(** The restoring assignment is skipped when [authenticate] raises: a test
    vector of the wrong length raises [ValueError] in the first iteration and
    the matcher keeps the metric of that iteration. *)
Remark exception_skips_restore :
  authenticate_with_multiple_metrics (__init__ None "manhattan" true)
    [1.0; 3.0; 1.0] Sample.stored_profile
  = Raises ValueError (__init__ None "euclidean" true).
Proof. vm_compute. reflexivity. Qed.

End MatcherWitnesses.

(** ** Order statistics *)

Lemma insert_length (x : Q) (l : list Q) : length (Np.insert x l) = S (length l).
Proof.
  induction l as [ | y l IH]; simpl; [reflexivity | ].
  destruct (Py.leb x y); simpl; [reflexivity | now rewrite IH].
Qed.

Lemma sort_length (xs : list Q) : length (Np.sort xs) = length xs.
Proof.
  induction xs as [ | x xs IH]; simpl; [reflexivity | ].
  now rewrite insert_length, IH.
Qed.

Lemma insert_Forall (P : Q -> Prop) (x : Q) (l : list Q) :
  P x -> Forall P l -> Forall P (Np.insert x l).
Proof.
  intros Hx Hl. induction Hl as [ | y l Hy Hl IH]; simpl.
  - now repeat constructor.
  - destruct (Py.leb x y); repeat constructor; assumption.
Qed.

Lemma sort_Forall (P : Q -> Prop) (xs : list Q) :
  Forall P xs -> Forall P (Np.sort xs).
Proof.
  induction 1 as [ | x xs Hx Hxs IH]; simpl; [constructor | ].
  now apply insert_Forall.
Qed.

Lemma Forall_nth_Q (P : Q -> Prop) (l : list Q) (i : nat) :
  Forall P l -> (i < length l)%nat -> P (nth i l 0).
Proof.
  intros Hl Hi. rewrite Forall_forall in Hl.
  apply Hl, list_elem_of_In, nth_In, Hi.
Qed.

Lemma percentile_ok (xs : list Q) (q : Q) :
  xs <> [] -> exists v : Q, Np.percentile xs q = Ok v.
Proof.
  intros Hne. unfold Np.percentile.
  pose proof (sort_length xs) as Hlen.
  destruct (Np.sort xs) as [ | y s]; [ | eexists; reflexivity].
  destruct xs; [congruence | discriminate].
Qed.

Lemma median_ok (xs : list Q) :
  xs <> [] -> exists v : Q, Np.median xs = Ok v.
Proof.
  intros Hne. unfold Np.median.
  pose proof (sort_length xs) as Hlen.
  destruct (Np.sort xs) as [ | y s].
  - destruct xs; [congruence | discriminate].
  - destruct (Nat.even _); eexists; reflexivity.
Qed.

(** A convex combination of two positive numbers is positive. *)
Lemma interpolation_pos (a b g : Q) :
  0 < a -> 0 < b -> 0 <= g -> g < 1 -> 0 < a + (b - a) * g.
Proof.
  intros Ha Hb Hg Hg1.
  assert (E : a + (b - a) * g == a * (1 - g) + b * g) by ring.
  rewrite E.
  assert (0 < a * (1 - g)) by (apply Qmult_lt_0_compat; lra).
  assert (0 <= b * g) by (apply Qmult_le_0_compat; lra).
  lra.
Qed.

(** A percentile of positive durations is positive. *)
Lemma percentile_pos (xs : list Q) (q v : Q) :
  Forall (fun x => 0 < x) xs -> 0 <= q -> q <= 100 ->
  Np.percentile xs q = Ok v -> 0 < v.
Proof.
  intros Hpos Hq0 Hq1. unfold Np.percentile.
  pose proof (sort_Forall _ xs Hpos) as Hs.
  destruct (Np.sort xs) as [ | y s] eqn:Es; [discriminate | ].
  cbv zeta.
  set (n := length (y :: s)).
  set (top := inject_Z (Z.of_nat (n - 1))).
  set (virtual := top * (q / 100)).
  set (previous := Z.to_nat (Qfloor virtual)).
  set (a := nth previous (y :: s) 0).
  set (b := nth (Nat.min (previous + 1) (n - 1)) (y :: s) 0).
  set (gamma := virtual - inject_Z (Qfloor virtual)).
  assert (Htop : 0 <= top).
  { unfold top. rewrite <- (Zle_Qle 0). lia. }
  assert (Hfrac : 0 <= q / 100 /\ q / 100 <= 1).
  { split.
    - apply quotient_nonneg; lra.
    - apply Qle_shift_div_r; lra. }
  assert (Hv0 : 0 <= virtual).
  { unfold virtual. apply Qmult_le_0_compat; tauto. }
  assert (Hv1 : virtual <= top).
  { unfold virtual.
    assert (E : top == 1 * top) by ring.
    rewrite E at 2. rewrite (Qmult_comm top).
    apply Qmult_le_compat_r; tauto. }
  assert (Hf0 : (0 <= Qfloor virtual)%Z).
  { change 0%Z with (Qfloor 0). now apply Qfloor_resp_le. }
  assert (Hf1 : (Qfloor virtual <= Z.of_nat (n - 1))%Z).
  { rewrite <- (Qfloor_Z (Z.of_nat (n - 1))). now apply Qfloor_resp_le. }
  assert (Hn : (0 < n)%nat) by (unfold n; simpl; lia).
  assert (Ha : 0 < a).
  { apply (Forall_nth_Q (fun x => 0 < x) (y :: s) previous); [assumption | ].
    fold n. unfold previous. lia. }
  assert (Hb : 0 < b).
  { apply (Forall_nth_Q (fun x => 0 < x) (y :: s)
             (Nat.min (previous + 1) (n - 1))); [assumption | ].
    fold n. lia. }
  assert (Hg0 : 0 <= gamma).
  { unfold gamma. pose proof (Qfloor_le virtual). lra. }
  assert (Hg1 : gamma < 1).
  { unfold gamma. pose proof (Qlt_floor virtual) as Hlt.
    rewrite inject_Z_plus in Hlt. change (inject_Z 1) with 1 in Hlt. lra. }
  pose proof (interpolation_pos a b gamma Ha Hb Hg0 Hg1) as Hgoal.
  intros Hv. injection Hv as <-. exact Hgoal.
Qed.

(** ** Rhythm analyzer: every sub-score is defined *)

Section AnalyzerFacts.

Import RhythmAnalyzer.

Context `{Numpy}.

Lemma nonempty_of_length (xs : list Q) (k : nat) :
  (k < length xs)%nat -> xs <> [].
Proof. destruct xs; simpl; [lia | discriminate]. Qed.

Lemma int_div_ok (a b : Z) : b <> 0%Z -> int_div a b = Ok (inject_Z a / inject_Z b).
Proof. intros Hb. unfold int_div. apply Z.eqb_neq in Hb. now rewrite Hb. Qed.

Lemma tempo_consistency_ok (presses gaps : list Q) :
  exists v : Q, _analyze_tempo_consistency presses gaps = Ok v.
Proof.
  unfold _analyze_tempo_consistency. cbv zeta.
  set (all_timings := if (0 <? length gaps)%nat then _ else _).
  destruct (length all_timings <? 2)%nat eqn:E; [eexists; reflexivity | ].
  assert (Hne : all_timings <> []).
  { apply Nat.ltb_ge in E. apply (nonempty_of_length _ 0). lia. }
  run_with (mean_ok all_timings Hne).
  destruct (std_ok all_timings Hne) as (s & Hs & _). run_with Hs.
  destruct (Py.eqb _ 0) eqn:Em; [eexists; reflexivity | ].
  apply eqb_false in Em. rewrite div_ok by assumption.
  eexists; reflexivity.
Qed.

Lemma pattern_accuracy_ok (presses : list Q) (info : password_info) :
  exists v : Q, _analyze_pattern_accuracy presses info = Ok v.
Proof.
  unfold _analyze_pattern_accuracy. cbv zeta.
  destruct (Z.of_nat (length presses) =? 0)%Z eqn:E0; [eexists; reflexivity | ].
  apply Z.eqb_neq in E0.
  assert (Hne : presses <> []) by (destruct presses; [easy | discriminate]).
  assert (Hcount : exists c : Q,
            (if (total_elements info <=? Z.of_nat (length presses))%Z
             then r ← int_div (total_elements info) (Z.of_nat (length presses));
                  Ok (Py.min 1.0 r)
             else int_div (Z.of_nat (length presses)) (total_elements info)) = Ok c).
  { destruct (total_elements info <=? Z.of_nat (length presses))%Z eqn:E.
    - run_with (int_div_ok (total_elements info) _ E0). eexists; reflexivity.
    - apply Z.leb_gt in E. rewrite int_div_ok by lia. eexists; reflexivity. }
  destruct Hcount as [c Hc]. run_with Hc.
  destruct (percentile_ok presses 25 Hne) as [p25 Hp]. run_with Hp.
  destruct (Py.eqb p25 0); [eexists; reflexivity | ].
  rewrite int_div_ok by lia. cbn [mbind outcome_bind Py.bind].
  rewrite int_div_ok by lia. cbn [mbind outcome_bind Py.bind].
  eexists; reflexivity.
Qed.

Lemma class_consistency_ok (xs : list Q) :
  exists v : Q, class_consistency xs = Ok v.
Proof.
  unfold class_consistency.
  destruct (1 <? length xs)%nat eqn:E; [ | eexists; reflexivity].
  apply Nat.ltb_lt, nonempty_of_length in E.
  run_with (mean_ok xs E).
  destruct (Py.ltb 0 (Np.sum xs / Np.len xs)) eqn:Em; [ | eexists; reflexivity].
  apply ltb_true in Em.
  destruct (std_ok xs E) as (s & Hs & _). run_with Hs.
  rewrite div_ok by lra. eexists; reflexivity.
Qed.

Lemma timing_precision_ok (presses : list Q) :
  exists v : Q, _analyze_timing_precision presses = Ok v.
Proof.
  unfold _analyze_timing_precision. cbv zeta.
  destruct (length presses <? 2)%nat eqn:E; [eexists; reflexivity | ].
  assert (Hne : presses <> []).
  { apply Nat.ltb_ge in E. apply (nonempty_of_length _ 0). lia. }
  destruct (percentile_ok presses 25 Hne) as [p25 Hp]. run_with Hp.
  destruct (Py.eqb p25 0); [eexists; reflexivity | ].
  destruct (class_consistency_ok (Np.below (p25 * 2.0) presses)) as [c1 E1].
  run_with E1.
  destruct (class_consistency_ok (Np.at_least (p25 * 2.0) presses)) as [c2 E2].
  run_with E2.
  eexists; reflexivity.
Qed.

Lemma rhythm_stability_ok (presses gaps : list Q) :
  exists v : Q, _analyze_rhythm_stability presses gaps = Ok v.
Proof.
  unfold _analyze_rhythm_stability. cbv zeta.
  destruct (length presses <? 4)%nat eqn:E; [eexists; reflexivity | ].
  apply Nat.ltb_ge in E.
  assert (Hmid : (2 <= length presses / 2 /\ length presses / 2 < length presses)%nat).
  { split.
    - apply Nat.div_le_lower_bound; lia.
    - apply Nat.div_lt; lia. }
  rewrite (mean_ok (take (length presses / 2) presses)).
  2:{ apply (nonempty_of_length _ 0). rewrite length_take. lia. }
  cbn [mbind outcome_bind Py.bind].
  rewrite (mean_ok (drop (length presses / 2) presses)).
  2:{ apply (nonempty_of_length _ 0). rewrite length_drop. lia. }
  cbn [mbind outcome_bind Py.bind].
  destruct (Py.eqb _ 0) eqn:Em; [eexists; reflexivity | ].
  apply eqb_false in Em. rewrite div_ok by assumption.
  eexists; reflexivity.
Qed.

Lemma dot_dash_separation_ok (presses : list Q) :
  exists v : Q, _analyze_dot_dash_separation presses = Ok v.
Proof.
  unfold _analyze_dot_dash_separation. cbv zeta.
  destruct (length presses <? 3)%nat eqn:E; [eexists; reflexivity | ].
  assert (Hne : presses <> []).
  { apply Nat.ltb_ge in E. apply (nonempty_of_length _ 0). lia. }
  destruct (percentile_ok presses 25 Hne) as [p25 Hp]. run_with Hp.
  destruct (Py.eqb p25 0); [eexists; reflexivity | ].
  set (dots := Np.below _ presses). set (dashes := Np.at_least _ presses).
  destruct (Nat.eqb (length dots) 0) eqn:Ed; [eexists; reflexivity | ].
  destruct (Nat.eqb (length dashes) 0) eqn:Ea; [eexists; reflexivity | ].
  cbn [orb].
  apply Nat.eqb_neq in Ed, Ea.
  assert (Hd : dots <> []) by (apply (nonempty_of_length _ 0); lia).
  assert (Ha : dashes <> []) by (apply (nonempty_of_length _ 0); lia).
  run_with (mean_ok dots Hd).
  destruct (Py.ltb 0 (Np.sum dots / Np.len dots)) eqn:Em.
  - apply ltb_true in Em.
    run_with (mean_ok dashes Ha). rewrite div_ok by lra.
    cbn [mbind outcome_bind Py.bind].
    rewrite div_ok by lra. eexists; reflexivity.
  - cbn [mbind outcome_bind Py.bind].
    rewrite div_ok by lra. eexists; reflexivity.
Qed.

(** With at least three positive presses and one class empty the
    separation score is the neutral 0.7. *)
Lemma separation_of_one_class (presses : list Q) :
  (3 <= length presses)%nat ->
  Forall (fun p => 0 < p) presses ->
  Spec.one_class_empty presses ->
  _analyze_dot_dash_separation presses = Ok 0.7.
Proof.
  intros Hlen Hpos (p25 & Hp & Hclass).
  unfold _analyze_dot_dash_separation.
  destruct (length presses <? 3)%nat eqn:E; [apply Nat.ltb_lt in E; lia | ].
  run_with Hp.
  pose proof (percentile_pos presses 25 p25 Hpos) as Hp25.
  destruct (Py.eqb p25 0) eqn:E0.
  - apply eqb_true in E0.
    assert (0 < p25) by (apply Hp25; [lra | lra | exact Hp]). lra.
  - destruct Hclass as [-> | ->]; simpl; [reflexivity | ].
    now rewrite orb_true_r.
Qed.

(** The analyzer returns a score for every non-empty list of presses, and
    its separation field is what [_analyze_dot_dash_separation] computed. *)
Lemma analyze_rhythm_ok (presses gaps : list Q) (info : password_info) :
  presses <> [] ->
  exists r : score,
    analyze_rhythm presses gaps info = Ok r /\
    _analyze_dot_dash_separation presses = Ok (dot_dash_separation r).
Proof.
  intros Hne. unfold analyze_rhythm.
  destruct presses as [ | p ps]; [congruence | ]. cbn [length Nat.eqb].
  set (presses := p :: ps) in *.
  destruct (tempo_consistency_ok presses gaps) as [t Et]. run_with Et.
  destruct (pattern_accuracy_ok presses info) as [a Ea]. run_with Ea.
  destruct (timing_precision_ok presses) as [c Ec]. run_with Ec.
  destruct (rhythm_stability_ok presses gaps) as [b Eb]. run_with Eb.
  destruct (dot_dash_separation_ok presses) as [d Ed]. run_with Ed.
  cbv zeta.
  run_with (mean_ok presses Hne).
  destruct (std_ok presses Hne) as (s & Hs & _). run_with Hs.
  destruct (guarded_ratio s (Np.sum presses / Np.len presses) 0) as [cv Ecv].
  run_with Ecv.
  eexists. split; reflexivity.
Qed.

(** Fewer than three presses are scored 0.5 before any classification. *)
Lemma separation_of_few (presses : list Q) :
  (length presses < 3)%nat -> _analyze_dot_dash_separation presses = Ok 0.5.
Proof.
  intros Hlen. unfold _analyze_dot_dash_separation.
  apply Nat.ltb_lt in Hlen. now rewrite Hlen.
Qed.

(** C8, amended: the analyzer returns a score for every non-empty list of
    presses; with one or two presses its [dot_dash_separation] is exactly
    0.5, whatever the classification, and with at least three positive
    presses whose classification leaves one class empty it is exactly
    0.7. *)
Theorem one_class_scores_neutral (presses gaps : list Q) (info : password_info) :
  presses <> [] ->
  exists r : score,
    analyze_rhythm presses gaps info = Ok r /\
    ((length presses < 3)%nat -> dot_dash_separation r = 0.5) /\
    ((3 <= length presses)%nat ->
     Forall (fun p => 0 < p) presses ->
     Spec.one_class_empty presses ->
     dot_dash_separation r = 0.7).
Proof.
  intros Hne.
  destruct (analyze_rhythm_ok presses gaps info Hne) as (r & Hr & Hsep).
  exists r. split; [exact Hr | ]. split.
  - intros Hlen. rewrite (separation_of_few presses Hlen) in Hsep.
    now injection Hsep.
  - intros Hlen Hpos Hclass.
    rewrite (separation_of_one_class presses Hlen Hpos Hclass) in Hsep.
    now injection Hsep.
Qed.

End AnalyzerFacts.

Section AnalyzerWitnesses.

Import RhythmAnalyzer.

(** C8, as stated, fails: a single positive press is an all-dot set, yet the
    analyzer reports a separation of 0.5, because fewer than three presses
    are scored before any classification takes place. *)
Lemma single_press_scores_half :
  Forall (fun p => 0 < p) [0.1] /\
  Spec.one_class_empty [0.1] /\
  exists r : score,
    analyze_rhythm [0.1] [] {| morse_code := "."; total_elements := 1 |} = Ok r /\
    dot_dash_separation r = 0.5 /\
    dot_dash_separation r <> 0.7.
Proof.
  split; [repeat constructor | ].
  split.
  - eexists. split; [reflexivity | ]. right. reflexivity.
  - eexists. split; [vm_compute; reflexivity | ]. split; [reflexivity | discriminate].
Qed.

Lemma one_class_scores_neutral_witness :
  (exists r : score,
     analyze_rhythm [0.1; 0.1] [0.1]
       {| morse_code := ".."; total_elements := 2 |} = Ok r /\
     dot_dash_separation r = 0.5) /\
  (exists r : score,
     analyze_rhythm [0.1; 0.12; 0.15] [0.1; 0.1]
       {| morse_code := "..."; total_elements := 3 |} = Ok r /\
     dot_dash_separation r = 0.7).
Proof.
  split.
  - destruct (one_class_scores_neutral [0.1; 0.1] [0.1]
                {| morse_code := ".."; total_elements := 2 |})
      as (r & Hr & Hfew & _); [discriminate | ].
    exists r. split; [exact Hr | ]. apply Hfew. simpl. lia.
  - destruct (one_class_scores_neutral [0.1; 0.12; 0.15] [0.1; 0.1]
                {| morse_code := "..."; total_elements := 3 |})
      as (r & Hr & _ & Hmany); [discriminate | ].
    exists r. split; [exact Hr | ]. apply Hmany.
    + simpl. lia.
    + repeat constructor.
    + eexists. split; [vm_compute; reflexivity | ]. right. vm_compute. reflexivity.
Defined.

End AnalyzerWitnesses.

(** ** Feature extractor: every block is defined and has its length *)

Section ExtractorClaims.

Import OptimizedFeatureExtractor.

Context `{Numpy}.

Lemma estimate_dot_duration_pos (presses : list Q) :
  presses <> [] -> Forall (fun p => 0 < p) presses ->
  exists b : Q, _estimate_dot_duration presses = Ok b /\ 0 < b.
Proof.
  intros Hne Hpos. unfold _estimate_dot_duration.
  destruct presses as [ | p ps]; [congruence | ]. simpl Nat.eqb. cbv iota.
  destruct (percentile_ok (p :: ps) 25 Hne) as [b Hb].
  exists b. split; [exact Hb | ].
  apply (percentile_pos (p :: ps) 25 b Hpos); [lra | lra | exact Hb].
Qed.

Lemma position_features_ok (norm_presses norm_gaps : list Q) :
  norm_presses <> [] ->
  exists v : list Q,
    _extract_position_features norm_presses norm_gaps = Ok v /\ length v = 8%nat.
Proof.
  intros Hne. unfold _extract_position_features.
  destruct (median_ok norm_presses Hne) as [md Hmd]. run_with Hmd.
  eexists. split; reflexivity.
Qed.

Lemma guarded_mean_ratio (xs : list Q) (base dflt : Q) :
  ~ base == 0 ->
  exists v : Q,
    (if (0 <? length xs)%nat then m ← Np.mean xs; Py.div m base else Ok dflt) = Ok v.
Proof.
  intros Hb. destruct (0 <? length xs)%nat eqn:E; [ | eexists; reflexivity].
  apply Nat.ltb_lt, nonempty_of_length in E.
  run_with (mean_ok xs E). rewrite div_ok by assumption. eexists; reflexivity.
Qed.

Lemma coefficient_of_variation_ok (xs : list Q) :
  exists v : Q, coefficient_of_variation xs = Ok v.
Proof.
  unfold coefficient_of_variation.
  destruct (1 <? length xs)%nat eqn:E; [ | eexists; reflexivity].
  apply Nat.ltb_lt, nonempty_of_length in E.
  run_with (mean_ok xs E).
  destruct (Py.ltb 0 (Np.sum xs / Np.len xs)) eqn:Em; [ | eexists; reflexivity].
  apply ltb_true in Em.
  destruct (std_ok xs E) as (s & Hs & _). run_with Hs.
  rewrite div_ok by lra. eexists; reflexivity.
Qed.

Lemma morse_features_ok (self : OptimizedFeatureExtractor)
    (presses gaps : list Q) (base_unit : Q) :
  0 < base_unit ->
  exists v : list Q,
    _extract_morse_features self presses gaps base_unit = Ok v /\ length v = 8%nat.
Proof.
  intros Hb. assert (Hb0 : ~ base_unit == 0) by lra.
  unfold _extract_morse_features. cbv zeta.
  set (dots := Np.below _ presses). set (dashes := Np.at_least _ presses).
  destruct (guarded_mean_ratio dots base_unit 1.0 Hb0) as [avg_dot E1]. run_with E1.
  destruct (guarded_mean_ratio dashes base_unit 3.0 Hb0) as [avg_dash E2]. run_with E2.
  destruct (coefficient_of_variation_ok dots) as [cv_dots E3]. run_with E3.
  destruct (coefficient_of_variation_ok dashes) as [cv_dashes E4]. run_with E4.
  destruct (guarded_ratio avg_dash avg_dot 3.0) as [ratio E5]. run_with E5.
  destruct (guarded_mean_ratio gaps base_unit 1.0 Hb0) as [avg_gap E6]. run_with E6.
  eexists. split; reflexivity.
Qed.

Lemma skewness_ok (data : list Q) :
  exists v : Q, _calculate_skewness data = Ok v.
Proof.
  unfold _calculate_skewness.
  destruct (length data <? 3)%nat eqn:E; [eexists; reflexivity | ].
  assert (Hne : data <> []).
  { apply Nat.ltb_ge in E. apply (nonempty_of_length data 0). lia. }
  run_with (mean_ok data Hne).
  destruct (std_ok data Hne) as (s & Hs & _). run_with Hs.
  destruct (Py.eqb s 0) eqn:Es; [eexists; reflexivity | ].
  apply eqb_false in Es.
  run_with (div_each_ok (map (fun x => x - Np.sum data / Np.len data) data) s Es).
  rewrite mean_ok; [eexists; reflexivity | ].
  destruct data; [congruence | discriminate].
Qed.

Lemma statistical_features_ok (norm_presses norm_gaps : list Q) :
  norm_presses <> [] -> norm_gaps <> [] ->
  exists v : list Q,
    _extract_statistical_features norm_presses norm_gaps = Ok v /\ length v = 10%nat.
Proof.
  intros Hp Hg. unfold _extract_statistical_features.
  run_with (mean_ok norm_presses Hp).
  destruct (std_ok norm_presses Hp) as (ps & E1 & _). run_with E1.
  destruct (median_ok norm_presses Hp) as [pm E2]. run_with E2.
  destruct (percentile_ok norm_presses 75 Hp) as [p75 E3]. run_with E3.
  destruct (percentile_ok norm_presses 25 Hp) as [p25 E4]. run_with E4.
  destruct (skewness_ok norm_presses) as [sk E5]. run_with E5.
  run_with (mean_ok norm_gaps Hg).
  destruct (std_ok norm_gaps Hg) as (gs & E6 & _). run_with E6.
  destruct (median_ok norm_gaps Hg) as [gm E7]. run_with E7.
  destruct (percentile_ok norm_gaps 75 Hg) as [g75 E8]. run_with E8.
  destruct (percentile_ok norm_gaps 25 Hg) as [g25 E9]. run_with E9.
  cbv zeta.
  destruct (guarded_ratio (Np.sum norm_presses / Np.len norm_presses)
              (Np.sum norm_gaps / Np.len norm_gaps) 1.0) as [r E10].
  run_with E10.
  eexists. split; reflexivity.
Qed.

Lemma arange_length (n : nat) : length (Np.arange n) = n.
Proof. unfold Np.arange. now rewrite length_map, length_seq. Qed.

(** Two distinct abscissae are enough for the least-squares slope. *)
Lemma spread_of_two_pos (m : Q) : 0 < (0 - m) * (0 - m) + (1 - m) * (1 - m).
Proof.
  pose proof (square_nonneg (m - (1 # 2))).
  assert (E : (0 - m) * (0 - m) + (1 - m) * (1 - m)
              == 2 * ((m - (1 # 2)) * (m - (1 # 2))) + (1 # 2)) by ring.
  rewrite E. lra.
Qed.

Lemma polyfit1_slope_ok (n : nat) (ys : list Q) :
  (2 <= n)%nat -> length ys = n ->
  exists v : Q, Np.polyfit1_slope (Np.arange n) ys = Ok v.
Proof.
  intros Hn Hys. unfold Np.polyfit1_slope.
  rewrite arange_length, Hys, Nat.eqb_refl.
  destruct (Nat.eqb n 0) eqn:E0; [apply Nat.eqb_eq in E0; lia | ].
  cbn [negb].
  assert (Hx : Np.arange n <> []).
  { apply (nonempty_of_length _ 0). rewrite arange_length. lia. }
  assert (Hy : ys <> []).
  { apply (nonempty_of_length _ 0). lia. }
  run_with (mean_ok (Np.arange n) Hx). run_with (mean_ok ys Hy).
  set (mx := Np.sum (Np.arange n) / Np.len (Np.arange n)).
  rewrite div_ok; [eexists; reflexivity | ].
  destruct n as [ | [ | k]]; [lia | lia | ].
  unfold Np.arange. simpl map. simpl Np.sum.
  change (inject_Z (Z.of_nat 0)) with 0. change (inject_Z (Z.of_nat 1)) with 1.
  pose proof (spread_of_two_pos mx).
  pose proof (sum_squares_nonneg mx
                (map (fun i => inject_Z (Z.of_nat i)) (seq 2 k))).
  lra.
Qed.

Lemma guarded_slope_ok (xs : list Q) :
  exists v : Q,
    (if (2 <? length xs)%nat
     then Np.polyfit1_slope (Np.arange (length xs)) xs
     else Ok 0) = Ok v.
Proof.
  destruct (2 <? length xs)%nat eqn:E; [ | eexists; reflexivity].
  apply Nat.ltb_lt in E. apply polyfit1_slope_ok; [lia | reflexivity].
Qed.

Lemma temporal_features_ok (presses gaps : list Q) :
  presses <> [] ->
  exists v : list Q,
    _extract_temporal_features presses gaps = Ok v /\ length v = 6%nat.
Proof.
  intros Hp. unfold _extract_temporal_features. cbv zeta.
  destruct (guarded_ratio (Np.len presses) (Np.sum presses + Np.sum gaps) 0)
    as [eps E1].
  run_with E1.
  assert (Hall : presses ++ gaps <> []).
  { destruct presses; [congruence | discriminate]. }
  destruct (std_ok (presses ++ gaps) Hall) as (spread & E2 & Hspread).
  run_with E2.
  rewrite div_ok by lra. cbn [mbind outcome_bind Py.bind].
  assert (E3 : exists acceleration : Q,
            (if (3 <? length presses)%nat
             then
               first_half_avg ← Np.mean (take (length presses / 2) presses);
               second_half_avg ← Np.mean (drop (length presses / 2) presses);
               if Py.ltb 0 first_half_avg
               then Py.div (second_half_avg - first_half_avg) first_half_avg
               else Ok 0
             else Ok 0) = Ok acceleration).
  { destruct (3 <? length presses)%nat eqn:E; [ | eexists; reflexivity].
    apply Nat.ltb_lt in E.
    assert (Hmid : (2 <= length presses / 2 /\ length presses / 2 < length presses)%nat).
    { split.
      - apply Nat.div_le_lower_bound; lia.
      - apply Nat.div_lt; lia. }
    rewrite (mean_ok (take (length presses / 2) presses)).
    2:{ apply (nonempty_of_length _ 0). rewrite length_take. lia. }
    cbn [mbind outcome_bind Py.bind].
    rewrite (mean_ok (drop (length presses / 2) presses)).
    2:{ apply (nonempty_of_length _ 0). rewrite length_drop. lia. }
    cbn [mbind outcome_bind Py.bind].
    apply guarded_ratio. }
  destruct E3 as [acceleration E3]. run_with E3.
  destruct (guarded_slope_ok presses) as [slope E4]. run_with E4.
  destruct (guarded_slope_ok gaps) as [gap_slope E5]. run_with E5.
  eexists. split; reflexivity.
Qed.

Lemma or_sentinel_nonempty (xs : list Q) : or_sentinel xs <> [].
Proof. destruct xs; discriminate. Qed.

Lemma or_sentinel_pos (xs : list Q) :
  Forall (fun x => 0 < x) xs -> Forall (fun x => 0 < x) (or_sentinel xs).
Proof.
  destruct xs as [ | x xs]; [ | trivial].
  intros _. repeat constructor.
Qed.

Lemma map_nonempty (f : Q -> Q) (xs : list Q) : xs <> [] -> map f xs <> [].
Proof. destruct xs; [congruence | discriminate]. Qed.

(** The first temporal feature is the total duration. *)
Lemma temporal_features_head (presses gaps v : list Q) :
  _extract_temporal_features presses gaps = Ok v ->
  exists rest : list Q, v = (Np.sum presses + Np.sum gaps) :: rest.
Proof.
  unfold _extract_temporal_features. cbv zeta.
  repeat (unfold mbind, outcome_bind;
          match goal with
          | |- context [Py.bind ?c _] =>
              destruct c; cbn [Py.bind]; try discriminate
          end).
  intros [= <-]. eexists. reflexivity.
Qed.

(** [extract] on positive presses: no step raises and no step leaves the
    numbers; the vector has 32 entries, and entry 26 is the total duration
    of the presses and gaps. *)
Lemma extract_runs (self : OptimizedFeatureExtractor) (presses gaps : list Q) :
  Forall (fun p => 0 < p) presses ->
  exists v : list Q,
    extract self presses gaps = Ok v /\ length v = 32%nat /\
    nth 26 v 0 = Np.sum (or_sentinel presses) + Np.sum (or_sentinel gaps).
Proof.
  intros Hpos. unfold extract. cbv zeta.
  pose proof (or_sentinel_nonempty presses) as Hp.
  pose proof (or_sentinel_nonempty gaps) as Hg.
  apply or_sentinel_pos in Hpos.
  set (ps := or_sentinel presses) in *. set (gs := or_sentinel gaps) in *.
  destruct (estimate_dot_duration_pos ps Hp Hpos) as (base & Hbase & Hb).
  run_with Hbase.
  assert (Hb0 : ~ base == 0) by lra.
  run_with (div_each_ok ps base Hb0). run_with (div_each_ok gs base Hb0).
  set (nps := map (fun x => x / base) ps). set (ngs := map (fun x => x / base) gs).
  destruct (position_features_ok nps ngs (map_nonempty _ ps Hp)) as (f1 & E1 & L1).
  run_with E1.
  destruct (morse_features_ok self ps gs base Hb) as (f2 & E2 & L2).
  run_with E2.
  destruct (statistical_features_ok nps ngs (map_nonempty _ ps Hp)
              (map_nonempty _ gs Hg)) as (f3 & E3 & L3).
  run_with E3.
  destruct (temporal_features_ok ps gs Hp) as (f4 & E4 & L4).
  run_with E4.
  destruct (temporal_features_head ps gs f4 E4) as (rest & Hhead).
  eexists. split; [reflexivity | ]. split.
  - rewrite !length_app, L1, L2, L3, L4. reflexivity.
  - rewrite (app_nth2 f1) by lia. rewrite L1.
    rewrite (app_nth2 f2) by (rewrite L2; simpl; lia). rewrite L2.
    rewrite (app_nth2 f3) by (rewrite L3; simpl; lia). rewrite L3.
    rewrite Hhead. reflexivity.
Qed.

(** C3, amended: for positive presses (and any gaps, in particular
    non-negative ones) [extract] returns a vector of exactly 32 numbers: no
    step raises and no step divides by zero, averages an empty array or
    takes the square root of a negative number.  The numbers are the exact
    values: entry 26 is the total duration of presses and gaps, and is a
    finite float only while that total stays inside the float range.
    Empty presses or gaps are replaced by the single sentinel duration
    0.001, and the same holds. *)
Theorem extract_returns_32_dimensions (self : OptimizedFeatureExtractor)
    (presses gaps : list Q) :
  Forall (fun p => 0 < p) presses ->
  Forall (fun g => 0 <= g) gaps ->
  (exists v : list Q,
     extract self presses gaps = Ok v /\ length v = 32%nat /\
     nth 26 v 0 = Np.sum (or_sentinel presses) + Np.sum (or_sentinel gaps)) /\
  extract self [] gaps = extract self [0.001] gaps /\
  extract self presses [] = extract self presses [0.001].
Proof.
  intros Hpos _. split; [ | split; reflexivity].
  destruct (extract_runs self presses gaps Hpos) as (v & Hv & Hlen & Htotal).
  exists v. repeat split; assumption.
Qed.

End ExtractorClaims.

Section ExtractorWitnesses.

Import OptimizedFeatureExtractor.

(** C3, as stated, fails: three presses of 1e308 seconds and one such gap
    are positive and each a finite float, yet the total duration, entry 26
    of the vector, is 4e308, beyond every finite float: the code's sum
    overflows and the entry it returns is [inf]. *)
Lemma huge_durations_overflow :
  Forall (fun p => 0 < p) [1e308; 1e308; 1e308] /\
  Forall (fun g => 0 <= g) [1e308] /\
  ~ Py.overflows 1e308 /\
  exists v : list Q,
    extract (__init__ 2.0) [1e308; 1e308; 1e308] [1e308] = Ok v /\
    length v = 32%nat /\
    Py.overflows (nth 26 v 0).
Proof.
  split; [repeat constructor | ].
  split; [repeat (constructor; [apply Qle_bool_iff; reflexivity | ]); constructor | ].
  split.
  { unfold Py.overflows. intros Hle. apply Qle_bool_iff in Hle.
    vm_compute in Hle. discriminate. }
  destruct (extract_runs (__init__ 2.0) [1e308; 1e308; 1e308] [1e308])
    as (v & Hv & Hlen & Htotal); [repeat constructor | ].
  exists v. split; [exact Hv | ]. split; [exact Hlen | ].
  rewrite Htotal. apply Qle_bool_iff. vm_compute. reflexivity.
Qed.

Lemma extract_returns_32_dimensions_witness :
  (exists v : list Q,
     extract (__init__ 2.0) [0.1; 0.3; 0.1] [0.1; 0.15] = Ok v /\ length v = 32%nat /\
     nth 26 v 0 = Np.sum (or_sentinel [0.1; 0.3; 0.1]) + Np.sum (or_sentinel [0.1; 0.15])) /\
  extract (__init__ 2.0) [] [0.1; 0.15] = extract (__init__ 2.0) [0.001] [0.1; 0.15] /\
  extract (__init__ 2.0) [0.1; 0.3; 0.1] [] = extract (__init__ 2.0) [0.1; 0.3; 0.1] [0.001].
Proof.
  apply extract_returns_32_dimensions.
  - repeat constructor.
  - repeat (constructor; [lra | ]). constructor.
Defined.

End ExtractorWitnesses.

(** * Further properties of the code *)

(** ** Enrollment: admission, bookkeeping and the profile *)

Section EnrollmentBehaviour.

Import Enrollment.

(** A sample is accepted exactly when the three gate tests hold; an accepted
    sample and its quality are appended, a rejected one leaves the
    accumulator alone and carries a reason. *)
Theorem add_accepts_iff_gate (e : Enrollment) (fv : list Q) (m : gmap string Q) :
  is_Some (m !! "timing_precision") ->
  is_Some (m !! "tempo_consistency") ->
  is_Some (m !! "pattern_accuracy") ->
  exists r : add_result,
    fst (add e fv m) = Ok r /\
    (status r = "accepted"%string <-> Behaviour.gate_holds m) /\
    (status r = "accepted"%string ->
       rejection_reason r = None /\
       samples (snd (add e fv m)) = samples e ++ [fv] /\
       qualities (snd (add e fv m)) = qualities e ++ [quality_score r]) /\
    (status r <> "accepted"%string ->
       status r = "rejected"%string /\ is_Some (rejection_reason r) /\
       snd (add e fv m) = e).
Proof.
  intros [tp Htp] [tc Htc] [pa Hpa].
  unfold add, _compute_quality, _passes_gate, Py.getitem, Behaviour.gate_holds.
  rewrite Htp, Htc, Hpa. cbn [mbind outcome_bind Py.bind].
  destruct (Py.ltb pa 1.0) eqn:E1; [apply ltb_true in E1 | apply ltb_false in E1].
  { eexists. split; [reflexivity | ]. cbn. split; [ | split].
    - split; [discriminate | ]. intros (tp' & pa' & _ & [= <-] & H1 & _). lra.
    - discriminate.
    - intros _. repeat split. eexists; reflexivity. }
  destruct (Py.ltb tp 0.85) eqn:E2; [apply ltb_true in E2 | apply ltb_false in E2].
  { eexists. split; [reflexivity | ]. cbn. split; [ | split].
    - split; [discriminate | ]. intros (tp' & pa' & [= <-] & _ & _ & H2 & _). lra.
    - discriminate.
    - intros _. repeat split. eexists; reflexivity. }
  destruct (Py.ltb 0.25 (Py.get m "outlier_ratio" 0.0)) eqn:E3;
    [apply ltb_true in E3 | apply ltb_false in E3].
  { eexists. split; [reflexivity | ]. cbn. split; [ | split].
    - split; [discriminate | ]. intros (tp' & pa' & _ & _ & _ & _ & H3). lra.
    - discriminate.
    - intros _. repeat split. eexists; reflexivity. }
  eexists. split; [reflexivity | ]. cbn. split; [ | split].
  - split; [ | reflexivity]. intros _. exists tp, pa. repeat split; assumption.
  - intros _. repeat split.
  - intros Hne. now contradiction Hne.
Qed.

Lemma add_accepts_iff_gate_witness :
  exists r : add_result,
    fst (add Sample.enrollment Sample.vector Sample.good_metrics) = Ok r /\
    (status r = "accepted"%string <-> Behaviour.gate_holds Sample.good_metrics) /\
    (status r = "accepted"%string ->
       rejection_reason r = None /\
       samples (snd (add Sample.enrollment Sample.vector Sample.good_metrics))
         = samples Sample.enrollment ++ [Sample.vector] /\
       qualities (snd (add Sample.enrollment Sample.vector Sample.good_metrics))
         = qualities Sample.enrollment ++ [quality_score r]) /\
    (status r <> "accepted"%string ->
       status r = "rejected"%string /\ is_Some (rejection_reason r) /\
       snd (add Sample.enrollment Sample.vector Sample.good_metrics)
         = Sample.enrollment).
Proof.
  apply add_accepts_iff_gate; eexists; reflexivity.
Defined.

(** The quality score is computed and reported whatever the gate decides,
    and it always lies in [[0,1]], also for metrics outside that range. *)
Theorem quality_score_reported_and_clamped (e : Enrollment) (fv : list Q)
    (m : gmap string Q) :
  is_Some (m !! "timing_precision") ->
  is_Some (m !! "tempo_consistency") ->
  is_Some (m !! "pattern_accuracy") ->
  exists r : add_result,
    fst (add e fv m) = Ok r /\
    _compute_quality m = Ok (quality_score r) /\
    0 <= quality_score r /\ quality_score r <= 1.
Proof.
  intros [tp Htp] [tc Htc] [pa Hpa].
  unfold add, _compute_quality, _passes_gate, Py.getitem.
  rewrite Htp, Htc, Hpa. cbn [mbind outcome_bind Py.bind].
  set (q := Np.clip _ 0.0 1.0).
  assert (Hq : 0 <= q /\ q <= 1).
  { pose proof (clip_bounds
      (0.40 * tp + 0.30 * tc + 0.20 * pa + 0.10 * (1.0 - Py.get m "outlier_ratio" 0.0))
      0.0 1.0) as Hc.
    fold q in Hc. split; lra. }
  destruct (Py.ltb pa 1.0); [eexists; split; [reflexivity | now split] | ].
  destruct (Py.ltb tp 0.85); [eexists; split; [reflexivity | now split] | ].
  destruct (Py.ltb 0.25 _); eexists; (split; [reflexivity | now split]).
Qed.

Lemma quality_score_reported_and_clamped_witness :
  exists r : add_result,
    fst (add Sample.enrollment Sample.vector Sample.mismatch_metrics) = Ok r /\
    _compute_quality Sample.mismatch_metrics = Ok (quality_score r) /\
    0 <= quality_score r /\ quality_score r <= 1.
Proof.
  apply quality_score_reported_and_clamped; eexists; reflexivity.
Defined.

(** A metrics dict that lacks one of the three mandatory keys makes [add]
    raise [KeyError] for a key that is indeed absent, before anything is
    stored. *)
Theorem add_missing_key_raises (e : Enrollment) (fv : list Q) (m : gmap string Q) :
  m !! "timing_precision" = None \/ m !! "tempo_consistency" = None \/
  m !! "pattern_accuracy" = None ->
  exists k : string,
    add e fv m = (Raise (KeyError k), e) /\ m !! k = None.
Proof.
  intros Hmiss. unfold add, _compute_quality, Py.getitem.
  destruct (m !! "timing_precision") as [tp | ] eqn:Htp;
    [ | exists "timing_precision"%string; now split].
  destruct (m !! "tempo_consistency") as [tc | ] eqn:Htc;
    [ | exists "tempo_consistency"%string; now split].
  destruct (m !! "pattern_accuracy") as [pa | ] eqn:Hpa;
    [ | exists "pattern_accuracy"%string; now split].
  destruct Hmiss as [? | [? | ?]]; discriminate.
Qed.

Lemma add_missing_key_raises_witness :
  exists k : string,
    add Sample.enrollment Sample.vector (<["pattern_accuracy" := 1.0]> ∅)
      = (Raise (KeyError k), Sample.enrollment) /\
    (<["pattern_accuracy" := 1.0]> ∅ : gmap string Q) !! k = None.
Proof. apply add_missing_key_raises. left. reflexivity. Defined.

Lemma add_all_snoc (e : Enrollment) (calls : list (list Q * gmap string Q))
    (c : list Q * gmap string Q) :
  add_all e (calls ++ [c]) = snd (add (add_all e calls) (fst c) (snd c)).
Proof. unfold add_all. now rewrite fold_left_app. Qed.

Lemma add_all_cons (e : Enrollment) (c : list Q * gmap string Q)
    (calls : list (list Q * gmap string Q)) :
  add_all e (c :: calls) = add_all (snd (add e (fst c) (snd c))) calls.
Proof. reflexivity. Qed.

(** One call of [add] adds one sample exactly when it is admitted, and the
    two lists grow together. *)
Lemma add_step_count (e : Enrollment) (c : list Q * gmap string Q) :
  length (samples (snd (add e (fst c) (snd c))))
    = (length (samples e) + if Behaviour.admitted c then 1 else 0)%nat /\
  length (qualities (snd (add e (fst c) (snd c))))
    = (length (qualities e) + if Behaviour.admitted c then 1 else 0)%nat.
Proof.
  unfold add, Behaviour.admitted.
  destruct (_compute_quality (snd c)) as [q | ex | ]; simpl; try lia.
  destruct (_passes_gate (snd c)) as [[[ | ] reason] | ex | ]; simpl;
    rewrite ?length_app; simpl; lia.
Qed.

Lemma add_all_lengths (e : Enrollment)
    (calls : list (list Q * gmap string Q)) :
  length (samples (add_all e calls))
    = (length (samples e) + length (filter (fun c => Behaviour.admitted c = true) calls))%nat /\
  length (qualities (add_all e calls))
    = (length (qualities e) + length (filter (fun c => Behaviour.admitted c = true) calls))%nat /\
  min_samples (add_all e calls) = min_samples e /\
  max_samples (add_all e calls) = max_samples e.
Proof.
  revert e. induction calls as [ | c calls IH]; intros e.
  - simpl. repeat split; lia.
  - rewrite add_all_cons.
    destruct (IH (snd (add e (fst c) (snd c)))) as (Hs & Hq & Hlo & Hhi).
    destruct (add_step_count e c) as [Hs1 Hq1].
    destruct (add_keeps_bounds e (fst c) (snd c)) as [Hhi1 Hlo1].
    rewrite Hs, Hq, Hlo, Hhi, Hs1, Hq1, Hlo1, Hhi1.
    rewrite filter_cons.
    destruct (Behaviour.admitted c) eqn:Ec.
    + rewrite decide_True by reflexivity. simpl. repeat split; lia.
    + rewrite decide_False by discriminate. repeat split; lia.
Qed.

(** After any sequence of [add] calls the number of stored samples is the
    number stored before plus the number of admitted calls, the qualities
    list has grown by as much, and neither bound has changed. *)
Theorem add_all_counts_admitted (e : Enrollment)
    (calls : list (list Q * gmap string Q)) :
  length (samples (add_all e calls))
    = (length (samples e) + length (filter (fun c => Behaviour.admitted c = true) calls))%nat /\
  length (qualities (add_all e calls))
    = (length (qualities e) + length (filter (fun c => Behaviour.admitted c = true) calls))%nat /\
  min_samples (add_all e calls) = min_samples e /\
  max_samples (add_all e calls) = max_samples e.
Proof. apply add_all_lengths. Qed.

(** Building a profile before any sample was accepted raises
    [ZeroDivisionError], whatever calls were made and rejected. *)
Theorem build_profile_without_samples_raises `{Numpy} (lo hi : Z)
    (calls : list (list Q * gmap string Q)) :
  samples (add_all (__init__ lo hi) calls) = [] ->
  build_profile (add_all (__init__ lo hi) calls) = Raise ZeroDivisionError.
Proof.
  intros Hnone.
  destruct (add_all_lengths (__init__ lo hi) calls) as (Hs & Hq & _).
  rewrite Hnone in Hs. simpl in Hs, Hq.
  assert (Hqs : qualities (add_all (__init__ lo hi) calls) = []).
  { apply length_zero_iff_nil. lia. }
  unfold build_profile. rewrite Hnone, Hqs. reflexivity.
Qed.

Lemma build_profile_without_samples_raises_witness :
  build_profile (add_all (__init__ 3 5) [(Sample.vector, Sample.mismatch_metrics)])
  = Raise ZeroDivisionError.
Proof. apply build_profile_without_samples_raises. reflexivity. Defined.

(** The counts that [add] reports are those of the accumulator after the
    call: [samples_needed] is zero exactly when [is_complete()] holds, and a
    complete accumulator stays complete. *)
Theorem add_reports_progress (e : Enrollment) (fv : list Q) (m : gmap string Q)
    (r : add_result) :
  fst (add e fv m) = Ok r ->
  samples_collected r = Z.of_nat (length (samples (snd (add e fv m)))) /\
  (samples_needed r = 0%Z <-> is_complete (snd (add e fv m)) = true) /\
  (is_complete e = true -> is_complete (snd (add e fv m)) = true).
Proof.
  unfold add, is_complete.
  destruct (_compute_quality m) as [q | ex | ]; simpl; try discriminate.
  destruct (_passes_gate m) as [[[ | ] reason] | ex | ]; simpl; try discriminate;
    intros [= <-]; simpl; rewrite ?length_app; simpl;
    rewrite ?Z.leb_le; repeat split; lia.
Qed.

Lemma add_reports_progress_witness :
  exists r : add_result,
    samples_collected r
      = Z.of_nat (length (samples (snd (add Sample.enrollment Sample.vector
                                              Sample.good_metrics)))) /\
    (samples_needed r = 0%Z <->
       is_complete (snd (add Sample.enrollment Sample.vector Sample.good_metrics))
         = true) /\
    (is_complete Sample.enrollment = true ->
       is_complete (snd (add Sample.enrollment Sample.vector Sample.good_metrics))
         = true).
Proof.
  eexists. apply add_reports_progress. reflexivity.
Defined.

(** The callers' loop, which calls [add] only while [is_complete()] is
    false, never stores more than [min_samples] samples (none when
    [min_samples] is negative). *)
Theorem paced_count_le_min (e : Enrollment) :
  Behaviour.paced e ->
  (Z.of_nat (length (samples e)) <= Z.max 0 (min_samples e))%Z.
Proof.
  induction 1 as [lo hi | e fv m _ IH Hopen]; simpl.
  - lia.
  - destruct (add_keeps_bounds e fv m) as [_ ->].
    pose proof (add_grows_by_at_most_one e fv m).
    unfold is_complete in Hopen. apply Z.leb_gt in Hopen. lia.
Qed.

Lemma paced_count_le_min_witness :
  (Z.of_nat (length (samples (snd (add Sample.enrollment Sample.vector
                                         Sample.good_metrics))))
   <= Z.max 0 (min_samples (snd (add Sample.enrollment Sample.vector
                                    Sample.good_metrics))))%Z.
Proof.
  apply paced_count_le_min.
  apply Behaviour.paced_add; [apply Behaviour.paced_init | reflexivity].
Defined.

End EnrollmentBehaviour.

(** ** Enrollment: where the profile lies *)

Section ProfileBehaviour.

Import Enrollment.

Context `{Numpy}.

(** The profile of a session with at least one sample, written out. *)
Lemma session_profile (d : nat) (e : Enrollment) :
  session d e -> samples e <> [] ->
  exists (weights : list Q) (sd : Q),
    Forall (fun w => 0 <= w) weights /\
    length weights = length (samples e) /\
    Np.sum weights == 1 /\
    build_profile e =
      Ok {| mean_vector :=
              map (fun s => s / Np.sum weights) (Np.weighted_sum d (samples e) weights);
            sample_count := Z.of_nat (length (samples e));
            consistency_score := Np.clip (1.0 - sd) 0.0 1.0 |}.
Proof.
  intros Hs Hne.
  destruct (session_weights_defined d e Hs Hne) as [Hpos Hw].
  destruct (session_invariant d e Hs) as (Hlen & Hdim & Hq).
  set (weights := map (fun q => q / Np.sum (qualities e)) (qualities e)) in *.
  assert (Hone : Np.sum weights == 1).
  { unfold weights. rewrite sum_map_div. field. lra. }
  assert (Hqne : qualities e <> []).
  { destruct (qualities e); [ | discriminate].
    destruct (samples e); [congruence | discriminate]. }
  destruct (std_ok (qualities e) Hqne) as (sd & Hsd & _).
  assert (Hcols : Np.ncols (samples e) = d).
  { destruct Hdim; [congruence | assumption]. }
  exists weights, sd. split; [ | split; [ | split; [exact Hone | ]]].
  - unfold weights. apply Forall_map.
    eapply Forall_impl; [exact Hq | ]. simpl. intros q Hq0.
    apply quotient_nonneg; lra.
  - unfold weights. now rewrite length_map.
  - unfold build_profile. run_with Hw.
    unfold Np.average.
    rewrite (rectangular_ok d) by assumption. cbn [negb].
    replace (length weights) with (length (samples e))
      by (unfold weights; now rewrite length_map).
    rewrite Nat.eqb_refl. cbn [negb].
    destruct (Py.eqb (Np.sum weights) 0) eqn:E; [apply eqb_true in E; lra | ].
    cbn [mbind outcome_bind Py.bind]. run_with Hsd.
    now rewrite Hcols.
Qed.

(** A weighted sum with non-negative weights stays between the bounds of
    the summed coordinate, scaled by the total weight. *)
Lemma weighted_average_bounds (rows : list (list Q)) (weights : list Q)
    (j : nat) (lo hi : Q) :
  Forall (fun w => 0 <= w) weights ->
  length weights = length rows ->
  Forall (fun v => lo <= nth j v 0 /\ nth j v 0 <= hi) rows ->
  lo * Np.sum weights <= Spec.weighted_average_at rows weights j /\
  Spec.weighted_average_at rows weights j <= hi * Np.sum weights.
Proof.
  intros Hw. revert rows. unfold Spec.weighted_average_at.
  induction Hw as [ | w weights Hw0 Hw IH]; intros [ | r rows]; simpl;
    try discriminate.
  - intros _ _. lra.
  - intros [= Hl] Hr. apply Forall_cons in Hr. destruct Hr as [[Hlo Hhi] Hr].
    destruct (IH rows Hl Hr) as [IHlo IHhi].
    assert (w * lo <= w * nth j r 0).
    { rewrite !(Qmult_comm w). now apply Qmult_le_compat_r. }
    assert (w * nth j r 0 <= w * hi).
    { rewrite !(Qmult_comm w). now apply Qmult_le_compat_r. }
    split; lra.
Qed.

(** The profile built from a session with at least one sample: the sample
    count is the number of stored samples, the consistency score lies in
    [[0,1]], and every coordinate of the mean vector lies between any two
    bounds that hold for that coordinate of all stored samples. *)
Theorem profile_within_sample_range (d : nat) (e : Enrollment) :
  session d e -> samples e <> [] ->
  exists prof : profile,
    build_profile e = Ok prof /\
    sample_count prof = Z.of_nat (length (samples e)) /\
    0 <= consistency_score prof /\ consistency_score prof <= 1 /\
    forall (j : nat) (lo hi : Q),
      (j < d)%nat ->
      Forall (fun v => lo <= nth j v 0 /\ nth j v 0 <= hi) (samples e) ->
      lo <= nth j (mean_vector prof) 0 /\ nth j (mean_vector prof) 0 <= hi.
Proof.
  intros Hs Hne.
  destruct (session_profile d e Hs Hne) as (weights & sd & Hw0 & Hwl & Hone & Hprof).
  destruct (session_invariant d e Hs) as (_ & Hdim & _).
  eexists. split; [exact Hprof | ]. cbn.
  split; [reflexivity | ].
  pose proof (clip_bounds (1.0 - sd) 0.0 1.0) as Hclip.
  split; [lra | ]. split; [lra | ].
  intros j lo hi Hj Hrange.
  rewrite nth_map_Q by now rewrite weighted_sum_length.
  rewrite nth_weighted_sum by assumption.
  destruct (weighted_average_bounds (samples e) weights j lo hi Hw0 Hwl Hrange)
    as [Hlo Hhi].
  rewrite Hone in Hlo, Hhi |- *.
  assert (E : forall x : Q, x / 1 == x) by (intros; field).
  rewrite E. split; lra.
Qed.

End ProfileBehaviour.

Section ProfileBehaviourWitnesses.

Import Enrollment.

Lemma profile_within_sample_range_witness :
  exists prof : profile,
    build_profile (snd (add Sample.enrollment Sample.vector Sample.good_metrics))
      = Ok prof /\
    sample_count prof
      = Z.of_nat (length (samples (snd (add Sample.enrollment Sample.vector
                                              Sample.good_metrics)))) /\
    0 <= consistency_score prof /\ consistency_score prof <= 1 /\
    forall (j : nat) (lo hi : Q),
      (j < 4)%nat ->
      Forall (fun v => lo <= nth j v 0 /\ nth j v 0 <= hi)
        (samples (snd (add Sample.enrollment Sample.vector Sample.good_metrics))) ->
      lo <= nth j (mean_vector prof) 0 /\ nth j (mean_vector prof) 0 <= hi.
Proof.
  apply (profile_within_sample_range 4).
  - apply session_add.
    + apply session_init.
    + reflexivity.
    + unfold unit_metrics. repeat split; try (left; reflexivity);
        vm_compute; discriminate.
  - vm_compute. discriminate.
Defined.

End ProfileBehaviourWitnesses.

(** ** Matcher: normalization, confidence, votes and failure paths *)

Section MatcherBehaviour.

Import Matcher.

Context `{Numpy}.

(** Normalizing a profile keeps a stored mean, falls back to [mean_vector]
    only when there is none, leaves covariance and recommended threshold
    alone, and is idempotent. *)
Theorem normalize_profile_adapts_names (p : profile) :
  (forall m : list Q, mean p = Some m -> mean (_normalize_profile p) = Some m) /\
  (mean p = None -> mean (_normalize_profile p) = mean_vector p) /\
  (std p = None -> std_vector p = None ->
     std (_normalize_profile p) = std_dev p) /\
  cov_matrix (_normalize_profile p) = cov_matrix p /\
  recommended_threshold (_normalize_profile p) = recommended_threshold p /\
  _normalize_profile (_normalize_profile p) = _normalize_profile p.
Proof.
  repeat split.
  - intros m Hm. unfold _normalize_profile. simpl. now rewrite Hm.
  - intros Hm. unfold _normalize_profile. simpl. rewrite Hm.
    now destruct (mean_vector p).
  - intros Hs Hv. unfold _normalize_profile. simpl. rewrite Hs, Hv.
    now destruct (std_dev p).
  - apply normalize_idempotent.
Qed.

Lemma confidence_ok (distance threshold : Q) :
  0 <= distance -> 0 <= threshold ->
  exists c : Q,
    _calculate_confidence distance threshold = Ok c /\
    0 <= c /\ c <= 1 /\
    (threshold == 0 -> c = 0.0) /\
    (distance < threshold -> 0 < c).
Proof.
  intros Hd Ht. unfold _calculate_confidence.
  destruct (Py.eqb threshold 0) eqn:E0; [apply eqb_true in E0 | apply eqb_false in E0].
  - exists 0.0. repeat split; try lra.
  - destruct (Py.ltb distance threshold) eqn:E1;
      [apply ltb_true in E1 | apply ltb_false in E1].
    + rewrite div_ok by assumption. cbn [mbind outcome_bind Py.bind].
      assert (0 <= distance / threshold) by (apply quotient_nonneg; lra).
      assert (distance / threshold < 1) by (apply Qlt_shift_div_r; lra).
      eexists. split; [reflexivity | ].
      repeat split; try lra; intros; try contradiction; try lra.
    + assert (0 < distance) by lra.
      rewrite div_ok by lra. cbn [mbind outcome_bind Py.bind].
      assert (0 <= threshold / distance) by (apply quotient_nonneg; lra).
      assert (threshold / distance <= 1) by (apply Qle_shift_div_r; lra).
      eexists. split; [reflexivity | ].
      repeat split; try lra; intros; try contradiction; try lra.
Qed.

(** For a non-negative distance and a non-negative threshold the confidence
    is defined and lies in [[0,1]]; it is positive on the accepting side,
    and a zero threshold gives confidence 0. *)
Theorem confidence_in_unit_interval (distance threshold : Q) :
  0 <= distance -> 0 <= threshold ->
  exists c : Q,
    _calculate_confidence distance threshold = Ok c /\
    0 <= c /\ c <= 1 /\
    (threshold == 0 -> c = 0.0) /\
    (distance < threshold -> 0 < c).
Proof. apply confidence_ok. Qed.

Lemma sub_same_length (u v : list Q) :
  length u = length v -> Np.sub u v = Ok (zip_with Qminus u v).
Proof. intros Hl. unfold Np.sub. now rewrite Hl, Nat.eqb_refl. Qed.

Lemma norm_ok (v : list Q) : exists d : Q, Np.norm v = Ok d /\ 0 <= d.
Proof.
  unfold Np.norm.
  assert (Hsq : 0 <= Np.sum (map (fun x => Qabs x * Qabs x) v)).
  { apply sum_nonneg, Forall_map, Forall_forall. intros x _. apply square_nonneg. }
  rewrite sqrt_ok by assumption.
  eexists. split; [reflexivity | now apply np_sqrt_nonneg].
Qed.

Lemma euclidean_ok (tv mu : list Q) (p : profile) :
  mean p = Some mu -> length mu = length tv ->
  exists d : Q, _euclidean_distance tv p = Ok d /\ 0 <= d.
Proof.
  intros Hm Hl. unfold _euclidean_distance, get_mean. rewrite Hm.
  cbn [mbind outcome_bind Py.bind].
  run_with (sub_same_length tv mu (eq_sym Hl)). apply norm_ok.
Qed.

Lemma manhattan_ok (tv mu : list Q) (p : profile) :
  mean p = Some mu -> length mu = length tv ->
  _manhattan_distance tv p = Ok (Np.sum (map Qabs (zip_with Qminus tv mu))) /\
  0 <= Np.sum (map Qabs (zip_with Qminus tv mu)).
Proof.
  intros Hm Hl. unfold _manhattan_distance, get_mean. rewrite Hm.
  cbn [mbind outcome_bind Py.bind].
  run_with (sub_same_length tv mu (eq_sym Hl)). split; [reflexivity | ].
  apply sum_nonneg, Forall_map, Forall_forall. intros x _. apply Qabs_nonneg.
Qed.

(** With matching lengths the mahalanobis distance is a non-negative number
    or not finite; it is never an exception. *)
Lemma mahalanobis_cases (tv mu : list Q) (p : profile) :
  mean p = Some mu -> length mu = length tv ->
  (exists d : Q, _mahalanobis_distance tv p = Ok d /\ 0 <= d) \/
  _mahalanobis_distance tv p = NonFinite.
Proof.
  intros Hm Hl.
  destruct (euclidean_ok tv mu p Hm Hl) as (de & Hde & Hde0).
  unfold _mahalanobis_distance, get_mean. rewrite Hm.
  cbn [mbind outcome_bind Py.bind].
  destruct (cov_matrix p) as [cov | ]; [ | left; now exists de].
  destruct (negb (Nat.eqb (length cov) (length tv))); [left; now exists de | ].
  destruct (Np.add_square cov _) as [reg | ex | ];
    cbn [mbind outcome_bind Py.bind Py.try_except];
    [ | left; now exists de | now right].
  destruct (Np.inv reg) as [ci | ex | ];
    cbn [mbind outcome_bind Py.bind Py.try_except];
    [ | left; now exists de | now right].
  run_with (sub_same_length tv mu (eq_sym Hl)).
  destruct (Np.matmul_vec_mat _ ci) as [row | ex | ];
    cbn [mbind outcome_bind Py.bind Py.try_except];
    [ | left; now exists de | now right].
  destruct (Np.dot row _) as [sq | ex | ];
    cbn [mbind outcome_bind Py.bind Py.try_except];
    [ | left; now exists de | now right].
  unfold Np.sqrt.
  destruct (Py.ltb sq 0) eqn:E; [now right | ]. apply ltb_false in E.
  left. eexists. split; [reflexivity | now apply np_sqrt_nonneg].
Qed.

Lemma effective_threshold_pos (self : Matcher) (p : profile) :
  3 <= effective_threshold self p.
Proof.
  unfold effective_threshold, MIN_THRESHOLD, TOLERANCE_MULTIPLIER.
  match goal with
  | |- _ <= Py.max ?base _ * _ => pose proof (max_lower base 2.5)
  end.
  lra.
Qed.

(** [authenticate] on a profile with a mean, once the distance is known. *)
Lemma authenticate_with_distance (self : Matcher) (tv mu : list Q) (p : profile)
    (d : Q) :
  mean (_normalize_profile p) = Some mu ->
  Behaviour.distance_for self tv (_normalize_profile p) = Ok d -> 0 <= d ->
  exists c : Q,
    _calculate_confidence d (effective_threshold self (_normalize_profile p)) = Ok c /\
    0 <= c /\ c <= 1 /\
    authenticate self tv p =
      Ok (d, Py.ltb d (effective_threshold self (_normalize_profile p)),
          {| details_distance := d;
             details_threshold := effective_threshold self (_normalize_profile p);
             details_margin :=
               Some (effective_threshold self (_normalize_profile p) - d);
             details_confidence := c;
             details_metric := Some (metric self) |}).
Proof.
  intros Hm Hd Hd0.
  pose proof (effective_threshold_pos self (_normalize_profile p)) as Ht.
  destruct (confidence_ok d (effective_threshold self (_normalize_profile p)) Hd0)
    as (c & Hc & Hc0 & Hc1 & _); [lra | ].
  exists c. split; [exact Hc | ]. split; [exact Hc0 | ]. split; [exact Hc1 | ].
  unfold authenticate. rewrite Hm.
  unfold Behaviour.distance_for in Hd. rewrite Hd. cbn [mbind outcome_bind Py.bind].
  rewrite Hc. reflexivity.
Qed.

Lemma authenticate_not_finite (self : Matcher) (tv mu : list Q) (p : profile) :
  mean (_normalize_profile p) = Some mu ->
  Behaviour.distance_for self tv (_normalize_profile p) = NonFinite ->
  authenticate self tv p = NonFinite.
Proof.
  intros Hm Hd. unfold authenticate. rewrite Hm.
  unfold Behaviour.distance_for in Hd. now rewrite Hd.
Qed.

(** The summary of three collected results. *)
Lemma summarize_three (re rm rh : metric_result) :
  exists avg : Q,
    avg == (confidence re + confidence rm + confidence rh) / 3 /\
    summarize (<["mahalanobis" := rh]> (<["manhattan" := rm]> (<["euclidean" := re]> ∅)))
    = Ok {| per_metric :=
              <["mahalanobis" := rh]> (<["manhattan" := rm]> (<["euclidean" := re]> ∅));
            final_decision := accepted re || (accepted rm && accepted rh);
            avg_confidence := avg;
            votes :=
              pretty ((if accepted re then 1 else 0) + (if accepted rm then 1 else 0)
                      + (if accepted rh then 1 else 0))%nat +:+ "/3" |}.
Proof.
  destruct re as [d1 a1 c1], rm as [d2 a2 c2], rh as [d3 a3 c3].
  eexists. split; [ | unfold summarize, metrics, results_of, result_of].
  2:{ rewrite !lookup_insert_ne by done. rewrite !lookup_insert_eq.
      rewrite lookup_insert_ne by done. rewrite lookup_insert_eq.
      cbn [mbind outcome_bind Py.bind map].
      rewrite mean_ok by discriminate. cbn [mbind outcome_bind Py.bind].
      destruct a1, a2, a3; reflexivity. }
  unfold Np.sum, Np.len. simpl. field.
Qed.

Lemma collect_three_entries (self self' : Matcher) (tv : list Q) (p : profile)
    (acc : gmap string metric_result) :
  collect self tv p metrics ∅ = Returns acc self' ->
  exists re rm rh : metric_result,
    acc = <["mahalanobis" := rh]> (<["manhattan" := rm]> (<["euclidean" := re]> ∅)).
Proof.
  unfold metrics. cbn [collect].
  destruct (authenticate (set_metric self "euclidean") tv p)
    as [[[d1 a1] det1] | e | ]; try discriminate.
  rewrite set_metric_restores.
  destruct (authenticate (set_metric self "manhattan") tv p)
    as [[[d2 a2] det2] | e | ]; try discriminate.
  rewrite set_metric_restores.
  destruct (authenticate (set_metric self "mahalanobis") tv p)
    as [[[d3 a3] det3] | e | ]; try discriminate.
  intros [= <- _]. eexists _, _, _. reflexivity.
Qed.

(** The vote: the multi-metric decision grants access exactly when the
    euclidean metric accepts, or both other metrics do; the reported average
    confidence is the mean of the three confidences. *)
Theorem final_decision_is_the_vote (self self' : Matcher) (tv : list Q)
    (p : profile) (r : results) :
  authenticate_with_multiple_metrics self tv p = Returns r self' ->
  exists re rm rh : metric_result,
    per_metric r !! "euclidean" = Some re /\
    per_metric r !! "manhattan" = Some rm /\
    per_metric r !! "mahalanobis" = Some rh /\
    final_decision r = accepted re || (accepted rm && accepted rh) /\
    avg_confidence r == (confidence re + confidence rm + confidence rh) / 3.
Proof.
  unfold authenticate_with_multiple_metrics.
  destruct (collect self tv (_normalize_profile p) metrics ∅)
    as [acc s | e s | ] eqn:Hc; try discriminate.
  destruct (collect_three_entries _ _ _ _ _ Hc) as (re & rm & rh & ->).
  destruct (summarize_three re rm rh) as (avg & Havg & ->).
  intros [= <- _]. exists re, rm, rh. cbn.
  rewrite !lookup_insert_ne by done. rewrite !lookup_insert_eq.
  rewrite lookup_insert_ne by done. rewrite lookup_insert_eq.
  repeat split. exact Havg.
Qed.

(** What [authenticate] does on a profile whose mean has the length of the
    test vector: it returns, or a non-finite mahalanobis distance ends the
    run; without a covariance matrix it returns. *)
Lemma authenticate_matching (self : Matcher) (tv mu : list Q) (p : profile) :
  mean (_normalize_profile p) = Some mu -> length mu = length tv ->
  ((exists d a det, authenticate self tv p = Ok (d, a, det)) \/
   (authenticate self tv p = NonFinite /\ cov_matrix p <> None)).
Proof.
  intros Hm Hl.
  assert (Hdist :
    (exists d : Q, Behaviour.distance_for self tv (_normalize_profile p) = Ok d /\ 0 <= d)
    \/ (Behaviour.distance_for self tv (_normalize_profile p) = NonFinite /\
        cov_matrix p <> None)).
  { unfold Behaviour.distance_for.
    destruct (euclidean_ok tv mu _ Hm Hl) as (de & Hde & Hde0).
    destruct (manhattan_ok tv mu _ Hm Hl) as [Hdm Hdm0].
    destruct (String.eqb (metric self) "euclidean"); [left; now exists de | ].
    destruct (String.eqb (metric self) "manhattan");
      [left; eexists; split; [exact Hdm | exact Hdm0] | ].
    destruct (String.eqb (metric self) "mahalanobis"); [ | left; now exists de].
    destruct (mahalanobis_cases tv mu _ Hm Hl) as [(d & Hd & Hd0) | Hnf];
      [left; now exists d | ].
    right. split; [exact Hnf | ].
    intros Hnone. revert Hnf.
    unfold _mahalanobis_distance, get_mean. rewrite Hm.
    cbn [mbind outcome_bind Py.bind].
    change (cov_matrix (_normalize_profile p)) with (cov_matrix p).
    rewrite Hnone, Hde. discriminate. }
  destruct Hdist as [(d & Hd & Hd0) | [Hnf Hcov]].
  - destruct (authenticate_with_distance self tv mu p d Hm Hd Hd0)
      as (c & _ & _ & _ & ->).
    left. eexists _, _, _. reflexivity.
  - right. split; [ | exact Hcov]. now apply (authenticate_not_finite self tv mu).
Qed.

(** With a mean of the right length the multi-metric method never raises an
    exception, and it returns, with the matcher restored, whenever the
    profile stores no covariance matrix. *)
Theorem multi_metric_never_raises (self : Matcher) (tv mu : list Q) (p : profile) :
  mean (_normalize_profile p) = Some mu -> length mu = length tv ->
  (forall (e : exn) (s : Matcher),
     authenticate_with_multiple_metrics self tv p <> Raises e s) /\
  (cov_matrix p = None ->
   exists r : results, authenticate_with_multiple_metrics self tv p = Returns r self).
Proof.
  intros Hm Hl.
  assert (Hm' : mean (_normalize_profile (_normalize_profile p)) = Some mu)
    by now rewrite normalize_idempotent.
  assert (Hrun :
    (exists r : results, authenticate_with_multiple_metrics self tv p = Returns r self)
    \/ (authenticate_with_multiple_metrics self tv p = NotFinite /\
        cov_matrix p <> None)).
  { unfold authenticate_with_multiple_metrics, metrics. cbn [collect].
    destruct (authenticate_matching (set_metric self "euclidean") tv mu
                (_normalize_profile p) Hm' Hl)
      as [(d1 & a1 & det1 & ->) | [-> Hc]]; [ | right; now split].
    rewrite set_metric_restores.
    destruct (authenticate_matching (set_metric self "manhattan") tv mu
                (_normalize_profile p) Hm' Hl)
      as [(d2 & a2 & det2 & ->) | [-> Hc]]; [ | right; now split].
    rewrite set_metric_restores.
    destruct (authenticate_matching (set_metric self "mahalanobis") tv mu
                (_normalize_profile p) Hm' Hl)
      as [(d3 & a3 & det3 & ->) | [-> Hc]]; [ | right; now split].
    rewrite set_metric_restores.
    match goal with
    | |- context [summarize (<[_ := ?rh]> (<[_ := ?rm]> (<[_ := ?re]> ∅)))] =>
        destruct (summarize_three re rm rh) as (avg & _ & ->)
    end.
    left. eexists. reflexivity. }
  split.
  - intros e s. destruct Hrun as [[r ->] | [-> _]]; discriminate.
  - intros Hnone. destruct Hrun as [Hr | [_ Hc]]; [exact Hr | contradiction].
Qed.

(** A metric name other than the three known ones is served by the
    euclidean distance: the result is that of a euclidean matcher, only the
    reported metric name differs. *)
Theorem unknown_metric_uses_euclidean (self : Matcher) (tv : list Q) (p : profile) :
  metric self <> "euclidean"%string ->
  metric self <> "manhattan"%string ->
  metric self <> "mahalanobis"%string ->
  authenticate self tv p
  = Behaviour.relabel (metric self) (authenticate (set_metric self "euclidean") tv p).
Proof.
  intros H1 H2 H3. apply String.eqb_neq in H1, H2, H3.
  unfold authenticate. rewrite H1, H2, H3. cbn [set_metric metric].
  rewrite String.eqb_refl.
  destruct (mean (_normalize_profile p)); [ | reflexivity].
  change (effective_threshold (set_metric self "euclidean") (_normalize_profile p))
    with (effective_threshold self (_normalize_profile p)).
  destruct (_euclidean_distance tv (_normalize_profile p)) as [d | e | ];
    cbn [mbind outcome_bind Py.bind Behaviour.relabel]; try reflexivity.
  destruct (_calculate_confidence d _) as [c | e | ];
    cbn [mbind outcome_bind Py.bind Behaviour.relabel]; reflexivity.
Qed.

(** When the regularized covariance cannot be inverted the mahalanobis
    distance is the euclidean one: the [LinAlgError] is caught. *)
Theorem mahalanobis_singular_falls_back (tv : list Q) (p : profile)
    (cov reg : list (list Q)) :
  cov_matrix p = Some cov -> length cov = length tv ->
  Np.add_square cov (Np.eye_times (length cov) 1e-4) = Ok reg ->
  Np.inv reg = Raise LinAlgError ->
  _mahalanobis_distance tv p = _euclidean_distance tv p.
Proof.
  intros Hcov Hl Hreg Hinv. unfold _mahalanobis_distance.
  destruct (get_mean p) as [mu | e | ] eqn:Hmu; cbn [mbind outcome_bind Py.bind].
  - rewrite Hcov.
    replace (Nat.eqb (length cov) (length tv)) with true
      by (symmetry; now apply Nat.eqb_eq).
    cbn [negb]. rewrite Hreg. cbn [mbind outcome_bind Py.bind]. rewrite Hinv. reflexivity.
  - unfold _euclidean_distance. now rewrite Hmu.
  - unfold _euclidean_distance. now rewrite Hmu.
Qed.

Lemma sum_abs_of_self_difference (v : list Q) :
  Np.sum (map Qabs (zip_with Qminus v v)) == 0.
Proof.
  induction v as [ | x v IH]; [reflexivity | ].
  unfold Np.sum in *. cbn [zip_with map fold_right].
  rewrite IH.
  assert (E : Qabs (x - x) == 0).
  { rewrite (Qabs_wd (x - x) 0) by ring. reflexivity. }
  rewrite E. reflexivity.
Qed.

(** A test vector equal to the stored mean is accepted by the manhattan
    metric, at distance zero and with full confidence. *)
Theorem identical_vector_accepted_by_manhattan (self : Matcher) (tv : list Q)
    (p : profile) :
  mean (_normalize_profile p) = Some tv ->
  metric self = "manhattan"%string ->
  exists (d : Q) (det : details),
    authenticate self tv p = Ok (d, true, det) /\
    d == 0 /\ details_confidence det == 1.
Proof.
  intros Hm Hmetric.
  destruct (manhattan_ok tv tv _ Hm eq_refl) as [Hd Hd0].
  pose proof (sum_abs_of_self_difference tv) as Hzero.
  pose proof (effective_threshold_pos self (_normalize_profile p)) as Ht.
  set (d := Np.sum (map Qabs (zip_with Qminus tv tv))) in *.
  assert (Hdist : Behaviour.distance_for self tv (_normalize_profile p) = Ok d).
  { unfold Behaviour.distance_for. rewrite Hmetric. exact Hd. }
  destruct (authenticate_with_distance self tv tv p d Hm Hdist Hd0)
    as (c & Hc & _ & _ & ->).
  assert (Hacc : Py.ltb d (effective_threshold self (_normalize_profile p)) = true)
    by (apply ltb_true; lra).
  rewrite Hacc. eexists _, _. split; [reflexivity | ]. split; [exact Hzero | ].
  cbn. revert Hc. unfold _calculate_confidence.
  destruct (Py.eqb _ 0) eqn:E0; [apply eqb_true in E0; lra | ].
  rewrite Hacc. rewrite div_ok by lra. cbn [mbind outcome_bind Py.bind].
  intros [= <-]. rewrite Hzero. field. lra.
Qed.

Lemma collect_raises (self self' : Matcher) (tv : list Q) (p : profile)
    (todo : list string) (acc : gmap string metric_result) (e : exn) :
  collect self tv p todo acc = Raises e self' ->
  threshold self' = threshold self /\
  use_dynamic_threshold self' = use_dynamic_threshold self /\
  In (metric self') todo.
Proof.
  revert self acc. induction todo as [ | m rest IH]; intros self acc;
    cbn [collect]; [discriminate | ].
  destruct (authenticate (set_metric self m) tv p) as [[[d a] det] | ex | ].
  - rewrite set_metric_restores. intros Hc.
    destruct (IH _ _ Hc) as (Ht & Hu & Hin). repeat split; try assumption.
    now right.
  - intros [= _ <-]. repeat split. now left.
  - discriminate.
Qed.

(** Also when the multi-metric method raises, threshold and
    dynamic-threshold flag are untouched; the metric is then the one that
    was being tried (or the original one), not necessarily the original. *)
Theorem raised_exception_keeps_thresholds (self self' : Matcher) (tv : list Q)
    (p : profile) (e : exn) :
  authenticate_with_multiple_metrics self tv p = Raises e self' ->
  threshold self' = threshold self /\
  use_dynamic_threshold self' = use_dynamic_threshold self /\
  (In (metric self') metrics \/ metric self' = metric self).
Proof.
  unfold authenticate_with_multiple_metrics.
  destruct (collect self tv (_normalize_profile p) metrics ∅)
    as [acc s | ex s | ] eqn:Hc; try discriminate.
  - apply collect_restores in Hc. subst s.
    destruct (summarize acc); try discriminate.
    intros [= _ <-]. repeat split. now right.
  - intros [= _ <-]. destruct (collect_raises _ _ _ _ _ _ _ Hc) as (Ht & Hu & Hin).
    repeat split; try assumption. now left.
Qed.

End MatcherBehaviour.

Section MatcherBehaviourWitnesses.

Import Matcher.

Lemma confidence_in_unit_interval_witness :
  exists c : Q,
    _calculate_confidence 1.0 3.0 = Ok c /\
    0 <= c /\ c <= 1 /\ (3.0 == 0 -> c = 0.0) /\ (1.0 < 3.0 -> 0 < c).
Proof. apply confidence_in_unit_interval; lra. Defined.

Lemma final_decision_is_the_vote_witness :
  exists (r : results) (re rm rh : metric_result),
    authenticate_with_multiple_metrics Sample.matcher Sample.vector Sample.stored_profile
      = Returns r Sample.matcher /\
    per_metric r !! "euclidean" = Some re /\
    per_metric r !! "manhattan" = Some rm /\
    per_metric r !! "mahalanobis" = Some rh /\
    final_decision r = accepted re || (accepted rm && accepted rh) /\
    avg_confidence r == (confidence re + confidence rm + confidence rh) / 3.
Proof.
  destruct (authenticate_with_multiple_metrics
              Sample.matcher Sample.vector Sample.stored_profile)
    as [r s | e s | ] eqn:Hrun.
  - destruct (final_decision_is_the_vote _ _ _ _ _ Hrun) as (re & rm & rh & Hv).
    exists r, re, rm, rh. split; [ | exact Hv].
    vm_compute in Hrun. injection Hrun as _ <-. reflexivity.
  - vm_compute in Hrun. discriminate.
  - vm_compute in Hrun. discriminate.
Defined.

Lemma multi_metric_never_raises_witness :
  (forall (e : exn) (s : Matcher),
     authenticate_with_multiple_metrics Sample.matcher Sample.vector Cases.plain_profile
     <> Raises e s) /\
  (cov_matrix Cases.plain_profile = None ->
   exists r : results,
     authenticate_with_multiple_metrics Sample.matcher Sample.vector Cases.plain_profile
     = Returns r Sample.matcher).
Proof.
  apply (multi_metric_never_raises _ _ [1.0; 3.0; 1.0; 1.0]); reflexivity.
Defined.

Lemma unknown_metric_uses_euclidean_witness :
  authenticate Cases.cosine_matcher Sample.vector Cases.plain_profile
  = Behaviour.relabel "cosine"
      (authenticate (set_metric Cases.cosine_matcher "euclidean")
         Sample.vector Cases.plain_profile).
Proof.
  apply (unknown_metric_uses_euclidean Cases.cosine_matcher); discriminate.
Defined.

Lemma mahalanobis_singular_falls_back_witness :
  _mahalanobis_distance [1.0] Cases.singular_profile
  = _euclidean_distance [1.0] Cases.singular_profile.
Proof.
  apply (mahalanobis_singular_falls_back _ _ [[- 0.0001]]
           [[- 0.0001 + 1 * 1e-4]]); reflexivity.
Defined.

Lemma identical_vector_accepted_by_manhattan_witness :
  exists (d : Q) (det : details),
    authenticate Cases.manhattan_matcher Sample.vector Cases.plain_profile
      = Ok (d, true, det) /\
    d == 0 /\ details_confidence det == 1.
Proof.
  apply identical_vector_accepted_by_manhattan; reflexivity.
Defined.

Lemma raised_exception_keeps_thresholds_witness :
  exists (e : exn) (s : Matcher),
    authenticate_with_multiple_metrics Cases.manhattan_matcher [1.0; 3.0; 1.0]
      Cases.plain_profile = Raises e s /\
    threshold s = threshold Cases.manhattan_matcher /\
    use_dynamic_threshold s = use_dynamic_threshold Cases.manhattan_matcher /\
    (In (metric s) metrics \/ metric s = metric Cases.manhattan_matcher).
Proof.
  destruct (authenticate_with_multiple_metrics Cases.manhattan_matcher
              [1.0; 3.0; 1.0] Cases.plain_profile)
    as [r s | e s | ] eqn:Hrun.
  - vm_compute in Hrun. discriminate.
  - exists e, s. split; [reflexivity | ].
    exact (raised_exception_keeps_thresholds _ _ _ _ _ Hrun).
  - vm_compute in Hrun. discriminate.
Defined.

End MatcherBehaviourWitnesses.

(** ** Rhythm analyzer: ranges of the sub-scores *)

Section AnalyzerBehaviour.

Import RhythmAnalyzer.

Context `{Numpy}.

Lemma clamp_unit (x : Q) :
  0 <= Py.max 0 (Py.min 1 x) /\ Py.max 0 (Py.min 1 x) <= 1.
Proof. unfold Py.max, Py.min. compare_floats; split; lra. Qed.

(** Split on the outcome of the next step of a computation. *)
Ltac next_step :=
  unfold mbind, outcome_bind;
  match goal with
  | |- context [Py.bind ?c _] =>
      let E := fresh "E" in
      destruct c eqn:E; cbn [Py.bind]; try discriminate
  end.

Ltac close_range :=
  intros Hv; injection Hv as <-;
  first [apply clamp_unit | split; lra].

Lemma tempo_consistency_range (presses gaps : list Q) (v : Q) :
  _analyze_tempo_consistency presses gaps = Ok v -> 0 <= v /\ v <= 1.
Proof.
  unfold _analyze_tempo_consistency. cbv zeta. cbn [mbind outcome_bind].
  destruct (_ <? 2)%nat; [close_range | ].
  do 2 next_step.
  destruct (Py.eqb _ 0); [close_range | ].
  next_step. close_range.
Qed.

Lemma ratio_nonneg (x y : Z) :
  (0 <= x)%Z -> (0 < y)%Z -> 0 <= inject_Z x / inject_Z y.
Proof.
  intros Hx Hy. apply quotient_nonneg.
  - now rewrite <- (Zle_Qle 0).
  - now rewrite <- (Zlt_Qlt 0).
Qed.

Lemma ratio_ge_one_iff (x y : Z) :
  (0 < y)%Z -> (1 <= inject_Z x / inject_Z y <-> (y <= x)%Z).
Proof.
  intros Hy.
  assert (Hy' : 0 < inject_Z y) by now rewrite <- (Zlt_Qlt 0).
  rewrite Zle_Qle. split.
  - intros H1. apply (Qmult_le_r _ _ (inject_Z y) Hy') in H1.
    assert (E : inject_Z x / inject_Z y * inject_Z y == inject_Z x) by (field; lra).
    rewrite E in H1. lra.
  - intros H1. apply Qle_shift_div_l; [assumption | lra].
Qed.

Lemma ratio_pos_iff (x y : Z) :
  (0 <= x)%Z -> (0 < y)%Z -> (inject_Z x / inject_Z y <= 0 <-> x = 0%Z).
Proof.
  intros Hx Hy.
  assert (Hy' : 0 < inject_Z y) by now rewrite <- (Zlt_Qlt 0).
  split.
  - intros H0. apply (Qmult_le_r _ _ (inject_Z y) Hy') in H0.
    assert (E : inject_Z x / inject_Z y * inject_Z y == inject_Z x) by (field; lra).
    rewrite E in H0.
    assert (H1 : inject_Z x <= inject_Z 0) by (change (inject_Z 0) with 0; lra).
    rewrite <- Zle_Qle in H1. lia.
  - intros ->. unfold Qdiv. change (inject_Z 0) with 0. lra.
Qed.

(** The element-count term of the pattern accuracy: at most 1, at least 1
    only for the expected number of presses, non-negative when the expected
    number is. *)
Lemma count_accuracy_range (expected actual : Z) (c : Q) :
  (0 < actual)%Z ->
  (if (expected <=? actual)%Z
   then r ← int_div expected actual; Ok (Py.min 1.0 r)
   else int_div actual expected) = Ok c ->
  c <= 1 /\ (1 <= c <-> expected = actual) /\ ((0 <= expected)%Z -> 0 <= c).
Proof.
  intros Ha.
  destruct (expected <=? actual)%Z eqn:E; [apply Z.leb_le in E | apply Z.leb_gt in E].
  - rewrite int_div_ok by lia. cbn [mbind outcome_bind Py.bind].
    intros [= <-].
    pose proof (ratio_ge_one_iff expected actual Ha) as Hone.
    unfold Py.min. compare_floats.
    + split; [lra | ]. split.
      * split; [intros; lra | ]. intros ->.
        assert (1 <= inject_Z actual / inject_Z actual) by (apply Hone; lia). lra.
      * intros He. now apply ratio_nonneg.
    + split; [lra | ]. split.
      * split; [ | intros; lra]. intros _.
        assert (1 <= inject_Z expected / inject_Z actual) by lra.
        apply Hone in H0. lia.
      * intros; lra.
  - rewrite int_div_ok by lia. intros [= <-].
    assert (He : (0 < expected)%Z) by lia.
    pose proof (ratio_ge_one_iff actual expected He) as Hone.
    assert (Hlt : inject_Z actual / inject_Z expected < 1).
    { apply Qnot_le_lt. intros Hge. apply Hone in Hge. lia. }
    split; [lra | ]. split.
    + split; [intros; lra | lia].
    + intros _. apply ratio_nonneg; lia.
Qed.

(** One class term of the pattern accuracy: 1 minus the relative error of
    the class size. *)
Lemma class_accuracy_range (actual expected : Z) :
  let err := inject_Z (Z.abs (actual - expected)) / inject_Z (Z.max expected 1) in
  Py.max 0 (1.0 - err) <= 1 /\ 0 <= Py.max 0 (1.0 - err) /\
  (1 <= Py.max 0 (1.0 - err) <-> actual = expected).
Proof.
  cbv zeta.
  assert (Herr : 0 <= inject_Z (Z.abs (actual - expected)) / inject_Z (Z.max expected 1))
    by (apply ratio_nonneg; lia).
  pose proof (ratio_pos_iff (Z.abs (actual - expected)) (Z.max expected 1)) as Hzero.
  unfold Py.max. compare_floats.
  - split; [lra | ]. split; [lra | ]. split.
    + intros H1. assert (Z.abs (actual - expected) = 0%Z) by (apply Hzero; [lia | lia | lra]).
      lia.
    + intros ->. assert (Ez : (Z.abs (expected - expected) = 0)%Z) by lia.
      apply Hzero in Ez; [lra | lia | lia].
  - split; [lra | ]. split; [lra | ]. split; [intros; lra | ].
    intros ->. assert (Ez : (Z.abs (expected - expected) = 0)%Z) by lia.
    apply Hzero in Ez; [lra | lia | lia].
Qed.

Lemma pattern_accuracy_facts (presses : list Q) (info : password_info) (p25 : Q) :
  presses <> [] -> Np.percentile presses 25 = Ok p25 -> ~ p25 == 0 ->
  exists v : Q,
    _analyze_pattern_accuracy presses info = Ok v /\
    0 <= v /\ v <= 1 /\
    (1 <= v <-> Behaviour.counts_match presses info) /\
    (Behaviour.counts_match presses info -> v = 1).
Proof.
  intros Hne Hp Hp0.
  assert (Ha : (0 < Z.of_nat (length presses))%Z).
  { destruct presses; [congruence | simpl; lia]. }
  unfold _analyze_pattern_accuracy. cbv zeta.
  destruct (Z.of_nat (length presses) =? 0)%Z eqn:E0; [apply Z.eqb_eq in E0; lia | ].
  assert (Hcount : exists c : Q,
            (if (total_elements info <=? Z.of_nat (length presses))%Z
             then r ← int_div (total_elements info) (Z.of_nat (length presses));
                  Ok (Py.min 1.0 r)
             else int_div (Z.of_nat (length presses)) (total_elements info)) = Ok c).
  { destruct (total_elements info <=? Z.of_nat (length presses))%Z eqn:E.
    - run_with (int_div_ok (total_elements info) (Z.of_nat (length presses))
                  ltac:(lia)).
      eexists; reflexivity.
    - apply Z.leb_gt in E. rewrite int_div_ok by lia. eexists; reflexivity. }
  destruct Hcount as [c Hc].
  destruct (count_accuracy_range _ _ c Ha Hc) as (Hc1 & Hcone & _).
  run_with Hc. run_with Hp.
  destruct (Py.eqb p25 0) eqn:Ep; [apply eqb_true in Ep; contradiction | ].
  rewrite int_div_ok by lia. cbn [mbind outcome_bind Py.bind].
  rewrite int_div_ok by lia. cbn [mbind outcome_bind Py.bind].
  set (ed := count "."%char (remove_spaces (morse_code info))).
  set (ea := count "-"%char (remove_spaces (morse_code info))).
  set (nd := Z.of_nat (length (Np.below (p25 * 2.0) presses))).
  set (na := Z.of_nat (length (Np.at_least (p25 * 2.0) presses))).
  destruct (class_accuracy_range nd ed) as (HA1 & HA0 & HAone).
  destruct (class_accuracy_range na ea) as (HB1 & HB0 & HBone).
  cbv zeta in HA1, HA0, HAone, HB1, HB0, HBone.
  set (A := Py.max 0 (1.0 - inject_Z (Z.abs (nd - ed)) / inject_Z (Z.max ed 1))) in *.
  set (B := Py.max 0 (1.0 - inject_Z (Z.abs (na - ea)) / inject_Z (Z.max ea 1))) in *.
  set (score := c * 0.4 + A * 0.3 + B * 0.3).
  assert (Hmatch : Behaviour.counts_match presses info <->
                   total_elements info = Z.of_nat (length presses) /\ nd = ed /\ na = ea).
  { unfold Behaviour.counts_match. split.
    - intros (q & Hq & He & Hd & Hda). rewrite Hp in Hq. injection Hq as <-.
      now repeat split.
    - intros (He & Hd & Hda). exists p25. now repeat split. }
  assert (Hscore : 1 <= score <-> Behaviour.counts_match presses info).
  { rewrite Hmatch, <- Hcone, <- HAone, <- HBone. unfold score. split.
    - intros Hs. repeat split; lra.
    - intros (? & ? & ?). lra. }
  eexists. split; [reflexivity | ].
  pose proof (clamp_unit score) as [Hlo Hhi].
  split; [exact Hlo | ]. split; [exact Hhi | ].
  unfold Py.max, Py.min in *.
  destruct (Py.ltb score 1) eqn:Es; [apply ltb_true in Es | apply ltb_false in Es].
  - destruct (Py.ltb 0 score) eqn:Ez.
    + split; [split; [intros; lra | intros Hm; apply Hscore in Hm; lra] | ].
      intros Hm. apply Hscore in Hm. lra.
    + split; [split; [intros; lra | intros Hm; apply Hscore in Hm; lra] | ].
      intros Hm. apply Hscore in Hm. lra.
  - change (Py.ltb 0 1) with true. cbv iota.
    split; [split; [intros _; now apply Hscore | intros; lra] | reflexivity].
Qed.

(** For positive presses the pattern accuracy is a number in [[0,1]] that
    reaches 1 exactly when the number of presses, of dots and of dashes are
    the expected ones; it is then exactly 1, the value the admission gate
    asks for. *)
Theorem pattern_accuracy_one_iff_counts_match (presses : list Q)
    (info : password_info) :
  Forall (fun p => 0 < p) presses -> presses <> [] ->
  exists v : Q,
    _analyze_pattern_accuracy presses info = Ok v /\
    0 <= v /\ v <= 1 /\
    (1 <= v <-> Behaviour.counts_match presses info) /\
    (Behaviour.counts_match presses info -> v = 1).
Proof.
  intros Hpos Hne.
  destruct (percentile_ok presses 25 Hne) as [p25 Hp].
  assert (0 < p25) by (apply (percentile_pos presses 25 p25 Hpos); [lra | lra | exact Hp]).
  apply (pattern_accuracy_facts presses info p25); [assumption | assumption | lra].
Qed.

Lemma pattern_accuracy_range (presses : list Q) (info : password_info) (v : Q) :
  (0 <= total_elements info)%Z ->
  _analyze_pattern_accuracy presses info = Ok v -> 0 <= v /\ v <= 1.
Proof.
  intros He. unfold _analyze_pattern_accuracy. cbv zeta.
  destruct (Z.of_nat (length presses) =? 0)%Z eqn:E0; [close_range | ].
  apply Z.eqb_neq in E0.
  assert (Ha : (0 < Z.of_nat (length presses))%Z) by lia.
  destruct (if (total_elements info <=? Z.of_nat (length presses))%Z
            then _ else _) as [c | ex | ] eqn:Hc;
    cbn [mbind outcome_bind Py.bind]; try discriminate.
  destruct (count_accuracy_range _ _ c Ha Hc) as (Hc1 & _ & Hc0).
  specialize (Hc0 He).
  next_step.
  destruct (Py.eqb _ 0); [intros [= <-]; split; lra | ].
  do 2 next_step. close_range.
Qed.

Lemma timing_precision_range (presses : list Q) (v : Q) :
  _analyze_timing_precision presses = Ok v -> 0 <= v /\ v <= 1.
Proof.
  unfold _analyze_timing_precision. cbv zeta.
  destruct (_ <? 2)%nat; [close_range | ].
  next_step.
  destruct (Py.eqb _ 0); [close_range | ].
  do 2 next_step. close_range.
Qed.

Lemma rhythm_stability_range (presses gaps : list Q) (v : Q) :
  _analyze_rhythm_stability presses gaps = Ok v -> 0 <= v /\ v <= 1.
Proof.
  unfold _analyze_rhythm_stability. cbv zeta.
  destruct (_ <? 4)%nat; [close_range | ].
  do 2 next_step.
  destruct (Py.eqb _ 0); [close_range | ].
  next_step. close_range.
Qed.

Lemma dot_dash_separation_range (presses : list Q) (v : Q) :
  _analyze_dot_dash_separation presses = Ok v -> 0 <= v /\ v <= 1.
Proof.
  unfold _analyze_dot_dash_separation. cbv zeta.
  destruct (_ <? 3)%nat; [close_range | ].
  next_step.
  destruct (Py.eqb _ 0); [close_range | ].
  destruct (_ || _); [close_range | ].
  next_step.
  destruct (Py.ltb 0 _); repeat next_step; close_range.
Qed.

(** The fields of a returned score are the sub-scores of its presses. *)
Lemma analyze_rhythm_fields (presses gaps : list Q) (info : password_info)
    (r : score) :
  presses <> [] -> analyze_rhythm presses gaps info = Ok r ->
  _analyze_tempo_consistency presses gaps = Ok (tempo_consistency r) /\
  _analyze_pattern_accuracy presses info = Ok (pattern_accuracy r) /\
  _analyze_timing_precision presses = Ok (timing_precision r) /\
  _analyze_rhythm_stability presses gaps = Ok (rhythm_stability r) /\
  _analyze_dot_dash_separation presses = Ok (dot_dash_separation r) /\
  overall_score r =
    tempo_consistency r * 0.25 + pattern_accuracy r * 0.30
    + timing_precision r * 0.20 + rhythm_stability r * 0.15
    + dot_dash_separation r * 0.10.
Proof.
  intros Hne. unfold analyze_rhythm.
  destruct presses as [ | p ps]; [congruence | ]. cbn [length Nat.eqb].
  set (presses := p :: ps) in *.
  destruct (_analyze_tempo_consistency presses gaps) as [t | ex | ];
    cbn [mbind outcome_bind Py.bind]; try discriminate.
  destruct (_analyze_pattern_accuracy presses info) as [a | ex | ];
    cbn [mbind outcome_bind Py.bind]; try discriminate.
  destruct (_analyze_timing_precision presses) as [c | ex | ];
    cbn [mbind outcome_bind Py.bind]; try discriminate.
  destruct (_analyze_rhythm_stability presses gaps) as [b | ex | ];
    cbn [mbind outcome_bind Py.bind]; try discriminate.
  destruct (_analyze_dot_dash_separation presses) as [d | ex | ];
    cbn [mbind outcome_bind Py.bind]; try discriminate.
  cbv zeta.
  destruct (Np.mean presses) as [m | ex | ];
    cbn [mbind outcome_bind Py.bind]; try discriminate.
  destruct (Np.std presses) as [sd | ex | ];
    cbn [mbind outcome_bind Py.bind]; try discriminate.
  destruct (if Py.ltb 0 m then _ else _) as [cv | ex | ];
    cbn [mbind outcome_bind Py.bind]; try discriminate.
  intros [= <-]. cbn. repeat split.
Qed.

Lemma analyze_rhythm_range (presses gaps : list Q) (info : password_info) :
  (0 <= total_elements info)%Z ->
  exists r : score,
    analyze_rhythm presses gaps info = Ok r /\
    (0 <= overall_score r /\ overall_score r <= 1) /\
    (0 <= tempo_consistency r /\ tempo_consistency r <= 1) /\
    (0 <= pattern_accuracy r /\ pattern_accuracy r <= 1) /\
    (0 <= timing_precision r /\ timing_precision r <= 1) /\
    (0 <= rhythm_stability r /\ rhythm_stability r <= 1) /\
    (0 <= dot_dash_separation r /\ dot_dash_separation r <= 1) /\
    (presses = [] -> r = _empty_score).
Proof.
  intros He. destruct presses as [ | p ps].
  - exists _empty_score. split; [reflexivity | ]. cbn. repeat split; lra.
  - assert (Hne : p :: ps <> []) by discriminate.
    destruct (analyze_rhythm_ok (p :: ps) gaps info Hne) as (r & Hr & _).
    destruct (analyze_rhythm_fields _ _ _ r Hne Hr) as (Ht & Ha & Hc & Hb & Hd & Ho).
    apply tempo_consistency_range in Ht.
    apply (pattern_accuracy_range _ _ _ He) in Ha.
    apply timing_precision_range in Hc.
    apply rhythm_stability_range in Hb.
    apply dot_dash_separation_range in Hd.
    exists r. split; [exact Hr | ].
    rewrite Ho. repeat split; try tauto; try lra; discriminate.
Qed.

(** The analyzer returns for every input, empty presses included (the
    all-zero score), and with a non-negative expected element count every
    sub-score and the overall score lie in [[0,1]]. *)
Theorem analyze_scores_in_unit_interval (presses gaps : list Q)
    (info : password_info) :
  (0 <= total_elements info)%Z ->
  exists r : score,
    analyze_rhythm presses gaps info = Ok r /\
    (0 <= overall_score r /\ overall_score r <= 1) /\
    (0 <= tempo_consistency r /\ tempo_consistency r <= 1) /\
    (0 <= pattern_accuracy r /\ pattern_accuracy r <= 1) /\
    (0 <= timing_precision r /\ timing_precision r <= 1) /\
    (0 <= rhythm_stability r /\ rhythm_stability r <= 1) /\
    (0 <= dot_dash_separation r /\ dot_dash_separation r <= 1) /\
    (presses = [] -> r = _empty_score).
Proof. apply analyze_rhythm_range. Qed.

End AnalyzerBehaviour.

Section AnalyzerBehaviourWitnesses.

Import RhythmAnalyzer.

Lemma pattern_accuracy_one_iff_counts_match_witness :
  exists v : Q,
    _analyze_pattern_accuracy [0.1; 0.3; 0.1]
      {| morse_code := ".-."; total_elements := 3 |} = Ok v /\
    0 <= v /\ v <= 1 /\
    (1 <= v <-> Behaviour.counts_match [0.1; 0.3; 0.1]
                  {| morse_code := ".-."; total_elements := 3 |}) /\
    (Behaviour.counts_match [0.1; 0.3; 0.1]
       {| morse_code := ".-."; total_elements := 3 |} -> v = 1).
Proof.
  apply pattern_accuracy_one_iff_counts_match.
  - repeat constructor.
  - discriminate.
Defined.

Lemma analyze_scores_in_unit_interval_witness :
  exists r : score,
    analyze_rhythm [0.1; 0.3; 0.1] [0.1; 0.1]
      {| morse_code := ".-."; total_elements := 3 |} = Ok r /\
    (0 <= overall_score r /\ overall_score r <= 1) /\
    (0 <= tempo_consistency r /\ tempo_consistency r <= 1) /\
    (0 <= pattern_accuracy r /\ pattern_accuracy r <= 1) /\
    (0 <= timing_precision r /\ timing_precision r <= 1) /\
    (0 <= rhythm_stability r /\ rhythm_stability r <= 1) /\
    (0 <= dot_dash_separation r /\ dot_dash_separation r <= 1) /\
    ([0.1; 0.3; 0.1] = [] -> r = _empty_score).
Proof. apply analyze_scores_in_unit_interval. simpl. lia. Defined.

End AnalyzerBehaviourWitnesses.

(** ** The dot/dash classification *)

Section Classification.

Lemma insert_In (x y : Q) (l : list Q) :
  In x (Np.insert y l) -> x = y \/ In x l.
Proof.
  induction l as [ | z l IH]; simpl.
  - intros [<- | []]. now left.
  - destruct (Py.leb y z); simpl.
    + intros [<- | [<- | Hin]]; auto.
    + intros [<- | Hin]; auto. destruct (IH Hin); auto.
Qed.

Lemma sort_In (x : Q) (xs : list Q) : In x (Np.sort xs) -> In x xs.
Proof.
  induction xs as [ | y xs IH]; simpl; [trivial | ].
  intros Hin. apply insert_In in Hin. destruct Hin as [<- | Hin]; auto.
Qed.

(** A percentile is an interpolation between two elements of the array. *)
Lemma percentile_interpolates (xs : list Q) (q v : Q) :
  0 <= q -> q <= 100 -> Np.percentile xs q = Ok v ->
  exists a b g : Q,
    In a xs /\ In b xs /\ 0 <= g /\ g < 1 /\ v = a + (b - a) * g.
Proof.
  intros Hq0 Hq1. unfold Np.percentile.
  destruct (Np.sort xs) as [ | y s] eqn:Es; [discriminate | ].
  cbv zeta.
  set (n := length (y :: s)).
  set (top := inject_Z (Z.of_nat (n - 1))).
  set (virtual := top * (q / 100)).
  set (previous := Z.to_nat (Qfloor virtual)).
  set (a := nth previous (y :: s) 0).
  set (b := nth (Nat.min (previous + 1) (n - 1)) (y :: s) 0).
  set (gamma := virtual - inject_Z (Qfloor virtual)).
  assert (Htop : 0 <= top).
  { unfold top. rewrite <- (Zle_Qle 0). lia. }
  assert (Hfrac : 0 <= q / 100 /\ q / 100 <= 1).
  { split.
    - apply quotient_nonneg; lra.
    - apply Qle_shift_div_r; lra. }
  assert (Hv0 : 0 <= virtual).
  { unfold virtual. apply Qmult_le_0_compat; tauto. }
  assert (Hv1 : virtual <= top).
  { unfold virtual.
    assert (E : top == 1 * top) by ring.
    rewrite E at 2. rewrite (Qmult_comm top).
    apply Qmult_le_compat_r; tauto. }
  assert (Hf0 : (0 <= Qfloor virtual)%Z).
  { change 0%Z with (Qfloor 0). now apply Qfloor_resp_le. }
  assert (Hf1 : (Qfloor virtual <= Z.of_nat (n - 1))%Z).
  { rewrite <- (Qfloor_Z (Z.of_nat (n - 1))). now apply Qfloor_resp_le. }
  assert (Hn : (0 < n)%nat) by (unfold n; simpl; lia).
  assert (Ha : In a xs).
  { apply sort_In. rewrite Es. apply nth_In. fold n. unfold previous. lia. }
  assert (Hb : In b xs).
  { apply sort_In. rewrite Es. apply nth_In. fold n. lia. }
  assert (Hg0 : 0 <= gamma).
  { unfold gamma. pose proof (Qfloor_le virtual). lra. }
  assert (Hg1 : gamma < 1).
  { unfold gamma. pose proof (Qlt_floor virtual) as Hlt.
    rewrite inject_Z_plus in Hlt. change (inject_Z 1) with 1 in Hlt. lra. }
  intros Hv. injection Hv as <-.
  exists a, b, gamma. repeat split; assumption.
Qed.

Lemma below_contains (t x : Q) (xs : list Q) :
  In x xs -> x < t -> Np.below t xs <> [].
Proof.
  intros Hin Hlt Hnil.
  assert (Hx : x ∈ Np.below t xs).
  { unfold Np.below. apply list_elem_of_filter. split.
    - now apply ltb_true.
    - now apply list_elem_of_In. }
  rewrite Hnil in Hx. now apply not_elem_of_nil in Hx.
Qed.

Lemma positive_presses_have_dots (presses : list Q) (p25 : Q) :
  Forall (fun p => 0 < p) presses ->
  Np.percentile presses 25 = Ok p25 ->
  0 < p25 /\ Np.below (p25 * 2.0) presses <> [].
Proof.
  intros Hpos Hp.
  assert (H0 : 0 < p25)
    by (apply (percentile_pos presses 25 p25 Hpos); [lra | lra | exact Hp]).
  split; [exact H0 | ].
  destruct (percentile_interpolates presses 25 p25) as (a & b & g & Ha & Hb & Hg0 & Hg1 & Hv);
    [lra | lra | exact Hp | ].
  rewrite Forall_forall in Hpos.
  assert (Ha0 : 0 < a) by (apply Hpos; now apply list_elem_of_In).
  assert (Hb0 : 0 < b) by (apply Hpos; now apply list_elem_of_In).
  destruct (Qlt_le_dec b a) as [Hba | Hab].
  - apply (below_contains _ b); [assumption | ].
    assert (0 <= (a - b) * (1 - g)) by (apply Qmult_le_0_compat; lra).
    assert (E : a + (b - a) * g == b + (a - b) * (1 - g)) by ring.
    rewrite Hv, E. lra.
  - apply (below_contains _ a); [assumption | ].
    assert (0 <= (b - a) * g) by (apply Qmult_le_0_compat; lra).
    rewrite Hv. lra.
Qed.

(** With at least three positive presses the class of dots is never empty:
    some press lies below twice the 25th percentile.  The neutral separation
    score 0.7 is therefore the all-dot case, given when no press reaches
    that threshold; otherwise the score is 1 minus a non-negative ratio
    error, clamped to [[0,1]]. *)
Theorem dots_never_empty (presses : list Q) (p25 : Q) :
  (3 <= length presses)%nat ->
  Forall (fun p => 0 < p) presses ->
  Np.percentile presses 25 = Ok p25 ->
  Np.below (p25 * 2.0) presses <> [] /\
  (Np.at_least (p25 * 2.0) presses = [] ->
   RhythmAnalyzer._analyze_dot_dash_separation presses = Ok 0.7) /\
  (Np.at_least (p25 * 2.0) presses <> [] ->
   exists v : Q,
     RhythmAnalyzer._analyze_dot_dash_separation presses
     = Ok (Py.max 0 (Py.min 1 (1.0 - v))) /\ 0 <= v).
Proof.
  intros Hlen Hpos Hp.
  destruct (positive_presses_have_dots presses p25 Hpos Hp) as [H0 Hdots].
  split; [exact Hdots | ].
  unfold RhythmAnalyzer._analyze_dot_dash_separation.
  destruct (length presses <? 3)%nat eqn:E; [apply Nat.ltb_lt in E; lia | ].
  run_with Hp.
  destruct (Py.eqb p25 0) eqn:E0; [apply eqb_true in E0; lra | ].
  set (dots := Np.below (p25 * 2.0) presses) in *.
  set (dashes := Np.at_least (p25 * 2.0) presses) in *.
  split.
  - intros ->. simpl. now rewrite orb_true_r.
  - intros Hdashes.
    destruct (Nat.eqb (length dots) 0) eqn:Ed.
    { apply Nat.eqb_eq, length_zero_iff_nil in Ed. contradiction. }
    destruct (Nat.eqb (length dashes) 0) eqn:Ea.
    { apply Nat.eqb_eq, length_zero_iff_nil in Ea. contradiction. }
    cbn [orb].
    run_with (mean_ok dots Hdots).
    destruct (Py.ltb 0 (Np.sum dots / Np.len dots)) eqn:Em.
    + apply ltb_true in Em. run_with (mean_ok dashes Hdashes).
      rewrite div_ok by lra. cbn [mbind outcome_bind Py.bind].
      rewrite div_ok by lra. cbn [mbind outcome_bind Py.bind].
      eexists. split; [reflexivity | ].
      apply quotient_nonneg; [apply Qabs_nonneg | lra].
    + cbn [mbind outcome_bind Py.bind].
      rewrite div_ok by lra. cbn [mbind outcome_bind Py.bind].
      eexists. split; [reflexivity | ].
      apply quotient_nonneg; [apply Qabs_nonneg | lra].
Qed.

Lemma dots_never_empty_witness :
  exists p25 : Q,
    Np.below (p25 * 2.0) [0.1; 0.3; 0.1] <> [] /\
    (Np.at_least (p25 * 2.0) [0.1; 0.3; 0.1] = [] ->
     RhythmAnalyzer._analyze_dot_dash_separation [0.1; 0.3; 0.1] = Ok 0.7) /\
    (Np.at_least (p25 * 2.0) [0.1; 0.3; 0.1] <> [] ->
     exists v : Q,
       RhythmAnalyzer._analyze_dot_dash_separation [0.1; 0.3; 0.1]
       = Ok (Py.max 0 (Py.min 1 (1.0 - v))) /\ 0 <= v).
Proof.
  eexists. apply dots_never_empty.
  - simpl. lia.
  - repeat constructor.
  - reflexivity.
Defined.

End Classification.

(** ** Feature extractor: degenerate base unit, class ratios *)

Section ExtractorBehaviour.

Import OptimizedFeatureExtractor.

Context `{Numpy}.

Lemma or_sentinel_id (xs : list Q) : xs <> [] -> or_sentinel xs = xs.
Proof. destruct xs; [congruence | reflexivity]. Qed.

(** When the 25th percentile of the presses is zero (zero-length presses,
    which the tap listener lets through), normalizing by the base unit
    divides by zero: the features are not finite. *)
Theorem extract_zero_base_unit_not_finite (self : OptimizedFeatureExtractor)
    (presses gaps : list Q) (base_unit : Q) :
  presses <> [] ->
  Np.percentile presses 25 = Ok base_unit -> base_unit == 0 ->
  extract self presses gaps = NonFinite.
Proof.
  intros Hne Hp H0. unfold extract. cbv zeta.
  rewrite (or_sentinel_id presses Hne).
  unfold _estimate_dot_duration.
  destruct presses as [ | p ps]; [congruence | ]. cbn [length Nat.eqb].
  run_with Hp. cbn [Np.div_each]. unfold Py.div.
  apply eqb_true in H0. rewrite H0. reflexivity.
Qed.

Lemma partition_lengths (t : Q) (xs : list Q) :
  (length (Np.below t xs) + length (Np.at_least t xs))%nat = length xs.
Proof.
  unfold Np.below, Np.at_least, Py.ltb, Py.leb.
  induction xs as [ | x xs IH]; [reflexivity | ].
  rewrite !filter_cons.
  destruct (Qle_bool t x); cbn [negb].
  - rewrite decide_False by discriminate. rewrite decide_True by reflexivity.
    cbn [length]. lia.
  - rewrite decide_True by reflexivity. rewrite decide_False by discriminate.
    cbn [length]. lia.
Qed.

(** The first two rhythm features, for a non-empty list of presses. *)
Lemma morse_features_head (self : OptimizedFeatureExtractor)
    (presses gaps : list Q) (base_unit : Q) (v : list Q) :
  presses <> [] ->
  _extract_morse_features self presses gaps base_unit = Ok v ->
  exists rest : list Q,
    v = Np.len (Np.below (base_unit * dot_dash_threshold self) presses) / Np.len presses
        :: Np.len (Np.at_least (base_unit * dot_dash_threshold self) presses) / Np.len presses
        :: rest.
Proof.
  intros Hne. unfold _extract_morse_features. cbv zeta.
  destruct presses as [ | p ps]; [congruence | ]. cbn [length Nat.ltb Nat.leb].
  set (presses := p :: ps) in *.
  repeat (unfold mbind, outcome_bind;
          match goal with
          | |- context [Py.bind ?c _] =>
              destruct c; cbn [Py.bind]; try discriminate
          end).
  intros [= <-]. eexists. reflexivity.
Qed.

Lemma ratios_sum_to_one (t : Q) (xs : list Q) :
  xs <> [] ->
  Np.len (Np.below t xs) / Np.len xs + Np.len (Np.at_least t xs) / Np.len xs == 1 /\
  0 <= Np.len (Np.below t xs) / Np.len xs /\
  0 <= Np.len (Np.at_least t xs) / Np.len xs.
Proof.
  intros Hne. pose proof (len_pos xs Hne) as Hn.
  assert (Hsum : Np.len (Np.below t xs) + Np.len (Np.at_least t xs) == Np.len xs).
  { unfold Np.len. rewrite <- inject_Z_plus, <- Nat2Z.inj_add, partition_lengths.
    reflexivity. }
  assert (Hd : 0 <= Np.len (Np.below t xs)).
  { unfold Np.len. rewrite <- (Zle_Qle 0). lia. }
  assert (Ha : 0 <= Np.len (Np.at_least t xs)).
  { unfold Np.len. rewrite <- (Zle_Qle 0). lia. }
  split; [ | split; apply quotient_nonneg; assumption].
  assert (E : Np.len (Np.below t xs) / Np.len xs + Np.len (Np.at_least t xs) / Np.len xs
              == (Np.len (Np.below t xs) + Np.len (Np.at_least t xs)) / Np.len xs)
    by (field; lra).
  rewrite E, Hsum. field. lra.
Qed.

(** [extract] on positive presses, block by block. *)
Lemma extract_blocks (self : OptimizedFeatureExtractor) (presses gaps : list Q) :
  Forall (fun p => 0 < p) presses ->
  exists (base : Q) (f1 f2 f3 f4 : list Q),
    0 < base /\
    _estimate_dot_duration (or_sentinel presses) = Ok base /\
    _extract_morse_features self (or_sentinel presses) (or_sentinel gaps) base = Ok f2 /\
    length f1 = 8%nat /\ length f2 = 8%nat /\ length f3 = 10%nat /\ length f4 = 6%nat /\
    extract self presses gaps = Ok (f1 ++ f2 ++ f3 ++ f4).
Proof.
  intros Hpos. unfold extract. cbv zeta.
  pose proof (or_sentinel_nonempty presses) as Hp.
  pose proof (or_sentinel_nonempty gaps) as Hg.
  apply or_sentinel_pos in Hpos.
  set (ps := or_sentinel presses) in *. set (gs := or_sentinel gaps) in *.
  destruct (estimate_dot_duration_pos ps Hp Hpos) as (base & Hbase & Hb).
  run_with Hbase.
  assert (Hb0 : ~ base == 0) by lra.
  run_with (div_each_ok ps base Hb0). run_with (div_each_ok gs base Hb0).
  set (nps := map (fun x => x / base) ps). set (ngs := map (fun x => x / base) gs).
  destruct (position_features_ok nps ngs (map_nonempty _ ps Hp)) as (f1 & E1 & L1).
  run_with E1.
  destruct (morse_features_ok self ps gs base Hb) as (f2 & E2 & L2).
  run_with E2.
  destruct (statistical_features_ok nps ngs (map_nonempty _ ps Hp)
              (map_nonempty _ gs Hg)) as (f3 & E3 & L3).
  run_with E3.
  destruct (temporal_features_ok ps gs Hp) as (f4 & E4 & L4).
  run_with E4.
  exists base, f1, f2, f3, f4. repeat split; assumption.
Qed.

(** In the vector of a sample with positive presses, dimensions 8 and 9
    (the share of dots and the share of dashes) are non-negative and sum
    to 1: every press is classified as exactly one of the two. *)
Theorem dot_and_dash_shares_sum_to_one (self : OptimizedFeatureExtractor)
    (presses gaps : list Q) :
  Forall (fun p => 0 < p) presses ->
  exists v : list Q,
    extract self presses gaps = Ok v /\
    nth 8 v 0 + nth 9 v 0 == 1 /\ 0 <= nth 8 v 0 /\ 0 <= nth 9 v 0.
Proof.
  intros Hpos.
  destruct (extract_blocks self presses gaps Hpos)
    as (base & f1 & f2 & f3 & f4 & Hb & _ & Hf2 & L1 & _ & _ & _ & Hex).
  pose proof (or_sentinel_nonempty presses) as Hp.
  destruct (morse_features_head self _ _ base f2 Hp Hf2) as (rest & ->).
  eexists. split; [exact Hex | ].
  rewrite !(app_nth2 f1) by lia. rewrite L1.
  change (8 - 8)%nat with 0%nat. change (9 - 8)%nat with 1%nat. cbn [nth app].
  apply ratios_sum_to_one. exact Hp.
Qed.

End ExtractorBehaviour.

Section ExtractorBehaviourWitnesses.

Import OptimizedFeatureExtractor.

Lemma extract_zero_base_unit_not_finite_witness :
  extract (__init__ 2.0) [0; 0; 0.2] [0.1; 0.1] = NonFinite.
Proof.
  eapply extract_zero_base_unit_not_finite.
  - discriminate.
  - reflexivity.
  - vm_compute. reflexivity.
Defined.

Lemma dot_and_dash_shares_sum_to_one_witness :
  exists v : list Q,
    extract (__init__ 2.0) [0.1; 0.3; 0.1] [0.1; 0.15] = Ok v /\
    nth 8 v 0 + nth 9 v 0 == 1 /\ 0 <= nth 8 v 0 /\ 0 <= nth 9 v 0.
Proof. apply dot_and_dash_shares_sum_to_one. repeat constructor. Defined.

End ExtractorBehaviourWitnesses.

(** ** Morse table, expected timing and sequence validation *)

Section MorseBehaviour.

Import MorseCodes.

Lemma fold_insert_lookup (items : list (string * string)) (d : gmap string string)
    (k v : string) :
  fold_left (fun d kv => <[fst kv := snd kv]> d) items d !! k = Some v ->
  In (k, v) items \/ d !! k = Some v.
Proof.
  revert d. induction items as [ | [k0 v0] items IH]; intros d; simpl.
  - now right.
  - intros Hl. destruct (IH _ Hl) as [Hin | Hd]; [left; now right | ].
    destruct (decide (k0 = k)) as [-> | Hne].
    + rewrite lookup_insert_eq in Hd. injection Hd as ->. left. now left.
    + rewrite lookup_insert_ne in Hd by assumption. now right.
Qed.

Lemma dict_of_items_lookup (items : list (string * string)) (k v : string) :
  dict_of_items items !! k = Some v -> In (k, v) items.
Proof.
  intros Hl. destruct (fold_insert_lookup items ∅ k v Hl) as [Hin | He];
    [exact Hin | ].
  rewrite lookup_empty in He. discriminate.
Qed.

(** What holds for every line of the table. *)
Lemma table_lines :
  Forall (fun kv =>
            MORSE_CODE !! fst kv = Some (snd kv) /\
            REVERSE_MORSE_CODE !! snd kv = Some (fst kv) /\
            upper (fst kv) = fst kv)
    MORSE_ITEMS.
Proof.
  unfold MORSE_ITEMS.
  repeat (constructor; [vm_compute; repeat split; reflexivity | ]).
  constructor.
Qed.

(** The table and its reverse are inverse to each other: a character has a
    pattern exactly when that pattern decodes to the character, and then
    [get_morse_pattern] and [get_character_from_morse] undo each other. *)
Theorem morse_table_round_trip (character pattern : string) :
  (MORSE_CODE !! character = Some pattern <->
   REVERSE_MORSE_CODE !! pattern = Some character) /\
  (MORSE_CODE !! character = Some pattern ->
   get_morse_pattern character = Some pattern /\
   get_character_from_morse pattern = Some character).
Proof.
  pose proof table_lines as Hlines. rewrite Forall_forall in Hlines.
  assert (Hfwd : MORSE_CODE !! character = Some pattern ->
                 REVERSE_MORSE_CODE !! pattern = Some character /\
                 upper character = character).
  { intros Hl. apply dict_of_items_lookup in Hl.
    apply list_elem_of_In, Hlines in Hl. simpl in Hl. tauto. }
  split; [split | ].
  - intros Hl. now apply Hfwd.
  - intros Hl. apply dict_of_items_lookup in Hl.
    apply in_map_iff in Hl. destruct Hl as ([c p] & [= <- <-] & Hin).
    apply list_elem_of_In, Hlines in Hin. simpl in Hin. tauto.
  - intros Hl. destruct (Hfwd Hl) as [Hrev Hup].
    unfold get_morse_pattern, get_character_from_morse. rewrite Hup. now split.
Qed.

(** The loop of [get_expected_timing] in closed form: every dot adds one
    unit, every dash three, and every element but the last one unit of
    gap. *)
Lemma timing_loop_closed (d : Q) (n : nat) (rest : string) (i : nat) (total : Q) :
  (i + String.length rest)%nat = n ->
  timing_loop d n i rest total
  == total
     + inject_Z (RhythmAnalyzer.count "."%char rest
                 + 3 * RhythmAnalyzer.count "-"%char rest
                 + Z.of_nat (String.length rest - 1)) * d.
Proof.
  revert i total. induction rest as [ | c rest IH]; intros i total Hn.
  - cbn [timing_loop RhythmAnalyzer.count String.length].
    change (inject_Z (0 + 3 * 0 + Z.of_nat (0 - 1))) with 0. ring.
  - cbn [timing_loop String.length RhythmAnalyzer.count].
    rewrite IH by (simpl in Hn; lia).
    set (a := RhythmAnalyzer.count "."%char rest).
    set (b := RhythmAnalyzer.count "-"%char rest).
    assert (Hgap : Z.of_nat (S (String.length rest) - 1)
                   = (Z.of_nat (String.length rest - 1)
                      + (if (i <? n - 1)%nat then 1 else 0))%Z).
    { simpl in Hn. destruct (i <? n - 1)%nat eqn:E.
      - apply Nat.ltb_lt in E. lia.
      - apply Nat.ltb_ge in E. lia. }
    rewrite Hgap. set (g := Z.of_nat (String.length rest - 1)).
    rewrite (Ascii.eqb_sym "."%char c), (Ascii.eqb_sym "-"%char c).
    destruct (Ascii.eqb c "."%char) eqn:Edot.
    + apply Ascii.eqb_eq in Edot. subst c.
      change (Ascii.eqb "."%char "-"%char) with false. cbv iota.
      destruct (i <? n - 1)%nat;
        repeat (rewrite ?inject_Z_plus, ?inject_Z_mult);
        change (inject_Z 1) with 1; change (inject_Z 0) with 0;
        change (inject_Z 3) with 3; ring.
    + destruct (Ascii.eqb c "-"%char); destruct (i <? n - 1)%nat;
        repeat (rewrite ?inject_Z_plus, ?inject_Z_mult);
        change (inject_Z 1) with 1; change (inject_Z 0) with 0;
        change (inject_Z 3) with 3; ring.
Qed.

(** The expected timing of a character of the table: its pattern is not
    empty, and the total duration is one unit per dot, three per dash and
    one per gap between two elements. *)
Theorem expected_timing_closed_form (character : string) (d : Q) (t : timing) :
  get_expected_timing character d = Some t ->
  get_morse_pattern character = Some (timing_pattern t) /\
  num_elements t = String.length (timing_pattern t) /\
  (0 < num_elements t)%nat /\
  total_duration t
  == inject_Z (dots t + 3 * dashes t + Z.of_nat (num_elements t) - 1) * d.
Proof.
  unfold get_expected_timing.
  destruct (get_morse_pattern character) as [pattern | ]; [ | discriminate].
  assert (Hlen : pattern <> EmptyString -> (0 < String.length pattern)%nat).
  { destruct pattern; [congruence | cbn [String.length]; lia]. }
  intros Hrun.
  assert (Ht : pattern <> EmptyString /\
               t = {| timing_pattern := pattern;
                      total_duration := timing_loop d (String.length pattern) 0 pattern 0;
                      num_elements := String.length pattern;
                      dots := RhythmAnalyzer.count "."%char pattern;
                      dashes := RhythmAnalyzer.count "-"%char pattern |}).
  { destruct pattern; [discriminate | ]. split; [discriminate | congruence]. }
  clear Hrun. destruct Ht as [Hne ->]. specialize (Hlen Hne).
  unfold timing_pattern, total_duration, num_elements, dots, dashes.
  split; [reflexivity | ]. split; [reflexivity | ]. split; [exact Hlen | ].
  pose proof (timing_loop_closed d (String.length pattern) pattern 0%nat 0 eq_refl)
    as Hloop.
  rewrite Hloop. clear Hloop.
  replace (Z.of_nat (String.length pattern - 1))
    with (Z.of_nat (String.length pattern) - 1)%Z by lia.
  match goal with
  | |- 0 + inject_Z ?x * d == inject_Z ?y * d => replace y with x by lia
  end.
  ring.
Qed.

(** The smallest element as the builtin [min] finds it. *)
Lemma fold_min_spec (rest : list Q) (x : Q) :
  In (fold_left Py.min rest x) (x :: rest) /\
  Forall (fun y => fold_left Py.min rest x <= y) (x :: rest).
Proof.
  revert x. induction rest as [ | y rest IH]; intros x.
  - cbn [fold_left]. split; [now left | ]. constructor; [lra | constructor].
  - cbn [fold_left]. destruct (IH (Py.min x y)) as [Hin Hall].
    assert (Hmin : (Py.min x y = x \/ Py.min x y = y) /\
                   Py.min x y <= x /\ Py.min x y <= y).
    { unfold Py.min. destruct (Py.ltb y x) eqn:E.
      - apply ltb_true in E. split; [now right | lra].
      - apply ltb_false in E. split; [now left | lra]. }
    destruct Hmin as (Hor & Hx & Hy).
    inversion Hall as [ | ? ? Hm Hrest]; subst.
    split.
    + destruct Hin as [Hin | Hin].
      * rewrite <- Hin. destruct Hor as [-> | ->]; [now left | right; now left].
      * right. now right.
    + constructor; [lra | ]. constructor; [lra | exact Hrest].
Qed.

(** [validate_morse_sequence] raises exactly on no presses against an
    empty pattern, where [min] has nothing to work on; on every other input
    it returns a boolean. *)
Theorem validate_raises_only_on_empty (presses : list Q) (pattern : string)
    (tolerance : Q) :
  (presses = [] /\ pattern = EmptyString ->
   validate_morse_sequence presses pattern tolerance = Raise ValueError) /\
  (presses <> [] \/ pattern <> EmptyString ->
   exists b : bool, validate_morse_sequence presses pattern tolerance = Ok b).
Proof.
  split.
  - intros [-> ->]. reflexivity.
  - intros Hne. unfold validate_morse_sequence.
    destruct presses as [ | p ps], pattern as [ | c rest];
      cbn [length String.length Nat.eqb negb].
    + destruct Hne; congruence.
    + now exists false.
    + now exists false.
    + destruct (negb _); [now exists false | ].
      cbn [min_of mbind outcome_bind Py.bind]. eexists. reflexivity.
Qed.

Lemma canonical_presses_length (d : Q) (pattern : string) :
  length (Behaviour.canonical_presses d pattern) = String.length pattern.
Proof.
  induction pattern as [ | c rest IH]; [reflexivity | ].
  cbn [Behaviour.canonical_presses length String.length]. now rewrite IH.
Qed.

Lemma canonical_presses_values (d : Q) (pattern : string) (x : Q) :
  In x (Behaviour.canonical_presses d pattern) -> x = d \/ x = 3 * d.
Proof.
  induction pattern as [ | c rest IH]; [contradiction | ].
  cbn [Behaviour.canonical_presses]. intros [<- | Hin]; [ | now apply IH].
  destruct (Ascii.eqb c "."%char); [now left | now right].
Qed.

Lemma canonical_presses_dot (d : Q) (pattern : string) :
  RhythmAnalyzer.count "."%char pattern <> 0%Z ->
  In d (Behaviour.canonical_presses d pattern).
Proof.
  induction pattern as [ | c rest IH]; [intros Hc; now contradiction Hc | ].
  cbn [Behaviour.canonical_presses RhythmAnalyzer.count].
  rewrite (Ascii.eqb_sym "."%char c).
  destruct (Ascii.eqb c "."%char); [intros _; now left | ].
  intros Hc. right. apply IH. lia.
Qed.

Lemma validate_loop_canonical (d tolerance : Q) (pattern : string) :
  0 < d -> 0 <= tolerance ->
  validate_loop d tolerance (Behaviour.canonical_presses d pattern) pattern = true.
Proof.
  intros Hd Ht. induction pattern as [ | c rest IH]; [reflexivity | ].
  cbn [Behaviour.canonical_presses validate_loop].
  set (expected := if Ascii.eqb c "."%char then d else 3 * d).
  assert (He : 0 < expected) by (unfold expected; destruct (Ascii.eqb c "."%char); lra).
  assert (Hp : 0 <= expected * tolerance) by (apply Qmult_le_0_compat; lra).
  assert (Hlo : Py.leb (expected * (1 - tolerance)) expected = true).
  { apply leb_true. lra. }
  assert (Hhi : Py.leb expected (expected * (1 + tolerance)) = true).
  { apply leb_true. lra. }
  rewrite Hlo, Hhi. exact IH.
Qed.

(** Presses with the canonical timing of a pattern that contains a dot are
    validated, for every non-negative tolerance. *)
Theorem canonical_taps_validate (d tolerance : Q) (pattern : string) :
  0 < d -> 0 <= tolerance ->
  RhythmAnalyzer.count "."%char pattern <> 0%Z ->
  validate_morse_sequence (Behaviour.canonical_presses d pattern) pattern tolerance
  = Ok true.
Proof.
  intros Hd Ht Hdot. unfold validate_morse_sequence.
  rewrite canonical_presses_length, Nat.eqb_refl. cbn [negb].
  pose proof (canonical_presses_dot d pattern Hdot) as Hin.
  destruct (Behaviour.canonical_presses d pattern) as [ | x rest] eqn:Hc;
    [contradiction | ].
  cbn [min_of mbind outcome_bind Py.bind].
  destruct (fold_min_spec rest x) as [Hmem Hle].
  assert (Hmin : fold_left Py.min rest x = d).
  { rewrite <- Hc in Hmem. apply canonical_presses_values in Hmem.
    destruct Hmem as [E | E]; [exact E | exfalso].
    rewrite Forall_forall in Hle.
    apply list_elem_of_In, Hle in Hin. rewrite E in Hin. lra. }
  rewrite Hmin, <- Hc. f_equal. now apply validate_loop_canonical.
Qed.

Lemma count_nonneg (c : ascii) (s : string) : (0 <= RhythmAnalyzer.count c s)%Z.
Proof.
  induction s as [ | c' rest IH]; cbn [RhythmAnalyzer.count]; [lia | ].
  destruct (Ascii.eqb c c'); lia.
Qed.

Lemma validate_loop_rejects (d tolerance : Q) (presses : list Q) (pattern : string) :
  length presses = String.length pattern ->
  RhythmAnalyzer.count "."%char pattern = 0%Z ->
  Exists (fun press => press < 3 * d * (1 - tolerance)) presses ->
  validate_loop d tolerance presses pattern = false.
Proof.
  revert pattern. induction presses as [ | press presses IH];
    intros pattern Hlen Hdot Hex; [inversion Hex | ].
  destruct pattern as [ | c rest]; [discriminate | ].
  cbn [validate_loop]. cbn [RhythmAnalyzer.count] in Hdot.
  rewrite (Ascii.eqb_sym "."%char c) in Hdot.
  pose proof (count_nonneg "."%char rest) as Hnn.
  destruct (Ascii.eqb c "."%char); [lia | ].
  destruct (Py.leb (3 * d * (1 - tolerance)) press) eqn:Elo; cbn [andb negb];
    [ | reflexivity].
  destruct (Py.leb press (3 * d * (1 + tolerance))); cbn [negb]; [ | reflexivity].
  apply IH.
  - cbn [length String.length] in Hlen. lia.
  - lia.
  - apply leb_true in Elo. inversion Hex as [? ? Hlt | ? ? Hrest]; subst;
      [lra | exact Hrest].
Qed.

(** A pattern without a dot is never validated when the tolerance is below
    two thirds: the shortest press is taken for the dot and is then too
    short for the dash it stands for.  The letters T, M and O and the digit
    0 are such patterns. *)
Theorem dashes_only_never_validate (presses : list Q) (pattern : string)
    (tolerance : Q) :
  presses <> [] -> Forall (fun press => 0 < press) presses ->
  RhythmAnalyzer.count "."%char pattern = 0%Z ->
  3 * tolerance < 2 ->
  validate_morse_sequence presses pattern tolerance = Ok false.
Proof.
  intros Hne Hpos Hdot Ht. unfold validate_morse_sequence.
  destruct (Nat.eqb (length presses) (String.length pattern)) eqn:Hlen;
    cbn [negb]; [ | reflexivity].
  apply Nat.eqb_eq in Hlen.
  destruct presses as [ | x rest]; [congruence | ].
  cbn [min_of mbind outcome_bind Py.bind].
  destruct (fold_min_spec rest x) as [Hmem Hle].
  set (m := fold_left Py.min rest x) in *.
  f_equal. apply validate_loop_rejects; [exact Hlen | exact Hdot | ].
  apply Exists_exists. exists m. split; [now apply list_elem_of_In | ].
  rewrite Forall_forall in Hpos. apply list_elem_of_In, Hpos in Hmem.
  assert (Hgap : 0 < m * (2 - 3 * tolerance)) by (apply Qmult_lt_0_compat; lra).
  lra.
Qed.

End MorseBehaviour.

Section MorseBehaviourWitnesses.

Import MorseCodes.

Lemma expected_timing_closed_form_witness :
  exists t : timing,
    get_expected_timing "s" 0.1 = Some t /\
    get_morse_pattern "s" = Some (timing_pattern t) /\
    num_elements t = String.length (timing_pattern t) /\
    (0 < num_elements t)%nat /\
    total_duration t
    == inject_Z (dots t + 3 * dashes t + Z.of_nat (num_elements t) - 1) * 0.1.
Proof.
  destruct (get_expected_timing "s" 0.1) as [t | ] eqn:Hrun.
  - exists t. split; [reflexivity | ].
    exact (expected_timing_closed_form "s" 0.1 t Hrun).
  - vm_compute in Hrun. discriminate.
Defined.

Lemma validate_raises_only_on_empty_witness :
  validate_morse_sequence [] "" 0.3 = Raise ValueError /\
  exists b : bool, validate_morse_sequence [0.1] "." 0.3 = Ok b.
Proof.
  split.
  - apply (validate_raises_only_on_empty [] "" 0.3). now split.
  - apply (validate_raises_only_on_empty [0.1] "." 0.3). left. discriminate.
Defined.

Lemma canonical_taps_validate_witness :
  validate_morse_sequence (Behaviour.canonical_presses 0.1 ".-") ".-" 0.3 = Ok true.
Proof.
  apply canonical_taps_validate.
  - reflexivity.
  - discriminate.
  - discriminate.
Defined.

Lemma dashes_only_never_validate_witness :
  validate_morse_sequence [0.3; 0.3; 0.3] "---" 0.3 = Ok false.
Proof.
  apply dashes_only_never_validate.
  - discriminate.
  - repeat constructor.
  - reflexivity.
  - reflexivity.
Defined.

End MorseBehaviourWitnesses.

(** ** The tap listener and the recording of the enrollment window *)

Section ListenerBehaviour.

Import TapListener.

Lemma durations_nonneg (ps rs : list Q) :
  Forall (fun x => 0 <= x) (durations ps rs).
Proof.
  revert rs. induction ps as [ | p ps IH]; intros [ | r rs]; cbn [durations];
    try constructor.
  destruct (Py.leb 0 (r - p)) eqn:E; [ | apply IH].
  constructor; [now apply leb_true | apply IH].
Qed.

Lemma start_gaps_nonneg (events : list event) (self : TapListener) :
  Forall (fun x => 0 <= x) (gaps self) ->
  Forall (fun x => 0 <= x) (gaps (start self events)).
Proof.
  revert self. induction events as [ | [k now | k now] events IH]; intros self Hg.
  - exact Hg.
  - cbn [start]. destruct k; cbn [on_press]; [ | exact Hg | now apply IH].
    destruct (space_is_down self); [now apply IH | ].
    apply IH. cbn [gaps].
    destruct (last_release_time self) as [last | ]; [ | exact Hg].
    destruct (Py.leb 0 (now - last)) eqn:E; [ | exact Hg].
    apply Forall_app. split; [exact Hg | ].
    constructor; [now apply leb_true | constructor].
  - cbn [start]. apply IH. destruct k; exact Hg.
Qed.

(** Whatever the keyboard delivers, and whatever the clock does, the
    listener never reports a negative press duration or gap. *)
Theorem listener_reports_no_negative_time (events : list event) :
  Forall (fun x => 0 <= x) (fst (get_sequences (start __init__ events))) /\
  Forall (fun x => 0 <= x) (snd (get_sequences (start __init__ events))).
Proof.
  unfold get_sequences. cbn [fst snd]. split.
  - apply durations_nonneg.
  - apply start_gaps_nonneg. constructor.
Qed.

(** Presses repeated by the keyboard while the key is held change nothing. *)
Lemma start_repeats (repeats : list Q) (self : TapListener) (rest : list event) :
  space_is_down self = true ->
  start self (map (Press Space) repeats ++ rest) = start self rest.
Proof.
  intros Hdown. induction repeats as [ | now repeats IH]; [reflexivity | ].
  cbn [map app start on_press]. rewrite Hdown. exact IH.
Qed.

(** The state after a run of taps, for a listener that has seen a release. *)
Lemma start_taps (taps : list (Q * list Q * Q)) (self : TapListener) (last : Q)
    (rest : list event) :
  space_is_down self = false -> last_release_time self = Some last ->
  exists self' : TapListener,
    start self (Behaviour.tap_events taps ++ rest) = start self' rest /\
    press_times self' = press_times self ++ map Behaviour.pressed_at taps /\
    release_times self' = release_times self ++ map Behaviour.released_at taps /\
    gaps self'
    = gaps self
      ++ EnrollmentApp.gaps_between (map Behaviour.pressed_at taps)
           (last :: map Behaviour.released_at taps).
Proof.
  revert self last. induction taps as [ | [[p repeats] r] taps IH];
    intros self last Hup Hlast.
  - exists self. cbn [Behaviour.tap_events map app EnrollmentApp.gaps_between].
    rewrite !app_nil_r. repeat split.
  - cbn [Behaviour.tap_events]. rewrite <- app_comm_cons, <- app_assoc, <- app_comm_cons.
    cbn [start on_press]. rewrite Hup, Hlast.
    rewrite start_repeats by reflexivity.
    cbn [start on_release].
    match goal with
    | |- context [start ?s (Behaviour.tap_events taps ++ rest)] =>
        destruct (IH s r eq_refl eq_refl) as (self' & Hrun & Hp & Hr & Hg)
    end.
    exists self'. split; [exact Hrun | ].
    cbn [press_times release_times gaps] in Hp, Hr, Hg.
    rewrite Hp, Hr, Hg.
    cbn [map Behaviour.pressed_at Behaviour.released_at fst snd
         EnrollmentApp.gaps_between].
    rewrite <- !app_assoc. cbn [app]. repeat split.
    destruct (Py.leb 0 (p - last)); [ | reflexivity].
    rewrite <- app_assoc. reflexivity.
Qed.

(** On a recording in which the space bar goes down and up in turn and
    that ends with ESC, the listener returns what the enrollment window
    computes from the same press and release times: the same durations and
    the same gaps.  Repeated presses and whatever follows ESC play no part,
    and the clock need not be monotone. *)
Theorem listener_agrees_with_recording (taps : list (Q * list Q * Q)) (stop : Q)
    (later : list event) :
  get_sequences
    (start __init__ (Behaviour.tap_events taps ++ Press Esc stop :: later))
  = EnrollmentApp.recorded_sequences
      (map Behaviour.pressed_at taps) (map Behaviour.released_at taps).
Proof.
  unfold EnrollmentApp.recorded_sequences. rewrite !length_map, Nat.min_id.
  rewrite <- (length_map Behaviour.pressed_at taps) at 1.
  rewrite firstn_all.
  destruct taps as [ | [[p repeats] r] taps]; [reflexivity | ].
  cbn [Behaviour.tap_events]. rewrite <- app_comm_cons, <- app_assoc, <- app_comm_cons.
  cbn [start on_press __init__ space_is_down last_release_time].
  rewrite start_repeats by reflexivity.
  cbn [start on_release].
  match goal with
  | |- context [start ?s (Behaviour.tap_events taps ++ ?rest)] =>
      destruct (start_taps taps s r rest eq_refl eq_refl)
        as (self' & Hrun & Hp & Hr & Hg)
  end.
  rewrite Hrun. cbn [start on_press]. unfold get_sequences.
  cbn [press_times release_times gaps] in Hp, Hr, Hg.
  rewrite Hp, Hr, Hg.
  cbn [map Behaviour.pressed_at Behaviour.released_at fst snd app drop].
  reflexivity.
Qed.

End ListenerBehaviour.

(** ** The enrollment window: from a recording to the accumulator *)

Section RecordingBehaviour.

Import EnrollmentApp.

Context `{Numpy}.

Lemma as_metrics_lookups (r : RhythmAnalyzer.score) :
  as_metrics r !! "timing_precision" = Some (RhythmAnalyzer.timing_precision r) /\
  as_metrics r !! "tempo_consistency" = Some (RhythmAnalyzer.tempo_consistency r) /\
  as_metrics r !! "pattern_accuracy" = Some (RhythmAnalyzer.pattern_accuracy r) /\
  as_metrics r !! "outlier_ratio" = None.
Proof. repeat split; reflexivity. Qed.

(** One recorded sample with positive presses goes through the whole
    pipeline without an exception: it is analyzed, its 32 features are
    extracted, and the accumulator accepts it exactly when the pattern
    accuracy is 1 and the timing precision at least 0.85 (the analyzer
    reports no outlier ratio, so the third gate test never fires).  An
    accepted sample adds its vector and its score; a rejected one changes
    nothing. *)
Theorem process_sample_accepts_iff (self : EnrollmentApp) (presses gaps : list Q) :
  presses <> [] -> Forall (fun p => 0 < p) presses ->
  (0 <= RhythmAnalyzer.total_elements (password_info self))%Z ->
  exists (r : RhythmAnalyzer.score) (v : list Q) (res : Enrollment.add_result),
    RhythmAnalyzer.analyze_rhythm presses gaps (password_info self) = Ok r /\
    OptimizedFeatureExtractor.extract (extractor self) presses gaps = Ok v /\
    length v = 32%nat /\
    fst (process_sample self presses gaps) = Ok (Some res) /\
    (Enrollment.status res = "accepted"%string <->
     RhythmAnalyzer.pattern_accuracy r == 1 /\
     0.85 <= RhythmAnalyzer.timing_precision r) /\
    (Enrollment.status res = "accepted"%string ->
     Enrollment.samples (enroller (snd (process_sample self presses gaps)))
       = Enrollment.samples (enroller self) ++ [v] /\
     accepted_scores (snd (process_sample self presses gaps))
       = accepted_scores self ++ [r]) /\
    (Enrollment.status res <> "accepted"%string ->
     snd (process_sample self presses gaps) = self).
Proof.
  intros Hne Hpos Hte.
  destruct (analyze_rhythm_range presses gaps _ Hte)
    as (r & Hr & _ & _ & [_ Hpa] & _).
  destruct (extract_blocks (extractor self) presses gaps Hpos)
    as (base & f1 & f2 & f3 & f4 & _ & _ & _ & L1 & L2 & L3 & L4 & Hv).
  exists r, (f1 ++ f2 ++ f3 ++ f4).
  destruct (as_metrics_lookups r) as (Mt & Mc & Mp & Mo).
  unfold process_sample.
  destruct presses as [ | p ps]; [congruence | ]. cbn [length Nat.eqb].
  rewrite Hr, Hv.
  unfold Enrollment.add, Enrollment._compute_quality, Enrollment._passes_gate,
    Py.getitem, Py.get.
  rewrite Mt, Mc, Mp, Mo. cbn [mbind outcome_bind Py.bind].
  destruct (Py.ltb (RhythmAnalyzer.pattern_accuracy r) 1.0) eqn:E1;
    [apply ltb_true in E1 | apply ltb_false in E1].
  { eexists. split; [reflexivity | ]. split; [reflexivity | ].
    split; [rewrite !length_app, L1, L2, L3, L4; reflexivity | ].
    split; [reflexivity | ]. cbn. split; [ | split].
    - split; [discriminate | ]. intros [Hp1 _]. lra.
    - discriminate.
    - intros _. now destruct self. }
  destruct (Py.ltb (RhythmAnalyzer.timing_precision r) 0.85) eqn:E2;
    [apply ltb_true in E2 | apply ltb_false in E2].
  { eexists. split; [reflexivity | ]. split; [reflexivity | ].
    split; [rewrite !length_app, L1, L2, L3, L4; reflexivity | ].
    split; [reflexivity | ]. cbn. split; [ | split].
    - split; [discriminate | ]. intros [_ Hp2]. lra.
    - discriminate.
    - intros _. now destruct self. }
  assert (E3 : Py.ltb 0.25 0.0 = false) by reflexivity. rewrite E3.
  eexists. split; [reflexivity | ]. split; [reflexivity | ].
  split; [rewrite !length_app, L1, L2, L3, L4; reflexivity | ].
  split; [reflexivity | ]. cbn. split; [ | split].
  - split; [ | reflexivity]. intros _. split; lra.
  - intros _. split; reflexivity.
  - intros Hc. now contradiction Hc.
Qed.

Lemma process_sample_keeps_step (self : EnrollmentApp) (presses gaps : list Q) :
  length (accepted_scores self) = length (Enrollment.samples (enroller self)) ->
  length (accepted_scores (snd (process_sample self presses gaps)))
  = length (Enrollment.samples (enroller (snd (process_sample self presses gaps)))) /\
  password_info (snd (process_sample self presses gaps)) = password_info self /\
  extractor (snd (process_sample self presses gaps)) = extractor self.
Proof.
  intros Hl. unfold process_sample.
  destruct (Nat.eqb (length presses) 0); [now repeat split | ].
  destruct (RhythmAnalyzer.analyze_rhythm presses gaps (password_info self))
    as [r | ex | ]; [ | now repeat split | now repeat split].
  destruct (OptimizedFeatureExtractor.extract (extractor self) presses gaps)
    as [v | ex | ]; [ | now repeat split | now repeat split].
  unfold Enrollment.add.
  destruct (Enrollment._compute_quality (as_metrics r)) as [q | ex | ];
    [ | now repeat split | now repeat split].
  destruct (Enrollment._passes_gate (as_metrics r)) as [[[ | ] reason] | ex | ];
    cbn; rewrite ?length_app, ?Hl; now repeat split.
Qed.

(** Through a whole enrollment the list of accepted scores, which the
    progress label counts, and the samples of the accumulator, which
    [is_complete] counts, have the same length, whatever was recorded. *)
Theorem accepted_scores_track_samples (self : EnrollmentApp)
    (recordings : list (list Q * list Q)) :
  length (accepted_scores (process_all (record_enrollment_samples self) recordings))
  = length (Enrollment.samples
              (enroller (process_all (record_enrollment_samples self) recordings))).
Proof.
  unfold process_all.
  assert (Hinit : length (accepted_scores (record_enrollment_samples self))
                  = length (Enrollment.samples
                              (enroller (record_enrollment_samples self))))
    by reflexivity.
  revert Hinit. generalize (record_enrollment_samples self) as app.
  induction recordings as [ | [presses gaps] recordings IH]; intros app Hl;
    [exact Hl | ].
  cbn [fold_left fst snd]. apply IH.
  now apply process_sample_keeps_step.
Qed.

End RecordingBehaviour.

Section RecordingBehaviourWitnesses.

Import EnrollmentApp.

Lemma process_sample_accepts_iff_witness :
  exists (r : RhythmAnalyzer.score) (v : list Q) (res : Enrollment.add_result),
    RhythmAnalyzer.analyze_rhythm [0.1; 0.3; 0.1] [0.1; 0.1]
      (password_info Cases.enrollment_app) = Ok r /\
    OptimizedFeatureExtractor.extract (extractor Cases.enrollment_app)
      [0.1; 0.3; 0.1] [0.1; 0.1] = Ok v /\
    length v = 32%nat /\
    fst (process_sample Cases.enrollment_app [0.1; 0.3; 0.1] [0.1; 0.1])
      = Ok (Some res) /\
    (Enrollment.status res = "accepted"%string <->
     RhythmAnalyzer.pattern_accuracy r == 1 /\
     0.85 <= RhythmAnalyzer.timing_precision r) /\
    (Enrollment.status res = "accepted"%string ->
     Enrollment.samples
       (enroller (snd (process_sample Cases.enrollment_app [0.1; 0.3; 0.1] [0.1; 0.1])))
       = Enrollment.samples (enroller Cases.enrollment_app) ++ [v] /\
     accepted_scores (snd (process_sample Cases.enrollment_app [0.1; 0.3; 0.1] [0.1; 0.1]))
       = accepted_scores Cases.enrollment_app ++ [r]) /\
    (Enrollment.status res <> "accepted"%string ->
     snd (process_sample Cases.enrollment_app [0.1; 0.3; 0.1] [0.1; 0.1])
       = Cases.enrollment_app).
Proof.
  apply process_sample_accepts_iff.
  - discriminate.
  - repeat constructor.
  - simpl. lia.
Defined.

End RecordingBehaviourWitnesses.
